(** * SearchGear backend: quotation and booking lifecycle

    A shallow embedding of the Express controllers and Mongoose models of the
    SearchGear bus-charter backend:

    - [src/models/QuoteRequest.js], [src/models/Booking.js] (schemas, setters,
      validators, the booking pre-save hook and the booking instance and
      static methods),
    - [src/services/emailService.js] ([sendQuotationEmail]),
    - the quote controller ([submitQuotation]) and the booking controller
      ([getCalendarEvents], [createBookingFromQuotation],
      [updateBookingStatus], [cancelBooking]).

    Modelling conventions.

    - A field that may be [undefined] is an [option].  Prices and passenger
      counts are whole numbers ([Z]).  A number of days may have a fraction
      ([Q]), and so may the total price, its product with the price per day;
      the product is rounded as a double is.
    - Strings are held as the bytes of their UTF-8 encoding; [trim] removes
      the white space of ECMAScript and [length] counts UTF-16 code units.
    - Dates are milliseconds since the epoch ([Z]); the range check of
      [TimeClip] is not modelled.  The server's time zone is a pair of
      offset functions, so the offset may change over the year.
    - The request body and query string are typed: a numeric body field is
      absent or a number, a string field is absent or a string, a date
      parameter is absent/empty, a string that is no date, an all-digit
      string or a date.
    - Identifiers are well-formed ObjectIds: a lookup by [_id] finds a
      document or finds none, it does not fail to cast.
    - The database is an explicit state.  Controllers run in a state and
      exception monad in which the state survives an exception: nothing is
      rolled back when a later step throws.
    - Mongoose is modelled as far as the schemas declare it: [trim] setters
      run on assignment, [save] validates the whole document, then runs the
      schema's pre-save hook, then writes.  The records hold the paths the
      schemas declare; the bookkeeping paths Mongoose maintains by itself
      ([createdAt], [updatedAt], [__v]) are left out, and a statement that
      a document is unchanged is about the declared paths. *)

From Stdlib Require Import ZArith QArith Qround Qabs Qpower.
From Stdlib Require Import String Ascii List Lia.
From stdpp Require Import base option list gmap strings sorting pretty.

Open Scope string_scope.
Open Scope Z_scope.

(** ** JavaScript primitives *)

Module JS.

(** Truthiness of an optional number: [undefined], [0] are falsy. *)
Definition truthy_num (v : option Z) : bool :=
  match v with
  | Some n => negb (n =? 0)
  | None => false
  end.

(** Truthiness of an optional string: [undefined] and [''] are falsy. *)
Definition truthy_str (v : option string) : bool :=
  match v with
  | Some s => negb (String.eqb s "")
  | None => false
  end.

(** [a || b] on optional strings. *)
Definition or_str (a b : option string) : option string :=
  if truthy_str a then a else b.

(** [v <= 0]: [undefined] converts to [NaN], and a comparison with [NaN]
    is false. *)
Definition le0 (v : option Z) : bool :=
  match v with
  | Some n => n <=? 0
  | None => false
  end.

(** *** Numbers with a fraction *)

(** Truthiness of an optional number that may have a fraction. *)
Definition truthy_frac (v : option Q) : bool :=
  match v with
  | Some n => negb (Qeq_bool n 0)
  | None => false
  end.

(** [ToIntegerOrInfinity]: the fraction is dropped, towards zero. *)
Definition trunc (q : Q) : Z :=
  if Qle_bool 0 q then Qfloor q else Qceiling q.

(** The nearest integer, a tie going to the even one. *)
Definition nearest_even (q : Q) : Z :=
  let f := Qfloor q in
  match (q - inject_Z f ?= 1 # 2)%Q with
  | Lt => f
  | Gt => f + 1
  | Eq => if Z.even f then f else f + 1
  end.

(** The binary exponent [e] of [q <> 0]: [2^e <= |q| < 2^(e+1)]. *)
Definition exponent (q : Q) : Z :=
  let a := Qabs q in
  let l := Z.log2 (Qnum a) - Z.log2 (Zpos (Qden a)) in
  if Qle_bool (Qpower 2 l) a then l else l - 1.

Definition maxSafe : Z := 2 ^ 53.

(** The double nearest to [q], as every arithmetic operation on Numbers
    rounds its exact result: 53 significant bits, a tie going to the even
    significand, steps of [2^-1074] at the bottom of the range.  A whole
    number up to [2^53] is a double.  (Results past the largest double,
    which are [Infinity], are not modelled.) *)
Definition toDouble (q : Q) : Q :=
  let r := Qred q in
  if (Qden r =? 1)%positive && (Z.abs (Qnum r) <=? maxSafe) then r
  else
    let e := Z.max (exponent r - 52) (-1074) in
    Qred (inject_Z (nearest_even (r / Qpower 2 e)) * Qpower 2 e).

(** [a * b]; [undefined * b] is [NaN], which no Number path accepts, so the
    product is carried as absent. *)
Definition mul (a : option Z) (b : Q) : option Q :=
  match a with
  | Some x => Some (toDouble (inject_Z x * b))
  | None => None
  end.

(** *** Strings

    A string is held as the bytes of its UTF-8 encoding. *)

(** The white space [String.prototype.trim] removes: the WhiteSpace and
    LineTerminator code points of ECMAScript.  One byte: TAB, LF, VT, FF,
    CR, SP. *)
Definition white1 (a : nat) : bool :=
  ((9 <=? a) && (a <=? 13) || (a =? 32))%nat.

(** Two bytes: U+00A0 (no-break space). *)
Definition white2 (a b : nat) : bool :=
  ((a =? 194) && (b =? 160))%nat.

(** Three bytes: U+1680, U+2000 to U+200A, U+2028, U+2029, U+202F, U+205F,
    U+3000 and U+FEFF. *)
Definition white3 (a b c : nat) : bool :=
  ((a =? 225) && (b =? 154) && (c =? 128)
   || (a =? 226) && (b =? 128)
      && ((128 <=? c) && (c <=? 138) || (c =? 168) || (c =? 169)
          || (c =? 175))
   || (a =? 226) && (b =? 129) && (c =? 159)
   || (a =? 227) && (b =? 128) && (c =? 128)
   || (a =? 239) && (b =? 187) && (c =? 191))%nat.

Fixpoint trimStart (s : string) : string :=
  match s with
  | EmptyString => EmptyString
  | String a s1 =>
      if white1 (nat_of_ascii a) then trimStart s1
      else
        match s1 with
        | EmptyString => s
        | String b s2 =>
            if white2 (nat_of_ascii a) (nat_of_ascii b) then trimStart s2
            else
              match s2 with
              | EmptyString => s
              | String c s3 =>
                  if white3 (nat_of_ascii a) (nat_of_ascii b)
                       (nat_of_ascii c)
                  then trimStart s3
                  else s
              end
        end
  end.

(** The string is white space only. *)
Definition blank (s : string) : bool := String.eqb (trimStart s) "".

(** The longest white-space-only suffix is cut off. *)
Fixpoint trimEnd (s : string) : string :=
  match s with
  | EmptyString => EmptyString
  | String a s1 => if blank s then EmptyString else String a (trimEnd s1)
  end.

Definition trim (s : string) : string := trimEnd (trimStart s).

(** [s.length]: the number of UTF-16 code units.  A byte that starts a
    character counts once, twice when it starts a four-byte character (a
    surrogate pair); a continuation byte does not count. *)
Fixpoint length (s : string) : nat :=
  match s with
  | EmptyString => 0
  | String a s1 =>
      let n := nat_of_ascii a in
      ((if (128 <=? n) && (n <? 192) then 0
        else if 240 <=? n then 2 else 1) + length s1)%nat
  end.

(** *** Dates *)

Definition msPerDay : Z := 86400000.

Definition Day (t : Z) : Z := t / msPerDay.
Definition TimeWithinDay (t : Z) : Z := t mod msPerDay.

(** The local time zone of the server.  [offset t] is the offset of local
    time from UTC, in milliseconds, at the instant [t] ([LocalTZA(t, true)]);
    [offset_at l] is the offset in force at the local time [l]
    ([LocalTZA(l, false)]: for a local time that a change of offset skips or
    repeats, the offset before the change). *)
Record Zone : Type := {
  offset : Z → Z;
  offset_at : Z → Z
}.

Definition LocalTime (tz : Zone) (t : Z) : Z := t + offset tz t.
Definition UTC (tz : Zone) (l : Z) : Z := l - offset_at tz l.

(** A zone without changes of offset. *)
Definition fixed (c : Z) : Zone :=
  {| offset := λ _, c; offset_at := λ _, c |}.

(** The zone has the offset [c] throughout. *)
Definition constant (tz : Zone) (c : Z) : Prop :=
  ∀ t, offset tz t = c ∧ offset_at tz t = c.

(** A zone whose offset changes once, at the instant [change]. *)
Definition changing (change before after : Z) : Zone :=
  {| offset := λ t, if t <? change then before else after;
     offset_at := λ l,
       if l <? change + Z.max before after then before else after |}.

(** A time value is within 8.64e15 ms of the epoch. *)
Definition maxTime : Z := 8640000000000000.

(** [d.setHours(0, 0, 0, 0)]: local midnight of the local day of [t]. *)
Definition setHours0 (tz : Zone) (t : Z) : Z :=
  UTC tz (msPerDay * Day (LocalTime tz t)).

(** [DateFromTime]: the day of the month, from 1, of the day of [t] in the
    proleptic Gregorian calendar. *)
Definition DateFromTime (t : Z) : Z :=
  let doe := (Day t + 719468) mod 146097 in
  let yoe := (doe - doe / 1460 + doe / 36524 - doe / 146096) / 365 in
  let doy := doe - (365 * yoe + yoe / 4 - yoe / 100) in
  let mp := (5 * doy + 2) / 153 in
  doy - (153 * mp + 2) / 5 + 1.

(** [d.setDate(d.getDate() + n)].  The sum is a Number; [MakeDay] drops its
    fraction and counts the days from the first of the month of [d], in
    local time; the local time of day stays. *)
Definition addDays (tz : Zone) (t : Z) (n : Q) : Z :=
  let l := LocalTime tz t in
  let dt := trunc (toDouble (inject_Z (DateFromTime l) + n)) in
  UTC tz (msPerDay * (Day l - DateFromTime l + dt) + TimeWithinDay l).

End JS.

(** ** Schema-level helpers (Mongoose) *)

Module Schema.

(** [required] on a String path: present and non-empty. *)
Definition required_str (s : string) : bool := negb (String.eqb s "").

(** [enum: { values }]. *)
Definition enum (values : list string) (s : string) : bool :=
  existsb (String.eqb s) values.

(** Validators other than [required] do not run on [undefined]. *)
Definition opt {A} (check : A → bool) (v : option A) : bool :=
  match v with
  | Some a => check a
  | None => true
  end.

(** [required] together with a check on the value. *)
Definition req {A} (check : A → bool) (v : option A) : bool :=
  match v with
  | Some a => check a
  | None => false
  end.

Definition min (lo : Z) (n : Z) : bool := lo <=? n.
Definition max (hi : Z) (n : Z) : bool := n <=? hi.
Definition min_frac (lo : Z) (n : Q) : bool := Qle_bool (inject_Z lo) n.
Definition maxlength (n : nat) (s : string) : bool :=
  (JS.length s <=? n)%nat.

End Schema.

Definition ObjectId : Type := string.

(** Errors that reach a controller's [catch]. *)
Inductive Exn : Type :=
| ValidationError (model : string)   (* document failed schema validation *)
| DuplicateKey                       (* insert with an [_id] already stored *)
| CastError                          (* e.g. an Invalid Date in a query *)
| TypeError                          (* property read on [null] *)
| Error (message : string).          (* [new Error(message)] *)

(** ** Documents *)

(** The paths of the User model the controllers read through [populate]. *)
Module User.
Record t : Type := {
  firstName : string;
  lastName : string;
  email : string;
  phone : string
}.
End User.

Module QuoteRequest.

Record t : Type := {
  user : ObjectId;
  pickupLocation : string;
  dropoffLocation : string;
  numberOfDays : Q;
  busType : string;
  numberOfPassengers : Z;
  departureDate : Z;
  specialRequests : option string;
  status : string;
  estimatedPrice : option Z;
  adminNotes : option string
}.

(** Assignments [quote.status = v], [quote.estimatedPrice = v] and
    [quote.adminNotes = v] (the last path has a [trim] setter). *)
Definition set_status (v : string) (q : t) : t :=
  {| user := user q; pickupLocation := pickupLocation q;
     dropoffLocation := dropoffLocation q; numberOfDays := numberOfDays q;
     busType := busType q; numberOfPassengers := numberOfPassengers q;
     departureDate := departureDate q; specialRequests := specialRequests q;
     status := v; estimatedPrice := estimatedPrice q;
     adminNotes := adminNotes q |}.

Definition set_estimatedPrice (v : option Z) (q : t) : t :=
  {| user := user q; pickupLocation := pickupLocation q;
     dropoffLocation := dropoffLocation q; numberOfDays := numberOfDays q;
     busType := busType q; numberOfPassengers := numberOfPassengers q;
     departureDate := departureDate q; specialRequests := specialRequests q;
     status := status q; estimatedPrice := v;
     adminNotes := adminNotes q |}.

Definition set_adminNotes (v : option string) (q : t) : t :=
  {| user := user q; pickupLocation := pickupLocation q;
     dropoffLocation := dropoffLocation q; numberOfDays := numberOfDays q;
     busType := busType q; numberOfPassengers := numberOfPassengers q;
     departureDate := departureDate q; specialRequests := specialRequests q;
     status := status q; estimatedPrice := estimatedPrice q;
     adminNotes := JS.trim <$> v |}.

(** The custom validator of [numberOfPassengers]. *)
Definition passengers_fit (bus : string) (value : Z) : bool :=
  if String.eqb bus "49-seater" && (49 <? value) then false
  else if String.eqb bus "60-seater" && (60 <? value) then false
  else true.

(** The custom validator of [departureDate]: not before today's local
    midnight. *)
Definition departure_not_past (tz : JS.Zone) (now value : Z) : bool :=
  JS.setHours0 tz now <=? value.

(** Schema validation of a whole document. *)
Definition validate (tz : JS.Zone) (now : Z) (q : t) : bool :=
  Schema.required_str (pickupLocation q)
  && Schema.required_str (dropoffLocation q)
  && Schema.min_frac 1 (numberOfDays q)
  && Schema.enum ["49-seater"; "60-seater"] (busType q)
  && Schema.min 1 (numberOfPassengers q)
  && Schema.max 60 (numberOfPassengers q)
  && passengers_fit (busType q) (numberOfPassengers q)
  && departure_not_past tz now (departureDate q)
  && Schema.opt (Schema.maxlength 500) (specialRequests q)
  && Schema.enum ["pending"; "quoted"; "approved"; "rejected"] (status q)
  && Schema.opt (Schema.min 0) (estimatedPrice q).

End QuoteRequest.

(** Audit entries.  The model file of QuotationHistory is not part of the
    sources; the record carries the paths the quote controller writes. *)
Module QuotationHistory.

(** The [{ status, estimatedPrice, adminNotes }] snapshots. *)
Record Snapshot : Type := {
  status : string;
  estimatedPrice : option Z;
  adminNotes : option string
}.

Record Metadata : Type := {
  ipAddress : string;
  userAgent : option string;
  emailStatus : option string;
  emailMessageId : option string;
  comment : string
}.

(** [previousState] and [newState] are [None] for the empty object [{}]. *)
Record t : Type := {
  quoteId : ObjectId;
  userId : ObjectId;
  action : string;
  previousState : option Snapshot;
  newState : option Snapshot;
  metadata : Metadata
}.

End QuotationHistory.

Module Booking.

Record t : Type := {
  _id : ObjectId;
  quoteRequest : ObjectId;
  user : ObjectId;
  pickupLocation : string;
  dropoffLocation : string;
  departureDate : option Z;
  returnDate : option Z;
  numberOfDays : option Q;
  busType : string;
  numberOfPassengers : Z;
  totalPrice : option Q;
  pricePerDay : option Z;
  status : string;
  paymentStatus : string;
  bookingType : string;
  paymentMethod : option string;
  paymentDate : option Z;
  invoiceNumber : option string;
  specialRequests : option string;
  adminNotes : option string;
  cancellationReason : option string;
  cancelledAt : option Z;
  cancelledBy : option ObjectId
}.

(** Assignment [booking.status = v]. *)
Definition set_status (v : string) (b : t) : t :=
  {| _id := _id b; quoteRequest := quoteRequest b; user := user b;
     pickupLocation := pickupLocation b; dropoffLocation := dropoffLocation b;
     departureDate := departureDate b; returnDate := returnDate b;
     numberOfDays := numberOfDays b; busType := busType b;
     numberOfPassengers := numberOfPassengers b; totalPrice := totalPrice b;
     pricePerDay := pricePerDay b; status := v;
     paymentStatus := paymentStatus b; bookingType := bookingType b;
     paymentMethod := paymentMethod b; paymentDate := paymentDate b;
     invoiceNumber := invoiceNumber b; specialRequests := specialRequests b;
     adminNotes := adminNotes b; cancellationReason := cancellationReason b;
     cancelledAt := cancelledAt b; cancelledBy := cancelledBy b |}.

(** Assignment [booking.adminNotes = v]; the path has a [trim] setter. *)
Definition set_adminNotes (v : option string) (b : t) : t :=
  {| _id := _id b; quoteRequest := quoteRequest b; user := user b;
     pickupLocation := pickupLocation b; dropoffLocation := dropoffLocation b;
     departureDate := departureDate b; returnDate := returnDate b;
     numberOfDays := numberOfDays b; busType := busType b;
     numberOfPassengers := numberOfPassengers b; totalPrice := totalPrice b;
     pricePerDay := pricePerDay b; status := status b;
     paymentStatus := paymentStatus b; bookingType := bookingType b;
     paymentMethod := paymentMethod b; paymentDate := paymentDate b;
     invoiceNumber := invoiceNumber b; specialRequests := specialRequests b;
     adminNotes := JS.trim <$> v; cancellationReason := cancellationReason b;
     cancelledAt := cancelledAt b; cancelledBy := cancelledBy b |}.

(** Assignment [this.returnDate = v]. *)
Definition set_returnDate (v : option Z) (b : t) : t :=
  {| _id := _id b; quoteRequest := quoteRequest b; user := user b;
     pickupLocation := pickupLocation b; dropoffLocation := dropoffLocation b;
     departureDate := departureDate b; returnDate := v;
     numberOfDays := numberOfDays b; busType := busType b;
     numberOfPassengers := numberOfPassengers b; totalPrice := totalPrice b;
     pricePerDay := pricePerDay b; status := status b;
     paymentStatus := paymentStatus b; bookingType := bookingType b;
     paymentMethod := paymentMethod b; paymentDate := paymentDate b;
     invoiceNumber := invoiceNumber b; specialRequests := specialRequests b;
     adminNotes := adminNotes b; cancellationReason := cancellationReason b;
     cancelledAt := cancelledAt b; cancelledBy := cancelledBy b |}.

(** The three cancellation paths, assigned together by [cancel];
    [cancellationReason] has a [trim] setter. *)
Definition set_cancellation (reason : option string) (at_ : Z)
    (by_ : ObjectId) (b : t) : t :=
  {| _id := _id b; quoteRequest := quoteRequest b; user := user b;
     pickupLocation := pickupLocation b; dropoffLocation := dropoffLocation b;
     departureDate := departureDate b; returnDate := returnDate b;
     numberOfDays := numberOfDays b; busType := busType b;
     numberOfPassengers := numberOfPassengers b; totalPrice := totalPrice b;
     pricePerDay := pricePerDay b; status := status b;
     paymentStatus := paymentStatus b; bookingType := bookingType b;
     paymentMethod := paymentMethod b; paymentDate := paymentDate b;
     invoiceNumber := invoiceNumber b; specialRequests := specialRequests b;
     adminNotes := adminNotes b; cancellationReason := JS.trim <$> reason;
     cancelledAt := Some at_; cancelledBy := Some by_ |}.

(** Schema validation of a whole document. *)
Definition validate (b : t) : bool :=
  Schema.required_str (pickupLocation b)
  && Schema.required_str (dropoffLocation b)
  && bool_decide (is_Some (departureDate b))
  && Schema.req (Schema.min_frac 1) (numberOfDays b)
  && Schema.enum ["49-seater"; "60-seater"] (busType b)
  && Schema.min 1 (numberOfPassengers b)
  && Schema.req (Schema.min_frac 0) (totalPrice b)
  && Schema.req (Schema.min 0) (pricePerDay b)
  && Schema.enum ["confirmed"; "in-progress"; "completed"; "cancelled"]
       (status b)
  && Schema.enum ["pending"; "partial"; "paid"; "refunded"] (paymentStatus b)
  && Schema.enum ["quotation"; "confirmed"; "paid"] (bookingType b)
  && Schema.opt
       (Schema.enum
          ["cash"; "bank-transfer"; "credit-card"; "gcash"; "paymaya"])
       (paymentMethod b)
  && Schema.opt (Schema.maxlength 1000) (specialRequests b).

(** The pre-save hook:
    [if (!this.returnDate && this.departureDate && this.numberOfDays)]
    a return date is computed from the departure date.  A Date object is
    truthy; a number is truthy unless it is [0]. *)
Definition preSave (tz : JS.Zone) (b : t) : t :=
  match returnDate b, departureDate b with
  | None, Some d =>
      if JS.truthy_frac (numberOfDays b)
      then set_returnDate
             (Some (JS.addDays tz d (default 0%Q (numberOfDays b)))) b
      else b
  | _, _ => b
  end.

(** The instance method [cancel(userId, reason)], up to its [save]. *)
Definition cancel (now : Z) (userId : ObjectId) (reason : option string)
    (b : t) : t :=
  set_cancellation reason now userId (set_status "cancelled" b).

End Booking.

(** ** The database and the environment of a request *)

Record Db : Type := {
  users : gmap ObjectId User.t;
  quotes : gmap ObjectId QuoteRequest.t;
  bookings : list Booking.t;
  history : list QuotationHistory.t
}.

(** What [transporter.sendMail] does with a message. *)
Inductive SendMailOutcome : Type :=
| Sent (messageId : string)
| Rejected (errorMessage : string).

Record Env : Type := {
  now : Z;                              (* [new Date()] *)
  tz : JS.Zone;                         (* the server's time zone *)
  development : bool;                   (* [NODE_ENV === 'development'] *)
  sendMail : string → SendMailOutcome;  (* the mail transport, by recipient *)
  newId : ObjectId                      (* the [_id] given to a new document *)
}.

Record Request : Type := {
  id : ObjectId;               (* [req.params.id] *)
  actor : ObjectId;            (* [req.user._id] *)
  ip : string;                 (* [req.ip] *)
  userAgent : option string    (* [req.get('user-agent')] *)
}.

(** ** State and exception monad

    An [await] that rejects leaves the writes made so far in place. *)

Definition M (A : Type) : Type := Db → (Exn + A) * Db.

#[global] Instance M_ret : MRet M := λ A a db, (inr a, db).

#[global] Instance M_bind : MBind M := λ A B k m db,
  match m db with
  | (inl e, db') => (inl e, db')
  | (inr a, db') => k a db'
  end.

Definition throw {A} (e : Exn) : M A := λ db, (inl e, db).
Definition get : M Db := λ db, (inr db, db).
Definition modify (f : Db → Db) : M unit := λ db, (inr tt, f db).

(** The three writes the controllers make. *)
Definition store_quote (qid : ObjectId) (q : QuoteRequest.t) (db : Db) : Db :=
  {| users := users db; quotes := <[qid := q]> (quotes db);
     bookings := bookings db; history := history db |}.

Definition store_bookings (l : list Booking.t) (db : Db) : Db :=
  {| users := users db; quotes := quotes db; bookings := l;
     history := history db |}.

Definition log_entry (e : QuotationHistory.t) (db : Db) : Db :=
  {| users := users db; quotes := quotes db; bookings := bookings db;
     history := history db ++ [e] |}.

(** Reading a property of a populated reference: [TypeError] on [null]. *)
Definition deref {A} (o : option A) : M A :=
  match o with
  | Some a => mret a
  | None => throw TypeError
  end.

Definition lift {A} (r : Exn + A) : M A :=
  match r with
  | inl e => throw e
  | inr a => mret a
  end.

(** [try { body } catch (error) { handler }] around a whole controller. *)
Definition try_catch {A} (body : M A) (handler : Exn → A) : Db → A * Db :=
  λ db,
    match body db with
    | (inl e, db') => (handler e, db')
    | (inr a, db') => (a, db')
    end.

(** ** Collections *)

Module Users.
(** [populate('user', ...)]: the referenced user, [null] when it is gone. *)
Definition populate (uid : ObjectId) : M (option User.t) :=
  db ← get; mret (users db !! uid).
End Users.

Module Quotes.

Definition findById (qid : ObjectId) : M (option QuoteRequest.t) :=
  db ← get; mret (quotes db !! qid).

(** [quote.save()]: validation, then the write. *)
Definition save (env : Env) (qid : ObjectId) (q : QuoteRequest.t) : M unit :=
  if QuoteRequest.validate (tz env) (now env) q
  then modify (store_quote qid q)
  else throw (ValidationError "QuoteRequest").

End Quotes.

Module History.

(** Modelled from the spec: [QuotationHistory.createEntry] is not part of
    the sources.  The audit log is append-only and [append(entry)] is a pure
    insert: the entry is added at the end of the log. *)
Definition createEntry (e : QuotationHistory.t) : M unit :=
  modify (log_entry e).

End History.

(** Ascending order of [departureDate], as [sort({ departureDate: 1 })]
    orders documents; a missing date sorts first. *)
Definition departs_le (a b : Booking.t) : Prop :=
  match Booking.departureDate a, Booking.departureDate b with
  | None, _ => True
  | Some _, None => False
  | Some x, Some y => x ≤ y
  end.

#[global] Instance departs_le_dec : RelDecision departs_le.
Proof.
  intros a b. unfold departs_le.
  destruct (Booking.departureDate a), (Booking.departureDate b);
    try apply _.
Defined.

Module Bookings.

Definition has_id (bid : ObjectId) (b : Booking.t) : bool :=
  String.eqb (Booking._id b) bid.

Definition findById (bid : ObjectId) : M (option Booking.t) :=
  db ← get; mret (find (has_id bid) (bookings db)).

(** [Booking.findOne({ quoteRequest: qid })]. *)
Definition references (qid : ObjectId) (b : Booking.t) : bool :=
  String.eqb (Booking.quoteRequest b) qid.

Definition findOne_quoteRequest (qid : ObjectId) : M (option Booking.t) :=
  db ← get; mret (find (references qid) (bookings db)).

(** [doc.save()]: validation runs first, then the pre-save hook, then the
    write (an insert for a new document, a replacement otherwise).  The
    document, as the hook left it, is what the caller holds afterwards. *)
Definition save (env : Env) (isNew : bool) (b : Booking.t) : M Booking.t :=
  if Booking.validate b then
    let b' := Booking.preSave (tz env) b in
    db ← get;
    if isNew then
      if existsb (has_id (Booking._id b')) (bookings db)
      then throw DuplicateKey
      else _ ← modify (store_bookings (bookings db ++ [b'])); mret b'
    else
      _ ← modify
            (store_bookings
               (map (λ x, if has_id (Booking._id b') x then b' else x)
                    (bookings db)));
      mret b'
  else throw (ValidationError "Booking").

(** The [trim] setters of the schema, applied to the paths given to
    [Booking.create]. *)
Definition cast (b : Booking.t) : Booking.t :=
  {| Booking._id := Booking._id b;
     Booking.quoteRequest := Booking.quoteRequest b;
     Booking.user := Booking.user b;
     Booking.pickupLocation := JS.trim (Booking.pickupLocation b);
     Booking.dropoffLocation := JS.trim (Booking.dropoffLocation b);
     Booking.departureDate := Booking.departureDate b;
     Booking.returnDate := Booking.returnDate b;
     Booking.numberOfDays := Booking.numberOfDays b;
     Booking.busType := Booking.busType b;
     Booking.numberOfPassengers := Booking.numberOfPassengers b;
     Booking.totalPrice := Booking.totalPrice b;
     Booking.pricePerDay := Booking.pricePerDay b;
     Booking.status := Booking.status b;
     Booking.paymentStatus := Booking.paymentStatus b;
     Booking.bookingType := Booking.bookingType b;
     Booking.paymentMethod := JS.trim <$> Booking.paymentMethod b;
     Booking.paymentDate := Booking.paymentDate b;
     Booking.invoiceNumber := JS.trim <$> Booking.invoiceNumber b;
     Booking.specialRequests := JS.trim <$> Booking.specialRequests b;
     Booking.adminNotes := JS.trim <$> Booking.adminNotes b;
     Booking.cancellationReason := JS.trim <$> Booking.cancellationReason b;
     Booking.cancelledAt := Booking.cancelledAt b;
     Booking.cancelledBy := Booking.cancelledBy b |}.

(** [Booking.create(doc)]. *)
Definition create (env : Env) (b : Booking.t) : M Booking.t :=
  save env true (cast b).

(** The instance method [cancel(userId, reason)]. *)
Definition cancel (env : Env) (userId : ObjectId) (reason : option string)
    (b : Booking.t) : M Booking.t :=
  save env false (Booking.cancel (now env) userId reason b).

(** [departureDate: { $gte: startDate, $lte: endDate }]. *)
Definition in_range (startDate endDate : Z) (b : Booking.t) : bool :=
  match Booking.departureDate b with
  | Some d => (startDate <=? d) && (d <=? endDate)
  | None => false
  end.

(** The static [getByDateRange].  An Invalid Date ([None]) in the filter
    does not cast. *)
Definition getByDateRange (startDate endDate : option Z)
    : M (list Booking.t) :=
  match startDate, endDate with
  | Some s, Some e =>
      db ← get;
      mret (merge_sort departs_le (filter (in_range s e) (bookings db)))
  | _, _ => throw CastError
  end.

End Bookings.

(** ** The notification gateway *)

Module emailService.

Record Result : Type := {
  success : bool;
  messageId : string;
  message : string
}.

(** [sendQuotationEmail]: the body formats the message and hands it to the
    transport inside one [try]; whatever fails there is rethrown as a new
    [Error].  The only value ever returned has [success: true]. *)
Definition sendQuotationEmail (env : Env) (to : string) (price : option Z)
    (adminNotes : option string) : Exn + Result :=
  match sendMail env to with
  | Sent mid =>
      inr {| success := true; messageId := mid;
             message := "Quotation email sent successfully" |}
  | Rejected m =>
      inl (Error ("Failed to send quotation email: " +:+ m))
  end.

End emailService.

(** ** HTTP responses *)

Record CalendarEvent : Type := {
  ev_id : ObjectId;
  title : string;
  start : option Z;              (* [None]: an Invalid Date *)
  end_ : option Z;
  resource : Booking.t           (* [bookingType], [status], [paymentStatus]
                                    and [booking] of the same booking *)
}.

Inductive Message : Type :=
| Text (s : string)
| MessageOf (e : Exn).           (* [error.message] *)

Inductive Payload : Type :=
| Submission (quote : QuoteRequest.t) (emailSent : bool)
    (emailMessageId : option string) (emailError : option string)
| BookingData (booking : Booking.t)
| Events (events : list CalendarEvent).

Record Response : Type := {
  code : Z;                      (* [res.status(code)] *)
  success : bool;
  message : option Message;
  count : option nat;
  data : option Payload;
  warning : option string;
  error : option Message
}.

Definition reply (c : Z) (ok : bool) (msg : string) : Response :=
  {| code := c; success := ok; message := Some (Text msg); count := None;
     data := None; warning := None; error := None |}.

Definition reply_data (c : Z) (ok : bool) (msg : string) (d : Payload)
    : Response :=
  {| code := c; success := ok; message := Some (Text msg); count := None;
     data := Some d; warning := None; error := None |}.

(** [error.message || fallback]. *)
Definition message_or (e : Exn) (fallback : string) : Message :=
  match e with
  | Error "" => Text fallback
  | _ => MessageOf e
  end.

Definition reply_error (e : Exn) (fallback : string) : Response :=
  {| code := 500; success := false; message := Some (message_or e fallback);
     count := None; data := None; warning := None; error := None |}.

(** ** The quote controller *)

Module quoteController.

Definition snapshot (q : QuoteRequest.t) : QuotationHistory.Snapshot :=
  {| QuotationHistory.status := QuoteRequest.status q;
     QuotationHistory.estimatedPrice := QuoteRequest.estimatedPrice q;
     QuotationHistory.adminNotes := QuoteRequest.adminNotes q |}.

(** Step 4 of [submitQuotation]: the three assignments to the quote. *)
Definition priced (estimatedPrice : option Z) (adminNotes : option string)
    (q : QuoteRequest.t) : QuoteRequest.t :=
  QuoteRequest.set_adminNotes
    (JS.or_str adminNotes (QuoteRequest.adminNotes q))
    (QuoteRequest.set_estimatedPrice estimatedPrice
       (QuoteRequest.set_status "quoted" q)).

Definition price_updated (req : Request) (previous current : QuoteRequest.t)
    : QuotationHistory.t :=
  {| QuotationHistory.quoteId := id req;
     QuotationHistory.userId := actor req;
     QuotationHistory.action := "price_updated";
     QuotationHistory.previousState := Some (snapshot previous);
     QuotationHistory.newState := Some (snapshot current);
     QuotationHistory.metadata :=
       {| QuotationHistory.ipAddress := ip req;
          QuotationHistory.userAgent := userAgent req;
          QuotationHistory.emailStatus := None;
          QuotationHistory.emailMessageId := None;
          QuotationHistory.comment := "Admin submitted quotation" |} |}.

Definition email_sent (req : Request) (r : emailService.Result)
    : QuotationHistory.t :=
  {| QuotationHistory.quoteId := id req;
     QuotationHistory.userId := actor req;
     QuotationHistory.action := "email_sent";
     QuotationHistory.previousState := None;
     QuotationHistory.newState := None;
     QuotationHistory.metadata :=
       {| QuotationHistory.ipAddress := ip req;
          QuotationHistory.userAgent := userAgent req;
          QuotationHistory.emailStatus :=
            Some (if emailService.success r then "success" else "failed");
          QuotationHistory.emailMessageId :=
            (if String.eqb (emailService.messageId r) "" then None
             else Some (emailService.messageId r));
          QuotationHistory.comment :=
            (if emailService.success r
             then "Quotation email sent successfully"
             else "Email failed: " +:+
                    (if String.eqb (emailService.message r) ""
                     then "Unknown error" else emailService.message r)) |} |}.

Definition submitQuotation (env : Env) (req : Request)
    (estimatedPrice : option Z) (adminNotes : option string)
    : Db → Response * Db :=
  try_catch
    (if negb (JS.truthy_num estimatedPrice) || JS.le0 estimatedPrice then
       mret (reply 400 false "Please provide a valid estimated price")
     else
       found ← Quotes.findById (id req);
       match found with
       | None => mret (reply 404 false "Quote request not found")
       | Some quote =>
           user ← Users.populate (QuoteRequest.user quote);
           let quote' := priced estimatedPrice adminNotes quote in
           _ ← Quotes.save env (id req) quote';
           _ ← History.createEntry (price_updated req quote quote');
           u ← deref user;
           emailResult ←
             lift (emailService.sendQuotationEmail env (User.email u)
                     estimatedPrice adminNotes);
           _ ← History.createEntry (email_sent req emailResult);
           if emailService.success emailResult then
             mret (reply_data 200 true
                     "Quotation submitted and email sent successfully"
                     (Submission quote' true
                        (Some (emailService.messageId emailResult)) None))
           else
             mret {| code := 200; success := true;
                     message := Some (Text
                       "Quotation saved but email delivery failed. Please contact the customer directly.");
                     count := None;
                     data := Some (Submission quote' false None
                               (Some (emailService.message emailResult)));
                     warning := Some
                       "Email was not delivered. Please follow up manually.";
                     error := None |}
       end)
    (λ e,
       {| code := 500; success := false;
          message := Some (Text "Error submitting quotation");
          count := None; data := None; warning := None;
          error := if development env then Some (MessageOf e) else None |}).

End quoteController.

(** ** The booking model's calendar view and the booking controller *)

(** A date parameter of a request.  [new Date(value)] reads a date string;
    so does the cast of a Date path of a schema, which also takes a numeric
    string past the range of years (such as ['1893456000000']) as
    milliseconds since the epoch. *)
Inductive DateParam : Type :=
| Missing                        (* absent or empty: falsy *)
| Unparseable                    (* a string that is no date: Invalid Date *)
| Milliseconds (t : Z)           (* digits: an Invalid Date for [new Date],
                                    the date [t] for the cast *)
| DateString (t : Z).

Definition given (p : DateParam) : bool :=
  match p with
  | Missing => false
  | _ => true
  end.

Definition new_Date (p : DateParam) : option Z :=
  match p with
  | DateString t => Some t
  | _ => None
  end.

(** The cast of a Date path. *)
Definition cast_Date (p : DateParam) : option Z :=
  match p with
  | DateString t | Milliseconds t => Some t
  | _ => None
  end.

Fixpoint mapM {A B} (f : A → M B) (l : list A) : M (list B) :=
  match l with
  | [] => mret []
  | x :: l' => y ← f x; ys ← mapM f l'; mret (y :: ys)
  end.

Module BookingStatics.

(** The callback of [bookings.map] in [getCalendarEvents]; the booking's
    [user] is populated. *)
Definition toEvent (booking : Booking.t) : M CalendarEvent :=
  user ← Users.populate (Booking.user booking);
  u ← deref user;
  mret {| ev_id := Booking._id booking;
          title := User.firstName u +:+ " " +:+ User.lastName u +:+ " - "
                     +:+ Booking.busType booking;
          start := Booking.departureDate booking;
          end_ := match Booking.returnDate booking with
                  | Some r => Some r
                  | None => Booking.departureDate booking
                  end;
          resource := booking |}.

Definition getCalendarEvents (startDate endDate : option Z)
    : M (list CalendarEvent) :=
  found ← Bookings.getByDateRange startDate endDate;
  mapM toEvent found.

End BookingStatics.

Module bookingController.

Definition getCalendarEvents (start_ end_ : DateParam)
    : Db → Response * Db :=
  try_catch
    (if negb (given start_) || negb (given end_) then
       mret (reply 400 false "Start and end dates are required")
     else
       events ← BookingStatics.getCalendarEvents
                  (new_Date start_) (new_Date end_);
       mret {| code := 200; success := true; message := None;
               count := Some (length events); data := Some (Events events);
               warning := None; error := None |})
    (λ _, reply 500 false "Error fetching calendar events").

(** The document handed to [Booking.create]. *)
Definition fromQuotation (env : Env) (qid : ObjectId)
    (quote : QuoteRequest.t) : Booking.t :=
  {| Booking._id := newId env;
     Booking.quoteRequest := qid;
     Booking.user := QuoteRequest.user quote;
     Booking.pickupLocation := QuoteRequest.pickupLocation quote;
     Booking.dropoffLocation := QuoteRequest.dropoffLocation quote;
     Booking.departureDate := Some (QuoteRequest.departureDate quote);
     Booking.returnDate := None;
     Booking.numberOfDays := Some (QuoteRequest.numberOfDays quote);
     Booking.busType := QuoteRequest.busType quote;
     Booking.numberOfPassengers := QuoteRequest.numberOfPassengers quote;
     Booking.totalPrice :=
       JS.mul (QuoteRequest.estimatedPrice quote)
         (QuoteRequest.numberOfDays quote);
     Booking.pricePerDay := QuoteRequest.estimatedPrice quote;
     Booking.status := "confirmed";
     Booking.paymentStatus := "pending";
     Booking.bookingType := "confirmed";
     Booking.paymentMethod := None;
     Booking.paymentDate := None;
     Booking.invoiceNumber := None;
     Booking.specialRequests := QuoteRequest.specialRequests quote;
     Booking.adminNotes := QuoteRequest.adminNotes quote;
     Booking.cancellationReason := None;
     Booking.cancelledAt := None;
     Booking.cancelledBy := None |}.

Definition createBookingFromQuotation (env : Env) (quoteRequestId : ObjectId)
    : Db → Response * Db :=
  try_catch
    (found ← Quotes.findById quoteRequestId;
     match found with
     | None => mret (reply 404 false "Quote request not found")
     | Some quote =>
         user ← Users.populate (QuoteRequest.user quote);
         if negb (String.eqb (QuoteRequest.status quote) "approved") then
           mret (reply 400 false
                   "Quote must be approved before creating booking")
         else
           existingBooking ← Bookings.findOne_quoteRequest quoteRequestId;
           match existingBooking with
           | Some _ =>
               mret (reply 400 false
                       "Booking already exists for this quotation")
           | None =>
               _ ← deref user;
               booking ← Bookings.create env
                           (fromQuotation env quoteRequestId quote);
               mret (reply_data 201 true "Booking created successfully"
                       (BookingData booking))
           end
     end)
    (λ e, reply_error e "Error creating booking").

(** [if (status) booking.status = status;
     if (adminNotes) booking.adminNotes = adminNotes;] *)
Definition assigned (status adminNotes : option string)
    (booking : Booking.t) : Booking.t :=
  let booking1 :=
    match status with
    | Some s => if JS.truthy_str status
                then Booking.set_status s booking else booking
    | None => booking
    end in
  if JS.truthy_str adminNotes
  then Booking.set_adminNotes adminNotes booking1 else booking1.

Definition updateBookingStatus (env : Env) (req : Request)
    (status adminNotes : option string) : Db → Response * Db :=
  try_catch
    (found ← Bookings.findById (id req);
     match found with
     | None => mret (reply 404 false "Booking not found")
     | Some booking =>
         saved ← Bookings.save env false (assigned status adminNotes booking);
         mret (reply_data 200 true "Booking updated successfully"
                 (BookingData saved))
     end)
    (λ e, reply_error e "Error updating booking").

Definition cancelBooking (env : Env) (req : Request)
    (reason : option string) : Db → Response * Db :=
  try_catch
    (found ← Bookings.findById (id req);
     match found with
     | None => mret (reply 404 false "Booking not found")
     | Some booking =>
         if String.eqb (Booking.status booking) "cancelled" then
           mret (reply 400 false "Booking is already cancelled")
         else
           saved ← Bookings.cancel env (actor req) reason booking;
           mret (reply_data 200 true "Booking cancelled successfully"
                   (BookingData saved))
     end)
    (λ e, reply_error e "Error cancelling booking").

End bookingController.

(** ** Notions used by the statements *)

(** The bookings that reference a quote. *)
Definition bookingsFor (qid : ObjectId) (db : Db) : list Booking.t :=
  filter (λ b, Booking.quoteRequest b = qid) (bookings db).

(** Calendar events in ascending order of their [start]. *)
Definition event_le (a b : CalendarEvent) : Prop :=
  match start a, start b with
  | Some x, Some y => x ≤ y
  | _, _ => False
  end.

(** The [end] the calendar shows for a booking. *)
Definition shown_end (b : Booking.t) : option Z :=
  match Booking.returnDate b with
  | Some r => Some r
  | None => Booking.departureDate b
  end.

(** An event made from a booking. *)
Definition event_of (b : Booking.t) (ev : CalendarEvent) : Prop :=
  resource ev = b
  ∧ ev_id ev = Booking._id b
  ∧ start ev = Booking.departureDate b
  ∧ end_ ev = shown_end b.

(** Two bookings agree on every path of the schema other than [status],
    [adminNotes] and [returnDate].  (The timestamps are not paths of the
    record: [save] rewrites [updatedAt].) *)
Definition same_other_paths (a b : Booking.t) : Prop :=
  Booking._id a = Booking._id b
  ∧ Booking.quoteRequest a = Booking.quoteRequest b
  ∧ Booking.user a = Booking.user b
  ∧ Booking.pickupLocation a = Booking.pickupLocation b
  ∧ Booking.dropoffLocation a = Booking.dropoffLocation b
  ∧ Booking.departureDate a = Booking.departureDate b
  ∧ Booking.numberOfDays a = Booking.numberOfDays b
  ∧ Booking.busType a = Booking.busType b
  ∧ Booking.numberOfPassengers a = Booking.numberOfPassengers b
  ∧ Booking.totalPrice a = Booking.totalPrice b
  ∧ Booking.pricePerDay a = Booking.pricePerDay b
  ∧ Booking.paymentStatus a = Booking.paymentStatus b
  ∧ Booking.bookingType a = Booking.bookingType b
  ∧ Booking.paymentMethod a = Booking.paymentMethod b
  ∧ Booking.paymentDate a = Booking.paymentDate b
  ∧ Booking.invoiceNumber a = Booking.invoiceNumber b
  ∧ Booking.specialRequests a = Booking.specialRequests b
  ∧ Booking.cancellationReason a = Booking.cancellationReason b
  ∧ Booking.cancelledAt a = Booking.cancelledAt b
  ∧ Booking.cancelledBy a = Booking.cancelledBy b.

(** The database once [submitQuotation] has saved the priced quote and
    written the [price_updated] entry. *)
Definition price_recorded (req : Request) (p : Z) (notes : option string)
    (q : QuoteRequest.t) (db : Db) : Db :=
  log_entry
    (quoteController.price_updated req q
       (quoteController.priced (Some p) notes q))
    (store_quote (id req) (quoteController.priced (Some p) notes q) db).

(** ** Proof automation *)

(** Unfolds the monad. *)
Ltac run :=
  unfold try_catch, mbind, M_bind, mret, M_ret, get, modify, throw, deref,
    lift; simpl.

(** Cases of the pre-save hook. *)
Ltac hook := unfold Booking.preSave; repeat case_match; simpl; congruence.

(** Cases of the two conditional assignments of [updateBookingStatus]. *)
Ltac assigned_cases :=
  unfold bookingController.assigned, Booking.preSave, JS.truthy_str;
  repeat case_match; simpl in *; try congruence.

(** ** A small database for the examples *)

Module Sample.

Definition alice : User.t :=
  {| User.firstName := "Alice"; User.lastName := "Cruz";
     User.email := "alice@example.com"; User.phone := "09170000000" |}.

(** Manila to Baguio, 3 days, 49-seater, 45 passengers, departing
    2025-12-10. *)
Definition trip (st : string) (price : option Z) (notes : option string)
    : QuoteRequest.t :=
  {| QuoteRequest.user := "u1";
     QuoteRequest.pickupLocation := "Manila";
     QuoteRequest.dropoffLocation := "Baguio";
     QuoteRequest.numberOfDays := 3%Q;
     QuoteRequest.busType := "49-seater";
     QuoteRequest.numberOfPassengers := 45;
     QuoteRequest.departureDate := 1765324800000;
     QuoteRequest.specialRequests := None;
     QuoteRequest.status := st;
     QuoteRequest.estimatedPrice := price;
     QuoteRequest.adminNotes := notes |}.

Definition lasting (days : Q) (bid qid : ObjectId) (departure : Z)
    (ret : option Z) (st : string) (notes : option string) : Booking.t :=
  {| Booking._id := bid;
     Booking.quoteRequest := qid;
     Booking.user := "u1";
     Booking.pickupLocation := "Quezon City";
     Booking.dropoffLocation := "Tagaytay";
     Booking.departureDate := Some departure;
     Booking.returnDate := ret;
     Booking.numberOfDays := Some days;
     Booking.busType := "60-seater";
     Booking.numberOfPassengers := 55;
     Booking.totalPrice := Some 36000%Q;
     Booking.pricePerDay := Some 18000;
     Booking.status := st;
     Booking.paymentStatus := "pending";
     Booking.bookingType := "confirmed";
     Booking.paymentMethod := None;
     Booking.paymentDate := None;
     Booking.invoiceNumber := None;
     Booking.specialRequests := None;
     Booking.adminNotes := notes;
     Booking.cancellationReason :=
       if String.eqb st "cancelled" then Some "Customer request" else None;
     Booking.cancelledAt :=
       if String.eqb st "cancelled" then Some 1764550000000 else None;
     Booking.cancelledBy :=
       if String.eqb st "cancelled" then Some "admin0" else None |}.

Definition booked : ObjectId → ObjectId → Z → option Z → string
                    → option string → Booking.t :=
  lasting 2.

(** [q1] is pending, [q2] approved at 15000 a day, [q3] rejected.  Booking
    [b7] departs 2025-12-20 and has no return date, [b8] departs 2025-12-15
    and carries admin notes, [b9] departs 2026-01-05 and is cancelled. *)
Definition db : Db :=
  {| users := {[ "u1" := alice ]};
     quotes :=
       <[ "q1" := trip "pending" None None ]>
         (<[ "q2" := trip "approved" (Some 15000) (Some "AC included") ]>
            {[ "q3" := trip "rejected" (Some 9000) None ]});
     bookings :=
       [ booked "b7" "q7" 1766188800000 None "confirmed" None;
         booked "b8" "q8" 1765756800000 (Some 1765929600000) "confirmed"
           (Some "Bring water");
         booked "b9" "q9" 1767571200000 (Some 1767744000000) "cancelled"
           None ];
     history := [] |}.

(** 2025-12-01 00:00 UTC, in a UTC+8 zone; the transport delivers, or
    refuses the connection. *)
Definition env (transport : SendMailOutcome) : Env :=
  {| now := 1764547200000; tz := JS.fixed 28800000; development := false;
     sendMail := λ _, transport; newId := "b10" |}.

Definition delivering : Env := env (Sent "<m1@searchgear>").
Definition failing : Env := env (Rejected "connect ECONNREFUSED").

Definition req (target : ObjectId) : Request :=
  {| id := target; actor := "admin1"; ip := "127.0.0.1";
     userAgent := Some "curl/8" |}.

End Sample.

(** * The rest of the controllers and of the booking model

    The other handlers of the quote controller ([createQuote],
    [getQuoteById], [updateQuote], [deleteQuote],
    [getQuoteCalendarEvents]) and of the booking controller
    ([getAllBookings], [getBookingById], [markAsPaid], [deleteBooking]), the
    [markAsPaid] method and the virtuals of the booking model.  ([getMyQuotes]
    and [getAllQuotes] order by [createdAt], which is not modelled.) *)

(** ** More JavaScript primitives *)

Module JSOps.

(** [a > b] for an optional number: a comparison with [undefined] is
    false. *)
Definition gt (a : option Z) (b : Z) : bool :=
  match a with
  | Some x => b <? x
  | None => false
  end.

(** [d < t] for a Date [d]: false for an Invalid Date. *)
Definition date_lt (d : option Z) (t : Z) : bool :=
  match d with
  | Some x => x <? t
  | None => false
  end.

(** [s.slice(-n)] of an ASCII string: the last [n] characters, all of [s]
    when it is shorter. *)
Definition slice_last (n : nat) (s : string) : string :=
  String.substring (String.length s - n) n s.

(** [String(n)] of a whole number: its decimal digits.  (From [2^53] on not
    every whole number is a double, and the digits printed are the shortest
    that name the double.) *)
Definition toString (n : Z) : string := pretty n.

(** [toUpperCase] on ASCII letters. *)
Definition upper (c : ascii) : ascii :=
  let n := nat_of_ascii c in
  if ((97 <=? n) && (n <=? 122))%nat then ascii_of_nat (n - 32) else c.

Fixpoint toUpperCase (s : string) : string :=
  match s with
  | EmptyString => EmptyString
  | String c s' => String (upper c) (toUpperCase s')
  end.

End JSOps.

(** ** Virtuals *)

Module Virtuals.

(** [`QR-${this._id.toString().slice(-8).toUpperCase()}`]. *)
Definition quoteNumber (qid : ObjectId) : string :=
  "QR-" +:+ JSOps.toUpperCase (JSOps.slice_last 8 qid).

(** [`BK-${this._id.toString().slice(-8).toUpperCase()}`]. *)
Definition bookingNumber (b : Booking.t) : string :=
  "BK-" +:+ JSOps.toUpperCase (JSOps.slice_last 8 (Booking._id b)).

(** [['confirmed', 'in-progress'].includes(this.status)]. *)
Definition isActive (b : Booking.t) : bool :=
  existsb (String.eqb (Booking.status b)) ["confirmed"; "in-progress"].

(** Both dates are moved to their local midnight; the difference, a Number,
    is divided by the milliseconds of a day and rounded up.  [None] is [NaN]
    (no departure date). *)
Definition daysUntilDeparture (tz : JS.Zone) (now : Z) (b : Booking.t)
    : option Z :=
  match Booking.departureDate b with
  | Some d =>
      let today := JS.setHours0 tz now in
      let departure := JS.setHours0 tz d in
      let diffTime := JS.toDouble (inject_Z (departure - today)) in
      Some (Qceiling (JS.toDouble (diffTime / inject_Z JS.msPerDay)))
  | None => None
  end.

End Virtuals.

(** ** Replies with other payloads *)

Record Reply (D : Type) : Type := {
  rcode : Z;
  rsuccess : bool;
  rmessage : option Message;
  rcount : option nat;
  rdata : option D
}.

Arguments rcode {D} _.
Arguments rsuccess {D} _.
Arguments rmessage {D} _.
Arguments rcount {D} _.
Arguments rdata {D} _.

Definition refuse {D} (c : Z) (msg : string) : Reply D :=
  {| rcode := c; rsuccess := false; rmessage := Some (Text msg);
     rcount := None; rdata := None |}.

Definition refuse_error {D} (e : Exn) (fallback : string) : Reply D :=
  {| rcode := 500; rsuccess := false;
     rmessage := Some (message_or e fallback); rcount := None;
     rdata := None |}.

Definition accept {D} (c : Z) (msg : string) (d : D) : Reply D :=
  {| rcode := c; rsuccess := true; rmessage := Some (Text msg);
     rcount := None; rdata := Some d |}.

Definition listing {D} (l : list D) : Reply (list D) :=
  {| rcode := 200; rsuccess := true; rmessage := None;
     rcount := Some (length l); rdata := Some l |}.

(** ** The quote collection: [create] and [deleteOne] *)

Definition remove_quote (qid : ObjectId) (db : Db) : Db :=
  {| users := users db; quotes := delete qid (quotes db);
     bookings := bookings db; history := history db |}.

Module QuoteCollection.

(** The [trim] setters of the quote schema. *)
Definition cast (q : QuoteRequest.t) : QuoteRequest.t :=
  {| QuoteRequest.user := QuoteRequest.user q;
     QuoteRequest.pickupLocation := JS.trim (QuoteRequest.pickupLocation q);
     QuoteRequest.dropoffLocation := JS.trim (QuoteRequest.dropoffLocation q);
     QuoteRequest.numberOfDays := QuoteRequest.numberOfDays q;
     QuoteRequest.busType := QuoteRequest.busType q;
     QuoteRequest.numberOfPassengers := QuoteRequest.numberOfPassengers q;
     QuoteRequest.departureDate := QuoteRequest.departureDate q;
     QuoteRequest.specialRequests := JS.trim <$> QuoteRequest.specialRequests q;
     QuoteRequest.status := QuoteRequest.status q;
     QuoteRequest.estimatedPrice := QuoteRequest.estimatedPrice q;
     QuoteRequest.adminNotes := JS.trim <$> QuoteRequest.adminNotes q |}.

(** [QuoteRequest.create(doc)]: setters, validation, then the insert under
    the new [_id]. *)
Definition create (env : Env) (q : QuoteRequest.t) : M QuoteRequest.t :=
  let q' := cast q in
  if QuoteRequest.validate (tz env) (now env) q' then
    db ← get;
    match quotes db !! newId env with
    | Some _ => throw DuplicateKey
    | None => _ ← modify (store_quote (newId env) q'); mret q'
    end
  else throw (ValidationError "QuoteRequest").

(** [quote.deleteOne()]. *)
Definition deleteOne (qid : ObjectId) : M unit :=
  modify (remove_quote qid).

End QuoteCollection.

(** ** The other handlers of the quote controller *)

(** The body of [POST /quotes]. *)
Module QuoteBody.
Record t : Type := {
  pickupLocation : option string;
  dropoffLocation : option string;
  numberOfDays : option Q;
  busType : option string;
  numberOfPassengers : option Z;
  departureDate : DateParam;
  specialRequests : option string
}.
End QuoteBody.

(** A calendar event of a quote; [start] and [end] are both the departure
    date, and [resource] carries [type: 'quotation'], the quote's [status],
    its [estimatedPrice] and the quote. *)
Record QuoteEvent : Type := {
  qe_id : ObjectId;
  qe_title : string;
  qe_start : Z;
  qe_end : Z;
  qe_type : string;
  qe_quote : QuoteRequest.t
}.

(** Ascending [departureDate] of stored quotes. *)
Definition quote_departs_le (a b : ObjectId * QuoteRequest.t) : Prop :=
  QuoteRequest.departureDate a.2 ≤ QuoteRequest.departureDate b.2.

#[global] Instance quote_departs_le_dec : RelDecision quote_departs_le.
Proof. intros a b. unfold quote_departs_le. apply _. Defined.

Module quoteHandlers.

(** [busType === '49-seater' ? 49 : 60]. *)
Definition maxCapacity (busType : option string) : Z :=
  match busType with
  | Some "49-seater" => 49
  | _ => 60
  end.

(** The document handed to [QuoteRequest.create]; [status] takes the
    schema's default. *)
Definition requested (req : Request) (body : QuoteBody.t) (departure : Z)
    : QuoteRequest.t :=
  {| QuoteRequest.user := actor req;
     QuoteRequest.pickupLocation := default "" (QuoteBody.pickupLocation body);
     QuoteRequest.dropoffLocation :=
       default "" (QuoteBody.dropoffLocation body);
     QuoteRequest.numberOfDays := default 0%Q (QuoteBody.numberOfDays body);
     QuoteRequest.busType := default "" (QuoteBody.busType body);
     QuoteRequest.numberOfPassengers :=
       default 0 (QuoteBody.numberOfPassengers body);
     QuoteRequest.departureDate := departure;
     QuoteRequest.specialRequests :=
       JS.or_str (QuoteBody.specialRequests body) (Some "");
     QuoteRequest.status := "pending";
     QuoteRequest.estimatedPrice := None;
     QuoteRequest.adminNotes := None |}.

(** [!pickupLocation || !dropoffLocation || !numberOfDays || !busType
     || !numberOfPassengers || !departureDate]. *)
Definition incomplete (body : QuoteBody.t) : bool :=
  negb (JS.truthy_str (QuoteBody.pickupLocation body))
  || negb (JS.truthy_str (QuoteBody.dropoffLocation body))
  || negb (JS.truthy_frac (QuoteBody.numberOfDays body))
  || negb (JS.truthy_str (QuoteBody.busType body))
  || negb (JS.truthy_num (QuoteBody.numberOfPassengers body))
  || negb (given (QuoteBody.departureDate body)).

Definition createQuote (env : Env) (req : Request) (body : QuoteBody.t)
    : Db → Reply QuoteRequest.t * Db :=
  try_catch
    (if incomplete body
     then mret (refuse 400 "Please provide all required fields")
     else if JSOps.gt (QuoteBody.numberOfPassengers body)
               (maxCapacity (QuoteBody.busType body))
     then
       mret (refuse 400
               ("Number of passengers ("
                  +:+ JSOps.toString
                        (default 0 (QuoteBody.numberOfPassengers body))
                  +:+ ") exceeds bus capacity ("
                  +:+ JSOps.toString (maxCapacity (QuoteBody.busType body))
                  +:+ ")"))
     else
       let today := JS.setHours0 (tz env) (now env) in
       let departure := new_Date (QuoteBody.departureDate body) in
       if JSOps.date_lt departure today then
         mret (refuse 400 "Departure date must be today or in the future")
       else
         match cast_Date (QuoteBody.departureDate body) with
         | None => throw (ValidationError "QuoteRequest")
         | Some d =>
             quoteRequest ← QuoteCollection.create env (requested req body d);
             _ ← Users.populate (QuoteRequest.user quoteRequest);
             mret (accept 201 "Quote request submitted successfully"
                     quoteRequest)
         end)
    (λ e, refuse_error e "Error creating quote request").

(** [role] is [req.user.role]. *)
Definition getQuoteById (req : Request) (role : string)
    : Db → Reply QuoteRequest.t * Db :=
  try_catch
    (found ← Quotes.findById (id req);
     match found with
     | None => mret (refuse 404 "Quote request not found")
     | Some quote =>
         user ← Users.populate (QuoteRequest.user quote);
         _ ← deref user;
         if negb (String.eqb (QuoteRequest.user quote) (actor req))
            && negb (String.eqb role "admin")
         then mret (refuse 403 "Not authorized to access this quote request")
         else mret {| rcode := 200; rsuccess := true; rmessage := None;
                      rcount := None; rdata := Some quote |}
     end)
    (λ _, refuse 500 "Error fetching quote request").

(** [if (status) quote.status = status;
     if (estimatedPrice !== undefined) quote.estimatedPrice = estimatedPrice;
     if (adminNotes !== undefined) quote.adminNotes = adminNotes;] *)
Definition edited (status : option string) (estimatedPrice : option Z)
    (adminNotes : option string) (quote : QuoteRequest.t) : QuoteRequest.t :=
  let quote1 :=
    match status with
    | Some s => if JS.truthy_str status
                then QuoteRequest.set_status s quote else quote
    | None => quote
    end in
  let quote2 :=
    match estimatedPrice with
    | Some _ => QuoteRequest.set_estimatedPrice estimatedPrice quote1
    | None => quote1
    end in
  match adminNotes with
  | Some _ => QuoteRequest.set_adminNotes adminNotes quote2
  | None => quote2
  end.

Definition updateQuote (env : Env) (req : Request) (status : option string)
    (estimatedPrice : option Z) (adminNotes : option string)
    : Db → Reply QuoteRequest.t * Db :=
  try_catch
    (found ← Quotes.findById (id req);
     match found with
     | None => mret (refuse 404 "Quote request not found")
     | Some quote =>
         let quote' := edited status estimatedPrice adminNotes quote in
         _ ← Quotes.save env (id req) quote';
         _ ← Users.populate (QuoteRequest.user quote');
         mret (accept 200 "Quote request updated successfully" quote')
     end)
    (λ e, refuse_error e "Error updating quote request").

Definition deleteQuote (req : Request) : Db → Response * Db :=
  try_catch
    (found ← Quotes.findById (id req);
     match found with
     | None => mret (reply 404 false "Quote request not found")
     | Some _ =>
         _ ← QuoteCollection.deleteOne (id req);
         mret (reply 200 true "Quote request deleted successfully")
     end)
    (λ _, reply 500 false "Error deleting quote request").

(** The callback of [quotes.map]; the quote's [user] is populated. *)
Definition toEvent (entry : ObjectId * QuoteRequest.t) : M QuoteEvent :=
  user ← Users.populate (QuoteRequest.user entry.2);
  u ← deref user;
  mret {| qe_id := entry.1;
          qe_title := User.firstName u +:+ " " +:+ User.lastName u
                        +:+ " - Quote Request";
          qe_start := QuoteRequest.departureDate entry.2;
          qe_end := QuoteRequest.departureDate entry.2;
          qe_type := "quotation";
          qe_quote := entry.2 |}.

(** The filter built from the query: a date range only when both bounds are
    given; [None] when a given bound is an Invalid Date. *)
Definition rangeFilter (start_ end_ : DateParam)
    : option (ObjectId * QuoteRequest.t → bool) :=
  if given start_ && given end_ then
    match new_Date start_, new_Date end_ with
    | Some s, Some e =>
        Some (λ entry,
                (s <=? QuoteRequest.departureDate entry.2)
                && (QuoteRequest.departureDate entry.2 <=? e))
    | _, _ => None
    end
  else Some (λ _, true).

Definition getQuoteCalendarEvents (start_ end_ : DateParam)
    : Db → Reply (list QuoteEvent) * Db :=
  try_catch
    (match rangeFilter start_ end_ with
     | None => throw CastError
     | Some matches =>
         db ← get;
         events ← mapM toEvent
                    (merge_sort quote_departs_le
                       (filter matches (map_to_list (quotes db))));
         mret (listing events)
     end)
    (λ _, refuse 500 "Error fetching quote calendar events").

End quoteHandlers.

(** ** The other handlers of the booking controller *)

(** The assignments of the instance method [markAsPaid]; [paymentMethod] and
    [invoiceNumber] have [trim] setters. *)
Definition paid (paymentDate : Z) (paymentMethod invoiceNumber : option string)
    (b : Booking.t) : Booking.t :=
  {| Booking._id := Booking._id b;
     Booking.quoteRequest := Booking.quoteRequest b;
     Booking.user := Booking.user b;
     Booking.pickupLocation := Booking.pickupLocation b;
     Booking.dropoffLocation := Booking.dropoffLocation b;
     Booking.departureDate := Booking.departureDate b;
     Booking.returnDate := Booking.returnDate b;
     Booking.numberOfDays := Booking.numberOfDays b;
     Booking.busType := Booking.busType b;
     Booking.numberOfPassengers := Booking.numberOfPassengers b;
     Booking.totalPrice := Booking.totalPrice b;
     Booking.pricePerDay := Booking.pricePerDay b;
     Booking.status := Booking.status b;
     Booking.paymentStatus := "paid";
     Booking.bookingType := "paid";
     Booking.paymentMethod := JS.trim <$> paymentMethod;
     Booking.paymentDate := Some paymentDate;
     Booking.invoiceNumber := JS.trim <$> invoiceNumber;
     Booking.specialRequests := Booking.specialRequests b;
     Booking.adminNotes := Booking.adminNotes b;
     Booking.cancellationReason := Booking.cancellationReason b;
     Booking.cancelledAt := Booking.cancelledAt b;
     Booking.cancelledBy := Booking.cancelledBy b |}.

Module bookingHandlers.

(** The query filter of [getAllBookings]: a path is filtered on when its
    parameter is truthy, the departure date when both bounds are given. *)
Definition on_path (param : option string) (value : string) : bool :=
  if JS.truthy_str param then bool_decide (param = Some value) else true.

Definition rangeFilter (startDate endDate : DateParam)
    : option (Booking.t → bool) :=
  if given startDate && given endDate then
    match new_Date startDate, new_Date endDate with
    | Some s, Some e => Some (Bookings.in_range s e)
    | _, _ => None
    end
  else Some (λ _, true).

Definition matches (status paymentStatus bookingType : option string)
    (range : Booking.t → bool) (b : Booking.t) : bool :=
  on_path status (Booking.status b)
  && on_path paymentStatus (Booking.paymentStatus b)
  && on_path bookingType (Booking.bookingType b)
  && range b.

Definition getAllBookings (status paymentStatus bookingType : option string)
    (startDate endDate : DateParam) : Db → Reply (list Booking.t) * Db :=
  try_catch
    (match rangeFilter startDate endDate with
     | None => throw CastError
     | Some range =>
         db ← get;
         mret (listing
                 (merge_sort departs_le
                    (filter (matches status paymentStatus bookingType range)
                       (bookings db))))
     end)
    (λ _, refuse 500 "Error fetching bookings").

Definition getBookingById (req : Request) : Db → Response * Db :=
  try_catch
    (found ← Bookings.findById (id req);
     match found with
     | None => mret (reply 404 false "Booking not found")
     | Some booking =>
         mret {| code := 200; success := true; message := None;
                 count := None; data := Some (BookingData booking);
                 warning := None; error := None |}
     end)
    (λ _, reply 500 false "Error fetching booking").

(** [paymentDate || new Date()], in the controller and again in the method;
    the value is then cast by the Date path, and a string that is no date
    does not cast. *)
Definition markAsPaid (env : Env) (req : Request)
    (paymentMethod invoiceNumber : option string) (paymentDate : DateParam)
    : Db → Response * Db :=
  try_catch
    (found ← Bookings.findById (id req);
     match found with
     | None => mret (reply 404 false "Booking not found")
     | Some booking =>
         date ← match paymentDate with
                | Missing => mret (now env)
                | DateString t | Milliseconds t => mret t
                | Unparseable => throw (ValidationError "Booking")
                end;
         saved ← Bookings.save env false
                   (paid date paymentMethod invoiceNumber booking);
         mret (reply_data 200 true "Booking marked as paid"
                 (BookingData saved))
     end)
    (λ e, reply_error e "Error updating payment status").

(** [booking.deleteOne()] removes the document with that [_id]. *)
Definition deleteBooking (req : Request) : Db → Response * Db :=
  try_catch
    (found ← Bookings.findById (id req);
     match found with
     | None => mret (reply 404 false "Booking not found")
     | Some booking =>
         db ← get;
         _ ← modify
               (store_bookings
                  (filter (λ x, Booking._id x ≠ Booking._id booking)
                     (bookings db)));
         mret (reply 200 true "Booking deleted successfully")
     end)
    (λ _, reply 500 false "Error deleting booking").

End bookingHandlers.

(** ** Sequences of requests *)

(** The requests that can write to the database. *)
Inductive Action : Type :=
| CreateQuote (req : Request) (body : QuoteBody.t)
| UpdateQuote (req : Request) (status : option string)
    (estimatedPrice : option Z) (adminNotes : option string)
| DeleteQuote (req : Request)
| SubmitQuotation (req : Request) (estimatedPrice : option Z)
    (adminNotes : option string)
| CreateBookingFromQuotation (quoteRequestId : ObjectId)
| UpdateBookingStatus (req : Request) (status adminNotes : option string)
| MarkAsPaid (req : Request) (paymentMethod invoiceNumber : option string)
    (paymentDate : DateParam)
| CancelBooking (req : Request) (reason : option string)
| DeleteBooking (req : Request).

(** The database after one request. *)
Definition step (env : Env) (a : Action) (db : Db) : Db :=
  match a with
  | CreateQuote req body => snd (quoteHandlers.createQuote env req body db)
  | UpdateQuote req status price notes =>
      snd (quoteHandlers.updateQuote env req status price notes db)
  | DeleteQuote req => snd (quoteHandlers.deleteQuote req db)
  | SubmitQuotation req price notes =>
      snd (quoteController.submitQuotation env req price notes db)
  | CreateBookingFromQuotation qid =>
      snd (bookingController.createBookingFromQuotation env qid db)
  | UpdateBookingStatus req status notes =>
      snd (bookingController.updateBookingStatus env req status notes db)
  | MarkAsPaid req method invoice date =>
      snd (bookingHandlers.markAsPaid env req method invoice date db)
  | CancelBooking req reason =>
      snd (bookingController.cancelBooking env req reason db)
  | DeleteBooking req => snd (bookingHandlers.deleteBooking req db)
  end.

(** The database after a sequence of requests, each in its own
    environment. *)
Fixpoint run_all (trace : list (Env * Action)) (db : Db) : Db :=
  match trace with
  | [] => db
  | (env, a) :: rest => run_all rest (step env a db)
  end.



(** Two versions of a booking with the same identity, customer, trip and
    price. *)
Definition same_trip (a b : Booking.t) : Prop :=
  Booking._id a = Booking._id b
  ∧ Booking.quoteRequest a = Booking.quoteRequest b
  ∧ Booking.user a = Booking.user b
  ∧ Booking.pickupLocation a = Booking.pickupLocation b
  ∧ Booking.dropoffLocation a = Booking.dropoffLocation b
  ∧ Booking.departureDate a = Booking.departureDate b
  ∧ Booking.numberOfDays a = Booking.numberOfDays b
  ∧ Booking.busType a = Booking.busType b
  ∧ Booking.numberOfPassengers a = Booking.numberOfPassengers b
  ∧ Booking.totalPrice a = Booking.totalPrice b
  ∧ Booking.pricePerDay a = Booking.pricePerDay b
  ∧ Booking.specialRequests a = Booking.specialRequests b.

(** The requests of the quote controller. *)
Definition on_quotes (a : Action) : bool :=
  match a with
  | CreateQuote _ _ | UpdateQuote _ _ _ _ | DeleteQuote _
  | SubmitQuotation _ _ _ => true
  | _ => false
  end.

(** ** More example data *)

Module Fixtures.

(** Makati to Subic, one day, a full 49-seater.  The departure (2025-11-30
    16:26 UTC) is 00:26 on 2025-12-01 in the UTC+8 zone of [Sample.env]:
    earlier than its clock (08:00 local), on the same local day. *)
Definition order (pax : Z) (departure : DateParam) : QuoteBody.t :=
  {| QuoteBody.pickupLocation := Some "  Makati";
     QuoteBody.dropoffLocation := Some "Subic ";
     QuoteBody.numberOfDays := Some 1%Q;
     QuoteBody.busType := Some "49-seater";
     QuoteBody.numberOfPassengers := Some pax;
     QuoteBody.departureDate := departure;
     QuoteBody.specialRequests := None |}.

(** U+00A0, the no-break space. *)
Definition nbsp : string := String "194" (String "160" EmptyString).

(** A booking that does not pass the schema: half a day. *)
Definition half_day : Booking.t :=
  Sample.lasting (1 # 2) "b6" "q6" 1766188800000 None "confirmed" None.

Definition early_today : Z := 1764520000000.
Definition yesterday : Z := 1764500000000.

Definition customer (target : ObjectId) : Request :=
  {| id := target; actor := "u1"; ip := "10.0.0.7"; userAgent := None |}.

Definition stranger (target : ObjectId) : Request :=
  {| id := target; actor := "u2"; ip := "10.0.0.8"; userAgent := None |}.

End Fixtures.

(** ** Notions used by the further statements *)

(** The quote an event stands for, with its [_id]. *)
Definition listed (ev : QuoteEvent) : ObjectId * QuoteRequest.t :=
  (qe_id ev, qe_quote ev).

(** An event made from a stored quote. *)
Definition quote_event_of (entry : ObjectId * QuoteRequest.t)
    (ev : QuoteEvent) : Prop :=
  listed ev = entry
  ∧ qe_start ev = QuoteRequest.departureDate entry.2
  ∧ qe_end ev = QuoteRequest.departureDate entry.2.

(** The string form of an ObjectId: 24 hexadecimal digits, the letters in
    lower case. *)
Definition hex (c : ascii) : bool :=
  let n := nat_of_ascii c in
  ((48 <=? n) && (n <=? 57) || (97 <=? n) && (n <=? 102))%nat.

Fixpoint all_hex (s : string) : bool :=
  match s with
  | EmptyString => true
  | String c s' => hex c && all_hex s'
  end.

Definition wellformed (oid : ObjectId) : Prop :=
  String.length oid = 24%nat ∧ all_hex oid = true.

(** A date parameter that is absent or a date in the reading of [new Date]:
    neither a string that is no date nor one of digits only. *)
Definition readable (p : DateParam) : Prop :=
  p ≠ Unparseable ∧ ∀ t, p ≠ Milliseconds t.

(** A query parameter that is absent or empty, or else equal to the value. *)
Definition allows (param : option string) (value : string) : Prop :=
  JS.truthy_str param = true → param = Some value.

(** * Properties *)

(** ** Dates and numbers *)

Lemma DateFromTime_range t : 1 ≤ JS.DateFromTime t ≤ 31.
Proof.
  unfold JS.DateFromTime.
  set (doe := (JS.Day t + 719468) mod 146097).
  assert (Hdoe : 0 ≤ doe < 146097) by (apply Z.mod_pos_bound; lia).
  clearbody doe. cbv zeta.
  Z.to_euclidean_division_equations. lia.
Qed.

Lemma Qred_whole k : Qred (inject_Z k) = inject_Z k.
Proof.
  unfold Qred, inject_Z.
  pose proof (Z.ggcd_gcd k 1) as Hg.
  pose proof (Z.ggcd_correct_divisors k 1) as Hd.
  destruct (Z.ggcd k 1) as [g [a b]]. simpl in *.
  rewrite Z.gcd_1_r in Hg. subst g. destruct Hd as [Ha Hb].
  assert (Hk : a = k) by lia. assert (H1 : b = 1) by lia.
  clear Ha Hb. subst a b. reflexivity.
Qed.

Lemma toDouble_whole q k :
  (q == inject_Z k)%Q → Z.abs k ≤ JS.maxSafe → JS.toDouble q = inject_Z k.
Proof.
  intros Hq Hk. unfold JS.toDouble.
  rewrite (Qred_complete _ _ Hq), Qred_whole. simpl.
  destruct (Z.leb_spec (Z.abs k) JS.maxSafe); [reflexivity | lia].
Qed.

Lemma trunc_whole k : JS.trunc (inject_Z k) = k.
Proof.
  unfold JS.trunc. destruct (Qle_bool 0 (inject_Z k));
    [apply Qfloor_Z | apply Qceiling_Z].
Qed.

Lemma day_shift l k :
  JS.msPerDay * (JS.Day l + k) + JS.TimeWithinDay l = l + k * JS.msPerDay.
Proof.
  unfold JS.Day, JS.TimeWithinDay.
  assert (H : JS.msPerDay ≠ 0) by (unfold JS.msPerDay; lia).
  pose proof (Z.div_mod l JS.msPerDay H). lia.
Qed.

(** A whole number of days moves the local date by that many days and
    keeps the local time of day. *)
Lemma addDays_whole tz t n k :
  (n == inject_Z k)%Q →
  Z.abs k ≤ 2 ^ 52 →
  JS.addDays tz t n = JS.UTC tz (JS.LocalTime tz t + k * JS.msPerDay).
Proof.
  intros Hn Hk. unfold JS.addDays.
  pose proof (DateFromTime_range (JS.LocalTime tz t)) as HD.
  set (D := JS.DateFromTime (JS.LocalTime tz t)) in *.
  rewrite (toDouble_whole _ (D + k)), trunc_whole.
  - replace (JS.Day (JS.LocalTime tz t) - D + (D + k))
      with (JS.Day (JS.LocalTime tz t) + k) by lia.
    by rewrite day_shift.
  - rewrite inject_Z_plus, Hn. reflexivity.
  - unfold JS.maxSafe. lia.
Qed.

Lemma addDays_fixed c t n k :
  (n == inject_Z k)%Q →
  Z.abs k ≤ 2 ^ 52 →
  JS.addDays (JS.fixed c) t n = t + k * JS.msPerDay.
Proof.
  intros Hn Hk. rewrite (addDays_whole _ _ _ k Hn Hk).
  unfold JS.UTC, JS.LocalTime. simpl. lia.
Qed.

(** ** Strings *)

Lemma append_cons a s t : String a s +:+ t = String a (s +:+ t).
Proof. reflexivity. Qed.

Lemma length_append s t :
  JS.length (s +:+ t) = (JS.length s + JS.length t)%nat.
Proof.
  induction s as [|a s IH]; [reflexivity|].
  rewrite append_cons. cbn [JS.length]. rewrite IH. lia.
Qed.

(** One step of [trimStart]: nothing is dropped, or a white-space
    character of one, two or three bytes. *)
Lemma trimStart_cases s :
  JS.trimStart s = s
  ∨ ∃ p s', s = p +:+ s' ∧ p ≠ "" ∧ JS.trimStart s = JS.trimStart s'.
Proof.
  destruct s as [|a s1]; [by left|].
  destruct (JS.white1 (nat_of_ascii a)) eqn:H1.
  { right. exists (String a ""), s1. repeat split; [done|].
    destruct s1 as [|b [|c s3]]; cbn [JS.trimStart]; by rewrite H1. }
  destruct s1 as [|b s2]; [left; cbn [JS.trimStart]; by rewrite H1|].
  destruct (JS.white2 (nat_of_ascii a) (nat_of_ascii b)) eqn:H2.
  { right. exists (String a (String b "")), s2. repeat split; [done|].
    destruct s2 as [|c s3]; cbn [JS.trimStart]; by rewrite H1, H2. }
  destruct s2 as [|c s3]; [left; cbn [JS.trimStart]; by rewrite H1, H2|].
  destruct (JS.white3 (nat_of_ascii a) (nat_of_ascii b) (nat_of_ascii c))
    eqn:H3.
  - right. exists (String a (String b (String c ""))), s3.
    repeat split; [done|]. cbn [JS.trimStart]. by rewrite H1, H2, H3.
  - left. cbn [JS.trimStart]. by rewrite H1, H2, H3.
Qed.

Lemma app_length s t :
  String.length (s +:+ t) = (String.length s + String.length t)%nat.
Proof.
  induction s as [|a s IH]; [reflexivity|].
  rewrite append_cons. cbn [String.length]. by rewrite IH.
Qed.

Lemma app_assoc' s t u : (s +:+ t) +:+ u = s +:+ (t +:+ u).
Proof.
  induction s as [|a s IH]; [reflexivity|].
  rewrite !append_cons. by rewrite IH.
Qed.

(** [trimStart] drops a prefix. *)
Lemma trimStart_suffix s : ∃ p, s = p +:+ JS.trimStart s.
Proof.
  assert (H : ∀ n s, (String.length s ≤ n)%nat →
                     ∃ p, s = p +:+ JS.trimStart s).
  { clear s. induction n as [|n IH]; intros s Hn.
    - destruct s; [by exists "" | simpl in Hn; lia].
    - destruct (trimStart_cases s) as [->|(p & s' & -> & Hp & ->)];
        [by exists ""|].
      destruct (IH s') as [p' Hp'].
      { rewrite app_length in Hn. destruct p; [done|]. simpl in Hn. lia. }
      exists (p +:+ p'). rewrite app_assoc'. by rewrite <- Hp'. }
  by apply (H (String.length s)).
Qed.

(** [trimEnd] drops a suffix. *)
Lemma trimEnd_prefix s : ∃ q, s = JS.trimEnd s +:+ q.
Proof.
  induction s as [|a s [q IH]]; [by exists ""|].
  cbn [JS.trimEnd]. destruct (JS.blank _).
  - by exists (String a s).
  - exists q. rewrite append_cons. by rewrite <- IH.
Qed.

Lemma trim_length s : (JS.length (JS.trim s) ≤ JS.length s)%nat.
Proof.
  unfold JS.trim.
  destruct (trimStart_suffix s) as [p Hp].
  destruct (trimEnd_prefix (JS.trimStart s)) as [q Hq].
  rewrite Hp at 2. rewrite Hq at 2. rewrite !length_append. lia.
Qed.

Lemma trim_nonempty s : JS.trim s ≠ "" → s ≠ "".
Proof. intros H ->. by apply H. Qed.

Lemma trim_blank : JS.trim "   " = "".
Proof. reflexivity. Qed.

(** A string of white space only is trimmed to the empty string. *)
Lemma trim_blank_empty s : JS.blank s = true → JS.trim s = "".
Proof. unfold JS.blank, JS.trim. by intros ->%String.eqb_eq. Qed.

(** ** [submitQuotation] *)

Section SubmitQuotation.

Import quoteController.

Variables (env : Env) (req : Request) (db : Db).
Variables (p : Z) (notes : option string) (q : QuoteRequest.t).

Hypothesis price_pos : 0 < p.
Hypothesis found : quotes db !! id req = Some q.
Hypothesis valid :
  QuoteRequest.validate (tz env) (now env) (priced (Some p) notes q) = true.

Lemma price_check_passes :
  negb (JS.truthy_num (Some p)) || JS.le0 (Some p) = false.
Proof.
  simpl. destruct (Z.eqb_spec p 0); [lia|].
  destruct (Z.leb_spec p 0); [lia|]. reflexivity.
Qed.

(** The transport delivers: both entries are written and the reply is the
    200 with [emailSent: true]. *)
Lemma submitQuotation_sent u mid :
  users db !! QuoteRequest.user q = Some u →
  sendMail env (User.email u) = Sent mid →
  submitQuotation env req (Some p) notes db =
    (reply_data 200 true "Quotation submitted and email sent successfully"
       (Submission (priced (Some p) notes q) true (Some mid) None),
     log_entry
       (email_sent req
          {| emailService.success := true; emailService.messageId := mid;
             emailService.message := "Quotation email sent successfully" |})
       (price_recorded req p notes q db)).
Proof.
  intros Hu Hsend. unfold submitQuotation.
  rewrite price_check_passes. unfold Quotes.findById, Users.populate,
    Quotes.save, History.createEntry, emailService.sendQuotationEmail.
  run. rewrite found, valid, Hu. run. rewrite Hsend. reflexivity.
Qed.

(** The transport fails: [sendQuotationEmail] throws, the controller's
    [catch] answers 500, and the second entry is never written. *)
Lemma submitQuotation_rejected u m :
  users db !! QuoteRequest.user q = Some u →
  sendMail env (User.email u) = Rejected m →
  submitQuotation env req (Some p) notes db =
    ({| code := 500; success := false;
        message := Some (Text "Error submitting quotation");
        count := None; data := None; warning := None;
        error :=
          if development env
          then Some (MessageOf
                       (Error ("Failed to send quotation email: " +:+ m)))
          else None |},
     price_recorded req p notes q db).
Proof.
  intros Hu Hsend. unfold submitQuotation.
  rewrite price_check_passes. unfold Quotes.findById, Users.populate,
    Quotes.save, History.createEntry, emailService.sendQuotationEmail.
  run. rewrite found, valid, Hu. run. rewrite Hsend. reflexivity.
Qed.

(** The customer is gone: reading [quote.user.email] throws. *)
Lemma submitQuotation_no_user :
  users db !! QuoteRequest.user q = None →
  submitQuotation env req (Some p) notes db =
    ({| code := 500; success := false;
        message := Some (Text "Error submitting quotation");
        count := None; data := None; warning := None;
        error := if development env then Some (MessageOf TypeError)
                 else None |},
     price_recorded req p notes q db).
Proof.
  intros Hu. unfold submitQuotation.
  rewrite price_check_passes. unfold Quotes.findById, Users.populate,
    Quotes.save, History.createEntry.
  run. rewrite found, valid, Hu. reflexivity.
Qed.

(** Whatever happens after [quote.save()], the stored quote is the priced
    one. *)
Lemma submitQuotation_persists :
  quotes (snd (submitQuotation env req (Some p) notes db)) !! id req
  = Some (priced (Some p) notes q).
Proof.
  destruct (users db !! QuoteRequest.user q) as [u|] eqn:Hu.
  - destruct (sendMail env (User.email u)) as [mid|m] eqn:Hs.
    + rewrite (submitQuotation_sent u mid Hu Hs). simpl.
      apply lookup_insert_eq.
    + rewrite (submitQuotation_rejected u m Hu Hs). simpl.
      apply lookup_insert_eq.
  - rewrite (submitQuotation_no_user Hu). simpl. apply lookup_insert_eq.
Qed.

End SubmitQuotation.

Lemma priced_ignores_status pr notes s q :
  quoteController.priced pr notes (QuoteRequest.set_status s q)
  = quoteController.priced pr notes q.
Proof. reflexivity. Qed.

Lemma priced_status pr notes q :
  QuoteRequest.status (quoteController.priced pr notes q) = "quoted".
Proof. reflexivity. Qed.

Lemma priced_estimatedPrice pr notes q :
  QuoteRequest.estimatedPrice (quoteController.priced pr notes q) = pr.
Proof. reflexivity. Qed.

(** C1 (defect in the code).  For an existing quote and a positive price,
    when the mail transport fails [sendQuotationEmail] throws, no local
    handler contains the error, and the controller answers with the 500
    failure reply: no success result, no [emailSent: false] payload and no
    warning.  The branch of the controller that builds the degraded success
    reply is never reached. *)
Theorem submitQuotation_email_failure_aborts env req db p notes q u m :
  0 < p →
  quotes db !! id req = Some q →
  QuoteRequest.validate (tz env) (now env)
    (quoteController.priced (Some p) notes q) = true →
  users db !! QuoteRequest.user q = Some u →
  sendMail env (User.email u) = Rejected m →
  let r := fst (quoteController.submitQuotation env req (Some p) notes db) in
  code r = 500 ∧ success r = false ∧ data r = None ∧ warning r = None.
Proof.
  intros Hp Hq Hv Hu Hs r. subst r.
  rewrite (submitQuotation_rejected env req db p notes q Hp Hq Hv u m Hu Hs).
  simpl. auto.
Qed.

Lemma submitQuotation_email_failure_aborts_witness :
  let r := fst (quoteController.submitQuotation Sample.failing
                  (Sample.req "q1") (Some 15000) (Some "AC included")
                  Sample.db) in
  code r = 500 ∧ success r = false ∧ data r = None ∧ warning r = None.
Proof.
  apply (submitQuotation_email_failure_aborts Sample.failing (Sample.req "q1")
           Sample.db 15000 (Some "AC included")
           (Sample.trip "pending" None None) Sample.alice
           "connect ECONNREFUSED").
  - lia.
  - vm_compute; reflexivity.
  - vm_compute; reflexivity.
  - vm_compute; reflexivity.
  - reflexivity.
Defined.

(** C2 (defect in the code).  For an existing quote and a positive price,
    when the mail transport fails exactly one audit entry is appended, the
    [price_updated] one; the [email_sent] entry that should record the failed
    attempt is never written. *)
Theorem submitQuotation_email_failure_one_entry env req db p notes q u m :
  0 < p →
  quotes db !! id req = Some q →
  QuoteRequest.validate (tz env) (now env)
    (quoteController.priced (Some p) notes q) = true →
  users db !! QuoteRequest.user q = Some u →
  sendMail env (User.email u) = Rejected m →
  history (snd (quoteController.submitQuotation env req (Some p) notes db))
  = (history db
       ++ [quoteController.price_updated req q
             (quoteController.priced (Some p) notes q)])%list.
Proof.
  intros Hp Hq Hv Hu Hs.
  rewrite (submitQuotation_rejected env req db p notes q Hp Hq Hv u m Hu Hs).
  reflexivity.
Qed.

Lemma submitQuotation_email_failure_one_entry_witness :
  history (snd (quoteController.submitQuotation Sample.failing
                  (Sample.req "q1") (Some 15000) (Some "AC included")
                  Sample.db))
  = (history Sample.db
       ++ [quoteController.price_updated (Sample.req "q1")
             (Sample.trip "pending" None None)
             (quoteController.priced (Some 15000) (Some "AC included")
                (Sample.trip "pending" None None))])%list.
Proof.
  apply (submitQuotation_email_failure_one_entry Sample.failing
           (Sample.req "q1") Sample.db 15000 (Some "AC included")
           (Sample.trip "pending" None None) Sample.alice
           "connect ECONNREFUSED").
  - lia.
  - vm_compute; reflexivity.
  - vm_compute; reflexivity.
  - vm_compute; reflexivity.
  - reflexivity.
Defined.

(** When the transport delivers, the two entries are appended in order. *)
Lemma submitQuotation_delivered_two_entries env req db p notes q u mid :
  0 < p →
  quotes db !! id req = Some q →
  QuoteRequest.validate (tz env) (now env)
    (quoteController.priced (Some p) notes q) = true →
  users db !! QuoteRequest.user q = Some u →
  sendMail env (User.email u) = Sent mid →
  ∃ e1 e2,
    history (snd (quoteController.submitQuotation env req (Some p) notes db))
    = (history db ++ [e1; e2])%list
    ∧ QuotationHistory.action e1 = "price_updated"
    ∧ QuotationHistory.action e2 = "email_sent".
Proof.
  intros Hp Hq Hv Hu Hs.
  rewrite (submitQuotation_sent env req db p notes q Hp Hq Hv u mid Hu Hs).
  eexists _, _. simpl. rewrite <- app_assoc. split; [reflexivity|]. auto.
Qed.

(** C3.  When the price is positive, the quote exists and [quote.save()]
    accepts the update, the stored quote has status [quoted] and the new
    price after the call, whatever the mail transport does afterwards (and
    even if the customer record cannot be read): nothing after the save
    restores the previous status or price. *)
Theorem submitQuotation_persisted_state_retained env req db p notes q :
  0 < p →
  quotes db !! id req = Some q →
  QuoteRequest.validate (tz env) (now env)
    (quoteController.priced (Some p) notes q) = true →
  ∃ q',
    quotes (snd (quoteController.submitQuotation env req (Some p) notes db))
      !! id req = Some q'
    ∧ QuoteRequest.status q' = "quoted"
    ∧ QuoteRequest.estimatedPrice q' = Some p.
Proof.
  intros Hp Hq Hv. eexists. split.
  - apply (submitQuotation_persists env req db p notes q Hp Hq Hv).
  - split; reflexivity.
Qed.

Lemma submitQuotation_persisted_state_retained_witness :
  ∃ q',
    quotes (snd (quoteController.submitQuotation Sample.failing
                   (Sample.req "q1") (Some 15000) None Sample.db))
      !! "q1" = Some q'
    ∧ QuoteRequest.status q' = "quoted"
    ∧ QuoteRequest.estimatedPrice q' = Some 15000.
Proof.
  apply (submitQuotation_persisted_state_retained Sample.failing
           (Sample.req "q1") Sample.db 15000 None
           (Sample.trip "pending" None None)).
  - lia.
  - vm_compute; reflexivity.
  - vm_compute; reflexivity.
Defined.

(** C4.  When [estimatedPrice] is absent, zero or negative, the call answers
    400 "Please provide a valid estimated price" and the database is left
    exactly as it was: no quote is touched and no audit entry is written. *)
Theorem submitQuotation_rejects_bad_price env req price notes db :
  (price = None ∨ ∃ p, price = Some p ∧ p ≤ 0) →
  quoteController.submitQuotation env req price notes db
  = (reply 400 false "Please provide a valid estimated price", db).
Proof.
  intros [-> | (p & -> & Hp)]; unfold quoteController.submitQuotation.
  - reflexivity.
  - assert (H : negb (JS.truthy_num (Some p)) || JS.le0 (Some p) = true).
    { simpl. destruct (Z.leb_spec p 0); [|lia]. apply orb_true_r. }
    rewrite H. reflexivity.
Qed.

Lemma submitQuotation_rejects_bad_price_witness :
  quoteController.submitQuotation Sample.delivering (Sample.req "q1")
    (Some (-500)) (Some "AC included") Sample.db
  = (reply 400 false "Please provide a valid estimated price", Sample.db).
Proof.
  apply (submitQuotation_rejects_bad_price Sample.delivering (Sample.req "q1")
           (Some (-500)) (Some "AC included") Sample.db).
  right. exists (-500). split; [reflexivity | lia].
Defined.

(** C9.  [submitQuotation] never looks at the quote's current status.  The
    only conditions below are a positive price, an existing quote whose other
    paths pass validation (stated on the quote with its status overwritten,
    so that nothing is asked of the status it has), and a delivered email;
    the call then succeeds and the stored status is [quoted], also for a
    quote that was [approved] or [rejected]. *)
Theorem submitQuotation_ignores_current_status env req db p notes q u mid :
  0 < p →
  quotes db !! id req = Some q →
  QuoteRequest.validate (tz env) (now env)
    (quoteController.priced (Some p) notes
       (QuoteRequest.set_status "pending" q)) = true →
  users db !! QuoteRequest.user q = Some u →
  sendMail env (User.email u) = Sent mid →
  let out := quoteController.submitQuotation env req (Some p) notes db in
  code (fst out) = 200
  ∧ success (fst out) = true
  ∧ QuoteRequest.status <$> quotes (snd out) !! id req = Some "quoted".
Proof.
  intros Hp Hq Hv Hu Hs out. subst out.
  rewrite priced_ignores_status in Hv.
  rewrite (submitQuotation_sent env req db p notes q Hp Hq Hv u mid Hu Hs).
  simpl. rewrite lookup_insert_eq. auto.
Qed.

Lemma submitQuotation_ignores_current_status_witness :
  QuoteRequest.status <$> quotes Sample.db !! "q2" = Some "approved"
  ∧ let out := quoteController.submitQuotation Sample.delivering
                 (Sample.req "q2") (Some 16000) None Sample.db in
    code (fst out) = 200
    ∧ success (fst out) = true
    ∧ QuoteRequest.status <$> quotes (snd out) !! "q2" = Some "quoted".
Proof.
  split; [vm_compute; reflexivity|].
  apply (submitQuotation_ignores_current_status Sample.delivering
           (Sample.req "q2") Sample.db 16000 None
           (Sample.trip "approved" (Some 15000) (Some "AC included"))
           Sample.alice "<m1@searchgear>").
  - lia.
  - vm_compute; reflexivity.
  - vm_compute; reflexivity.
  - vm_compute; reflexivity.
  - reflexivity.
Defined.

(** ** Saving a booking *)

Lemma save_run env isNew b db :
  Bookings.save env isNew b db =
    if Booking.validate b then
      let b' := Booking.preSave (tz env) b in
      if isNew then
        if existsb (Bookings.has_id (Booking._id b')) (bookings db)
        then (inl DuplicateKey, db)
        else (inr b', store_bookings (bookings db ++ [b']) db)
      else
        (inr b',
         store_bookings
           (map (λ x, if Bookings.has_id (Booking._id b') x then b' else x)
              (bookings db))
           db)
    else (inl (ValidationError "Booking"), db).
Proof.
  unfold Bookings.save. destruct (Booking.validate b); [|reflexivity].
  destruct isNew; run; [|reflexivity].
  destruct (existsb _ _); reflexivity.
Qed.

(** The hook touches [returnDate] only. *)

Lemma preSave_id tz b : Booking._id (Booking.preSave tz b) = Booking._id b.
Proof. hook. Qed.

Lemma preSave_quoteRequest tz b :
  Booking.quoteRequest (Booking.preSave tz b) = Booking.quoteRequest b.
Proof. hook. Qed.

Lemma preSave_status tz b :
  Booking.status (Booking.preSave tz b) = Booking.status b.
Proof. hook. Qed.

Lemma preSave_adminNotes tz b :
  Booking.adminNotes (Booking.preSave tz b) = Booking.adminNotes b.
Proof. hook. Qed.

Lemma preSave_cancellation tz b :
  Booking.cancellationReason (Booking.preSave tz b)
  = Booking.cancellationReason b
  ∧ Booking.cancelledAt (Booking.preSave tz b) = Booking.cancelledAt b
  ∧ Booking.cancelledBy (Booking.preSave tz b) = Booking.cancelledBy b.
Proof. repeat split; hook. Qed.

Lemma preSave_same_other_paths tz b : same_other_paths b (Booking.preSave tz b).
Proof. unfold same_other_paths. repeat split; hook. Qed.

Lemma preSave_explicit tz b r :
  Booking.returnDate b = Some r → Booking.preSave tz b = b.
Proof. intros H. unfold Booking.preSave. rewrite H. reflexivity. Qed.

Lemma validate_numberOfDays b n :
  Booking.validate b = true → Booking.numberOfDays b = Some n → (1 <= n)%Q.
Proof.
  unfold Booking.validate. intros H Hn. rewrite Hn in H.
  rewrite !andb_true_iff in H.
  destruct H as [[[[[[[[[[[[_ _] _] H] _] _] _] _] _] _] _] _] _].
  by apply Qle_bool_iff in H.
Qed.

Lemma truthy_days n : (1 <= n)%Q → JS.truthy_frac (Some n) = true.
Proof.
  intros H. simpl. apply negb_true_iff, not_true_is_false.
  intros E%Qeq_bool_iff. rewrite E in H. by apply Qle_bool_iff in H.
Qed.

Lemma whole_days n k : (n == inject_Z k)%Q → (1 <= n)%Q → 1 ≤ k.
Proof. intros E H. rewrite E in H. rewrite Zle_Qle. exact H. Qed.

Lemma preSave_computed tz b d n :
  Booking.validate b = true →
  Booking.returnDate b = None →
  Booking.departureDate b = Some d →
  Booking.numberOfDays b = Some n →
  Booking.returnDate (Booking.preSave tz b) = Some (JS.addDays tz d n).
Proof.
  intros Hv Hr Hd Hn. unfold Booking.preSave. rewrite Hr, Hd, Hn.
  by rewrite (truthy_days n (validate_numberOfDays b n Hv Hn)).
Qed.

(** C7.  Whenever a booking is saved (created or updated) without a
    [returnDate] but with a departure date and a whole number [k] of days,
    the stored [returnDate] is the instant at which the local clock of the
    server shows the time it showed at the departure, [k] calendar days
    later.  That is the departure plus [k] times 24 hours when the zone's
    offset from UTC is then the one it had at the departure.  A
    [returnDate] that is supplied is stored as it is.  The document saved is
    the one the store holds afterwards. *)
Theorem save_returnDate env isNew b db b' db' :
  Bookings.save env isNew b db = (inr b', db') →
  (∀ d n k,
     Booking.returnDate b = None →
     Booking.departureDate b = Some d →
     Booking.numberOfDays b = Some n →
     (n == inject_Z k)%Q →
     k ≤ 2 ^ 52 →
     let r := JS.UTC (tz env) (JS.LocalTime (tz env) d + k * JS.msPerDay) in
     Z.abs r ≤ JS.maxTime →
     1 ≤ k
     ∧ Booking.returnDate b' = Some r
     ∧ (JS.offset_at (tz env) (JS.LocalTime (tz env) d + k * JS.msPerDay)
        = JS.offset (tz env) d →
        r = d + k * JS.msPerDay))
  ∧ (∀ r, Booking.returnDate b = Some r → Booking.returnDate b' = Some r)
  ∧ bookings db' =
      (if isNew then (bookings db ++ [b'])%list
       else map (λ x, if Bookings.has_id (Booking._id b) x then b' else x)
              (bookings db)).
Proof.
  rewrite save_run. destruct (Booking.validate b) eqn:Hv; [|discriminate].
  simpl. intros H.
  assert (Hb : b' = Booking.preSave (tz env) b ∧
               bookings db' =
                 (if isNew then (bookings db ++ [b'])%list
                  else map (λ x, if Bookings.has_id (Booking._id b) x
                                 then b' else x) (bookings db))).
  { destruct isNew.
    - destruct (existsb _ _); [discriminate|]. by inversion H.
    - inversion H; subst. by rewrite preSave_id. }
  destruct Hb as [-> Hst]. repeat split.
  - eapply whole_days; [eassumption|]. by eapply validate_numberOfDays.
  - rewrite (preSave_computed _ _ d n) by assumption. f_equal.
    apply addDays_whole; [assumption|].
    pose proof (whole_days n k ltac:(assumption)
                  (validate_numberOfDays b n Hv ltac:(assumption))).
    lia.
  - intros Hoff. unfold JS.UTC, JS.LocalTime in *. lia.
  - intros r Hr. by rewrite (preSave_explicit _ _ r Hr).
  - exact Hst.
Qed.

Lemma save_returnDate_witness :
  let b := bookingController.fromQuotation Sample.delivering "q2"
             (Sample.trip "approved" (Some 15000) (Some "AC included")) in
  Booking.returnDate b = None
  ∧ Booking.departureDate b = Some 1765324800000
  ∧ Booking.numberOfDays b = Some 3%Q
  ∧ ∃ b' db',
      Bookings.save Sample.delivering true b Sample.db = (inr b', db')
      ∧ Booking.returnDate b' = Some (1765324800000 + 3 * 86400000)
      ∧ b' ∈ bookings db'.
Proof.
  intros b. repeat split.
  exists (Booking.preSave (tz Sample.delivering) b).
  exists (store_bookings
            (bookings Sample.db ++ [Booking.preSave (tz Sample.delivering) b])
            Sample.db).
  assert (Hrun : Bookings.save Sample.delivering true b Sample.db
                 = (inr (Booking.preSave (tz Sample.delivering) b),
                    store_bookings
                      (bookings Sample.db
                         ++ [Booking.preSave (tz Sample.delivering) b])
                      Sample.db)) by reflexivity.
  destruct (save_returnDate _ _ _ _ _ _ Hrun) as (Hcomputed & _ & Hstore).
  split; [exact Hrun|]. split.
  - assert (Hk : 3 ≤ 2 ^ 52) by lia.
    destruct (Hcomputed 1765324800000 3%Q 3 eq_refl eq_refl eq_refl eq_refl
                Hk) as (_ & Hret & _); [vm_compute; discriminate|].
    exact Hret.
  - rewrite Hstore. apply elem_of_app. right. apply list_elem_of_singleton.
    reflexivity.
Defined.

(** The days are calendar days of the server's zone, and only whole days
    count.  A booking for 2.5 days is given the return date of one for 2
    days.  In a zone that leaves summer time on 2025-11-02 06:00 UTC, going
    from UTC-4 to UTC-5, a booking that departs on 2025-10-30 at 12:00 UTC
    for 5 days returns 5 times 24 hours and one hour later. *)
Lemma save_returnDate_calendar_days :
  (let b := Sample.lasting (5 # 2) "b7" "q7" 1766188800000 None "confirmed"
              None in
   ∃ b' db',
     Bookings.save Sample.delivering false b Sample.db = (inr b', db')
     ∧ Booking.numberOfDays b' = Some (5 # 2)%Q
     ∧ Booking.returnDate b' = Some (1766188800000 + 2 * 86400000))
  ∧ (let env :=
       {| now := 1761696000000;
          tz := JS.changing 1762063200000 (-14400000) (-18000000);
          development := false; sendMail := λ _, Rejected "";
          newId := "b10" |} in
     let b := Sample.lasting 5 "b7" "q7" 1761825600000 None "confirmed"
                None in
     ∃ b' db',
       Bookings.save env false b Sample.db = (inr b', db')
       ∧ Booking.returnDate b'
         = Some (1761825600000 + 5 * 86400000 + 3600000)).
Proof.
  split.
  - intros b.
    exists (Booking.preSave (tz Sample.delivering) b).
    exists (store_bookings
              (map (λ x, if Bookings.has_id "b7" x
                         then Booking.preSave (tz Sample.delivering) b
                         else x) (bookings Sample.db)) Sample.db).
    split; [reflexivity|]. split; [reflexivity|].
    vm_compute. reflexivity.
  - intros env b.
    exists (Booking.preSave (tz env) b).
    exists (store_bookings
              (map (λ x, if Bookings.has_id "b7" x
                         then Booking.preSave (tz env) b else x)
                 (bookings Sample.db)) Sample.db).
    split; [reflexivity|]. vm_compute. reflexivity.
Qed.

(** ** Looking a booking up after a write *)

Lemma has_id_eq bid b : Bookings.has_id bid b = true ↔ Booking._id b = bid.
Proof. unfold Bookings.has_id. apply String.eqb_eq. Qed.

Lemma find_has_id bid l b :
  find (Bookings.has_id bid) l = Some b → Booking._id b = bid.
Proof. intros H. apply find_some in H as [_ H]. by apply has_id_eq. Qed.

Lemma find_replaced bid l b b' :
  find (Bookings.has_id bid) l = Some b →
  Booking._id b' = bid →
  find (Bookings.has_id bid)
    (map (λ x, if Bookings.has_id bid x then b' else x) l) = Some b'.
Proof.
  intros Hfind Hid. induction l as [|x l IH]; [discriminate|].
  simpl in *. destruct (Bookings.has_id bid x) eqn:Hx.
  - apply has_id_eq in Hid. by rewrite Hid.
  - rewrite Hx. auto.
Qed.

Lemma validate_cancel now uid reason b :
  Booking.validate b = true →
  Booking.validate (Booking.cancel now uid reason b) = true.
Proof.
  unfold Booking.validate. simpl. rewrite !andb_true_iff. tauto.
Qed.

(** ** [cancelBooking] *)

Lemma cancelBooking_run env req reason db :
  bookingController.cancelBooking env req reason db =
    match find (Bookings.has_id (id req)) (bookings db) with
    | None => (reply 404 false "Booking not found", db)
    | Some booking =>
        if String.eqb (Booking.status booking) "cancelled" then
          (reply 400 false "Booking is already cancelled", db)
        else
          match Bookings.save env false
                  (Booking.cancel (now env) (actor req) reason booking) db with
          | (inl e, db') => (reply_error e "Error cancelling booking", db')
          | (inr saved, db') =>
              (reply_data 200 true "Booking cancelled successfully"
                 (BookingData saved), db')
          end
    end.
Proof.
  unfold bookingController.cancelBooking, Bookings.findById, Bookings.cancel.
  run. destruct (find _ _) as [b|]; [|reflexivity].
  destruct (String.eqb _ _); [reflexivity|].
  destruct (Bookings.save _ _ _ _) as [[e|saved] db']; reflexivity.
Qed.

(** C6 (amended).  Cancelling a booking that is already [cancelled] answers
    400 "Booking is already cancelled" and leaves the database as it was, so
    the recorded [cancelledAt], [cancelledBy] and [cancellationReason] stay.
    Cancelling a stored booking that is not cancelled and passes the schema
    succeeds and stores status [cancelled], the reason with the white space
    around it trimmed away, [cancelledAt = now] and [cancelledBy = ] the
    acting user; a further cancel of that booking is rejected and changes
    nothing.  When the booking, with the cancellation assigned, does not
    pass the schema, the save fails: the answer is 500 and nothing is
    changed. *)
Theorem cancelBooking_guard env req reason db b :
  find (Bookings.has_id (id req)) (bookings db) = Some b →
  let out := bookingController.cancelBooking env req reason db in
  (Booking.status b = "cancelled" →
     out = (reply 400 false "Booking is already cancelled", db))
  ∧ (Booking.status b ≠ "cancelled" →
     Booking.validate b = true →
     code (fst out) = 200
     ∧ (∃ b',
          find (Bookings.has_id (id req)) (bookings (snd out)) = Some b'
          ∧ Booking.status b' = "cancelled"
          ∧ Booking.cancellationReason b' = JS.trim <$> reason
          ∧ Booking.cancelledAt b' = Some (now env)
          ∧ Booking.cancelledBy b' = Some (actor req))
     ∧ (∀ env2 req2 reason2,
          id req2 = id req →
          bookingController.cancelBooking env2 req2 reason2 (snd out)
          = (reply 400 false "Booking is already cancelled", snd out)))
  ∧ (Booking.status b ≠ "cancelled" →
     Booking.validate (Booking.cancel (now env) (actor req) reason b)
     = false →
     out = (reply_error (ValidationError "Booking")
              "Error cancelling booking", db)).
Proof.
  intros Hfind out. subst out. rewrite cancelBooking_run, Hfind.
  split; [|split].
  - intros ->. reflexivity.
  - intros Hst Hv. apply String.eqb_neq in Hst. rewrite Hst.
    rewrite save_run, (validate_cancel _ _ _ _ Hv). simpl.
    set (b' := Booking.preSave (tz env)
                 (Booking.cancel (now env) (actor req) reason b)).
    assert (Hid : Booking._id b' = id req).
    { unfold b'. rewrite preSave_id. simpl. by apply find_has_id in Hfind. }
    assert (Hfind' :
      find (Bookings.has_id (id req))
        (map (λ x, if Bookings.has_id (Booking._id b') x then b' else x)
           (bookings db)) = Some b').
    { rewrite Hid. by apply find_replaced with b. }
    assert (Hst' : Booking.status b' = "cancelled").
    { unfold b'. by rewrite preSave_status. }
    split; [reflexivity|]. split.
    + exists b'. split; [exact Hfind'|]. split; [exact Hst'|].
      unfold b'.
      destruct (preSave_cancellation (tz env)
                  (Booking.cancel (now env) (actor req) reason b))
        as (-> & -> & ->).
      auto.
    + intros env2 req2 reason2 Hreq. rewrite cancelBooking_run, Hreq.
      simpl. rewrite Hfind', Hst'. reflexivity.
  - intros Hst Hv. apply String.eqb_neq in Hst.
    by rewrite Hst, save_run, Hv.
Qed.

Lemma cancelBooking_guard_witness :
  bookingController.cancelBooking Sample.delivering (Sample.req "b9")
    (Some "again") Sample.db
  = (reply 400 false "Booking is already cancelled", Sample.db)
  ∧ let out := bookingController.cancelBooking Sample.delivering
                 (Sample.req "b8") (Some "Trip called off") Sample.db in
    code (fst out) = 200
    ∧ ∃ b',
        find (Bookings.has_id "b8") (bookings (snd out)) = Some b'
        ∧ Booking.status b' = "cancelled"
        ∧ Booking.cancellationReason b' = Some "Trip called off"
        ∧ Booking.cancelledAt b' = Some 1764547200000
        ∧ Booking.cancelledBy b' = Some "admin1".
Proof.
  split.
  - destruct (cancelBooking_guard Sample.delivering (Sample.req "b9")
                (Some "again") Sample.db
                (Sample.booked "b9" "q9" 1767571200000 (Some 1767744000000)
                   "cancelled" None) eq_refl)
      as [Hdone _].
    apply Hdone. reflexivity.
  - destruct (cancelBooking_guard Sample.delivering (Sample.req "b8")
                (Some "Trip called off") Sample.db
                (Sample.booked "b8" "q8" 1765756800000 (Some 1765929600000)
                   "confirmed" (Some "Bring water")) eq_refl)
      as (_ & Hlive & _).
    destruct Hlive as (Hcode & Hstored & _).
    + simpl. discriminate.
    + reflexivity.
    + split; [exact Hcode | exact Hstored].
Defined.

(** The reason is not recorded as it is given, and not every booking that is
    not cancelled can be cancelled.  A reason with white space around it
    (here a no-break space before and blanks after) is stored without it.
    A stored booking that does not pass the schema (here one of half a day)
    is answered 500 and stays as it was. *)
Lemma cancelBooking_reason_trimmed :
  (let out := bookingController.cancelBooking Sample.delivering
                (Sample.req "b8")
                (Some (Fixtures.nbsp +:+ "Trip called off  ")) Sample.db in
   code (fst out) = 200
   ∧ Booking.cancellationReason
       <$> find (Bookings.has_id "b8") (bookings (snd out))
     = Some (Some "Trip called off"))
  ∧ (let db := store_bookings (Fixtures.half_day :: bookings Sample.db)
                 Sample.db in
     let out := bookingController.cancelBooking Sample.delivering
                  (Sample.req "b6") (Some "Trip called off") db in
     Booking.status Fixtures.half_day = "confirmed"
     ∧ code (fst out) = 500
     ∧ snd out = db).
Proof. split; vm_compute; repeat split. Qed.

(** ** [updateBookingStatus] *)

Lemma updateBookingStatus_run env req status notes db :
  bookingController.updateBookingStatus env req status notes db =
    match find (Bookings.has_id (id req)) (bookings db) with
    | None => (reply 404 false "Booking not found", db)
    | Some booking =>
        match Bookings.save env false
                (bookingController.assigned status notes booking) db with
        | (inl e, db') => (reply_error e "Error updating booking", db')
        | (inr saved, db') =>
            (reply_data 200 true "Booking updated successfully"
               (BookingData saved), db')
        end
    end.
Proof.
  unfold bookingController.updateBookingStatus, Bookings.findById.
  run. destruct (find _ _) as [b|]; [|reflexivity].
  destruct (Bookings.save _ _ _ _) as [[e|saved] db']; reflexivity.
Qed.

Lemma assigned_id status notes b :
  Booking._id (bookingController.assigned status notes b) = Booking._id b.
Proof. assigned_cases. Qed.

Lemma assigned_status status notes b :
  Booking.status (bookingController.assigned status notes b)
  = if JS.truthy_str status then default (Booking.status b) status
    else Booking.status b.
Proof. assigned_cases. Qed.

Lemma assigned_adminNotes status notes b :
  Booking.adminNotes (bookingController.assigned status notes b)
  = if JS.truthy_str notes then JS.trim <$> notes else Booking.adminNotes b.
Proof. assigned_cases. Qed.

Lemma assigned_returnDate tz status notes b :
  Booking.returnDate
    (Booking.preSave tz (bookingController.assigned status notes b))
  = Booking.returnDate (Booking.preSave tz b).
Proof. assigned_cases. Qed.

Lemma assigned_same_other_paths tz status notes b :
  same_other_paths b
    (Booking.preSave tz (bookingController.assigned status notes b)).
Proof. unfold same_other_paths. repeat split; assigned_cases. Qed.

(** A whitespace-only [adminNotes] is truthy, is assigned, and the [trim]
    setter of the path turns it into the empty string: the notes of booking
    [b8] are cleared. *)
Lemma updateBookingStatus_blank_notes_clear :
  let out := bookingController.updateBookingStatus Sample.delivering
               (Sample.req "b8") None (Some "   ") Sample.db in
  Booking.adminNotes <$> find (Bookings.has_id "b8") (bookings Sample.db)
  = Some (Some "Bring water")
  ∧ code (fst out) = 200
  ∧ Booking.adminNotes <$> find (Bookings.has_id "b8") (bookings (snd out))
    = Some (Some "").
Proof. vm_compute. repeat split. Qed.

(** So do notes of no-break spaces. *)
Example updateBookingStatus_nbsp_notes_clear :
  let out := bookingController.updateBookingStatus Sample.delivering
               (Sample.req "b8") None
               (Some (Fixtures.nbsp +:+ Fixtures.nbsp)) Sample.db in
  code (fst out) = 200
  ∧ Booking.adminNotes <$> find (Bookings.has_id "b8") (bookings (snd out))
    = Some (Some "").
Proof. vm_compute. repeat split. Qed.

(** C10 (amended).  For a stored booking, [updateBookingStatus] either fails
    validation and changes nothing, or replaces the booking by one that
    differs from it at most in [status], [adminNotes] and [returnDate]:
    a falsy [status] or [adminNotes] (absent or empty) leaves that path as it
    was, a truthy [status] is stored as given, a truthy [adminNotes] is stored
    trimmed, so that notes of white space only, of whatever kind, store the
    empty string, and [returnDate] is only filled in by the pre-save hook
    when the booking had none; every other path of the booking schema, every
    other booking and the other collections are unchanged.  (The timestamp
    [updatedAt], which [save] rewrites, is not a path of the schema and is
    outside the statement.) *)
Theorem updateBookingStatus_frame env req status notes db b :
  find (Bookings.has_id (id req)) (bookings db) = Some b →
  let out := bookingController.updateBookingStatus env req status notes db in
  (Booking.validate (bookingController.assigned status notes b) = false →
     out = (reply_error (ValidationError "Booking") "Error updating booking",
            db))
  ∧ (Booking.validate (bookingController.assigned status notes b) = true →
     ∃ b',
       out = (reply_data 200 true "Booking updated successfully"
                (BookingData b'),
              store_bookings
                (map (λ x, if Bookings.has_id (id req) x then b' else x)
                   (bookings db))
                db)
       ∧ find (Bookings.has_id (id req)) (bookings (snd out)) = Some b'
       ∧ Booking.status b' =
           (if JS.truthy_str status then default (Booking.status b) status
            else Booking.status b)
       ∧ Booking.adminNotes b' =
           (if JS.truthy_str notes then JS.trim <$> notes
            else Booking.adminNotes b)
       ∧ (∀ s, notes = Some s → s ≠ "" → JS.blank s = true →
               Booking.adminNotes b' = Some "")
       ∧ Booking.returnDate b'
       = Booking.returnDate (Booking.preSave (tz env) b)
       ∧ (is_Some (Booking.returnDate b) →
          Booking.returnDate b' = Booking.returnDate b)
       ∧ same_other_paths b b').
Proof.
  intros Hfind out. subst out.
  rewrite updateBookingStatus_run, Hfind, save_run. split; intros Hv;
    rewrite Hv; [reflexivity|]. simpl.
  set (b' := Booking.preSave (tz env)
               (bookingController.assigned status notes b)).
  assert (Hid : Booking._id b' = id req).
  { unfold b'. rewrite preSave_id, assigned_id.
    by apply find_has_id in Hfind. }
  exists b'. rewrite Hid. split; [reflexivity|]. simpl.
  split; [by apply find_replaced with b|].
  unfold b'. rewrite preSave_status, preSave_adminNotes.
  split; [apply assigned_status|]. split; [apply assigned_adminNotes|].
  split.
  { intros s -> Hs Hblank. rewrite assigned_adminNotes.
    apply String.eqb_neq in Hs. cbn [JS.truthy_str]. rewrite Hs.
    cbn [negb fmap option_fmap option_map].
    by rewrite (trim_blank_empty s Hblank). }
  split; [apply assigned_returnDate|]. split.
  - intros [r Hr]. rewrite assigned_returnDate.
    by rewrite (preSave_explicit _ _ r Hr).
  - apply assigned_same_other_paths.
Qed.

Lemma updateBookingStatus_frame_witness :
  let out := bookingController.updateBookingStatus Sample.delivering
               (Sample.req "b8") (Some "in-progress") (Some "") Sample.db in
  ∃ b',
    code (fst out) = 200
    ∧ find (Bookings.has_id "b8") (bookings (snd out)) = Some b'
    ∧ Booking.status b' = "in-progress"
    ∧ Booking.adminNotes b' = Some "Bring water"
    ∧ Booking.returnDate b' = Some 1765929600000.
Proof.
  destruct (updateBookingStatus_frame Sample.delivering (Sample.req "b8")
              (Some "in-progress") (Some "") Sample.db
              (Sample.booked "b8" "q8" 1765756800000 (Some 1765929600000)
                 "confirmed" (Some "Bring water")) eq_refl)
    as [_ Hok].
  destruct (Hok eq_refl)
    as (b' & Hout & Hfind & Hst & Hnotes & _ & _ & Hret & _).
  exists b'. rewrite Hout. simpl. rewrite Hout in Hfind. simpl in Hfind.
  split; [reflexivity|]. split; [exact Hfind|]. split; [exact Hst|].
  split; [exact Hnotes|]. apply Hret. by eexists.
Defined.

(** ** [createBookingFromQuotation] *)

Lemma createBookingFromQuotation_run env qid db :
  bookingController.createBookingFromQuotation env qid db =
    match quotes db !! qid with
    | None => (reply 404 false "Quote request not found", db)
    | Some quote =>
        if negb (String.eqb (QuoteRequest.status quote) "approved") then
          (reply 400 false "Quote must be approved before creating booking",
           db)
        else
          match find (Bookings.references qid) (bookings db) with
          | Some _ =>
              (reply 400 false "Booking already exists for this quotation",
               db)
          | None =>
              match users db !! QuoteRequest.user quote with
              | None => (reply_error TypeError "Error creating booking", db)
              | Some _ =>
                  match Bookings.create env
                          (bookingController.fromQuotation env qid quote)
                          db with
                  | (inl e, db') =>
                      (reply_error e "Error creating booking", db')
                  | (inr booking, db') =>
                      (reply_data 201 true "Booking created successfully"
                         (BookingData booking), db')
                  end
              end
          end
    end.
Proof.
  unfold bookingController.createBookingFromQuotation, Quotes.findById,
    Users.populate, Bookings.findOne_quoteRequest.
  run. destruct (quotes db !! qid) as [quote|]; [|reflexivity].
  destruct (negb _); [reflexivity|].
  destruct (find _ _); [reflexivity|].
  destruct (users db !! _); [|reflexivity]. run.
  destruct (Bookings.create _ _ _) as [[e|booking] db']; reflexivity.
Qed.

Lemma create_run env b db :
  Bookings.create env b db =
    let b' := Booking.preSave (tz env) (Bookings.cast b) in
    if Booking.validate (Bookings.cast b) then
      if existsb (Bookings.has_id (Booking._id b')) (bookings db)
      then (inl DuplicateKey, db)
      else (inr b', store_bookings (bookings db ++ [b']) db)
    else (inl (ValidationError "Booking"), db).
Proof. unfold Bookings.create. rewrite save_run. reflexivity. Qed.

Lemma references_eq qid b :
  Bookings.references qid b = true ↔ Booking.quoteRequest b = qid.
Proof. unfold Bookings.references. apply String.eqb_eq. Qed.

Lemma find_references_none qid l :
  find (Bookings.references qid) l = None →
  filter (λ b, Booking.quoteRequest b = qid) l = [].
Proof.
  induction l as [|x l IH]; [reflexivity|]. simpl.
  destruct (Bookings.references qid x) eqn:Hx; [discriminate|].
  intros H. rewrite filter_cons_False; [auto|].
  intros Heq. apply references_eq in Heq. congruence.
Qed.

Lemma find_references_last qid l b :
  find (Bookings.references qid) l = None →
  Booking.quoteRequest b = qid →
  find (Bookings.references qid) (l ++ [b]) = Some b.
Proof.
  intros Hnone Hb. induction l as [|x l IH]; simpl in *.
  - apply references_eq in Hb. by rewrite Hb.
  - destruct (Bookings.references qid x); [discriminate|]. auto.
Qed.

(** What a call that answers 201 has done. *)
Lemma createBookingFromQuotation_created env qid db :
  code (fst (bookingController.createBookingFromQuotation env qid db)) = 201 →
  ∃ quote b,
    quotes db !! qid = Some quote
    ∧ QuoteRequest.status quote = "approved"
    ∧ find (Bookings.references qid) (bookings db) = None
    ∧ Booking.quoteRequest b = qid
    ∧ bookingController.createBookingFromQuotation env qid db
      = (reply_data 201 true "Booking created successfully" (BookingData b),
         store_bookings (bookings db ++ [b]) db).
Proof.
  rewrite createBookingFromQuotation_run.
  destruct (quotes db !! qid) as [quote|]; [|discriminate].
  destruct (String.eqb _ _) eqn:Hst; [|discriminate]. simpl.
  destruct (find _ _) eqn:Hfind; [discriminate|].
  destruct (users db !! _); [|discriminate].
  rewrite create_run. simpl.
  destruct (Booking.validate _); [|discriminate].
  destruct (existsb _ _); [discriminate|]. intros _.
  eexists quote, _. apply String.eqb_eq in Hst.
  repeat split; [exact Hst|]. by rewrite preSave_quoteRequest.
Qed.

(** An approved, priced quote without a booking does get one. *)
Lemma createBookingFromQuotation_creates env qid db quote u :
  quotes db !! qid = Some quote →
  QuoteRequest.status quote = "approved" →
  find (Bookings.references qid) (bookings db) = None →
  users db !! QuoteRequest.user quote = Some u →
  Booking.validate
    (Bookings.cast (bookingController.fromQuotation env qid quote)) = true →
  existsb (Bookings.has_id (newId env)) (bookings db) = false →
  code (fst (bookingController.createBookingFromQuotation env qid db)) = 201.
Proof.
  intros Hq Hst Hnone Hu Hv Hfresh.
  rewrite createBookingFromQuotation_run, Hq, Hst, Hnone, Hu. simpl.
  rewrite create_run, Hv. simpl. rewrite preSave_id. simpl.
  by rewrite Hfresh.
Qed.

(** C5.  [createBookingFromQuotation] adds a booking only when the quote
    exists, is [approved] and no booking references it.  On a quote that is
    not approved it answers 400 "Quote must be approved before creating
    booking" and creates nothing.  After a call that created the booking, a
    second call on the same quote answers 400 "Booking already exists for
    this quotation" (the duplicate rejection), changes nothing, and exactly
    one booking references the quote. *)
Theorem createBookingFromQuotation_guards env qid db :
  let out := bookingController.createBookingFromQuotation env qid db in
  (bookings (snd out) ≠ bookings db →
     ∃ quote,
       quotes db !! qid = Some quote
       ∧ QuoteRequest.status quote = "approved"
       ∧ bookingsFor qid db = [])
  ∧ (∀ quote,
       quotes db !! qid = Some quote →
       QuoteRequest.status quote ≠ "approved" →
       out = (reply 400 false
                "Quote must be approved before creating booking", db))
  ∧ (code (fst out) = 201 →
     ∀ env2,
       bookingController.createBookingFromQuotation env2 qid (snd out)
       = (reply 400 false "Booking already exists for this quotation",
          snd out)
       ∧ length (bookingsFor qid (snd out)) = 1%nat).
Proof.
  intros out. subst out. split; [|split].
  - rewrite createBookingFromQuotation_run.
    destruct (quotes db !! qid) as [quote|]; [|by intros []].
    destruct (String.eqb _ _) eqn:Hst; [|by intros []]. simpl.
    destruct (find _ _) eqn:Hfind; [by intros []|].
    intros _. exists quote. apply String.eqb_eq in Hst.
    repeat split; [exact Hst|]. by apply find_references_none.
  - intros quote Hq Hst. rewrite createBookingFromQuotation_run, Hq.
    apply String.eqb_neq in Hst. by rewrite Hst.
  - intros Hcode env2.
    destruct (createBookingFromQuotation_created env qid db Hcode)
      as (quote & b & Hq & Hst & Hnone & Hb & ->).
    simpl. split.
    + rewrite createBookingFromQuotation_run. simpl. rewrite Hq, Hst. simpl.
      by rewrite (find_references_last qid (bookings db) b Hnone Hb).
    + unfold bookingsFor. simpl.
      rewrite filter_app, (find_references_none _ _ Hnone).
      by rewrite filter_cons_True.
Qed.

Lemma createBookingFromQuotation_guards_witness :
  bookingController.createBookingFromQuotation Sample.delivering "q1"
    Sample.db
  = (reply 400 false "Quote must be approved before creating booking",
     Sample.db)
  ∧ let out := bookingController.createBookingFromQuotation Sample.delivering
                 "q2" Sample.db in
    code (fst out) = 201
    ∧ bookingController.createBookingFromQuotation Sample.failing "q2"
        (snd out)
      = (reply 400 false "Booking already exists for this quotation",
         snd out)
    ∧ length (bookingsFor "q2" (snd out)) = 1%nat.
Proof.
  split.
  - destruct (createBookingFromQuotation_guards Sample.delivering "q1"
                Sample.db) as (_ & Hpending & _).
    apply (Hpending (Sample.trip "pending" None None)).
    + vm_compute; reflexivity.
    + simpl. discriminate.
  - destruct (createBookingFromQuotation_guards Sample.delivering "q2"
                Sample.db) as (_ & _ & Hsecond).
    assert (Hcode :
      code (fst (bookingController.createBookingFromQuotation
                   Sample.delivering "q2" Sample.db)) = 201)
      by (vm_compute; reflexivity).
    split; [exact Hcode|]. exact (Hsecond Hcode Sample.failing).
Defined.

(** The booking made from the approved quote [q2] (3 days at 15000 a day):
    total price 45000, type [confirmed], payment [pending], return three days
    after departure. *)
Example booking_from_approved_quote :
  match fst (bookingController.createBookingFromQuotation Sample.delivering
               "q2" Sample.db) with
  | {| code := 201; data := Some (BookingData b) |} =>
      Booking.totalPrice b = Some 45000%Q
      ∧ Booking.pricePerDay b = Some 15000
      ∧ Booking.bookingType b = "confirmed"
      ∧ Booking.paymentStatus b = "pending"
      ∧ Booking.returnDate b = Some (1765324800000 + 3 * 86400000)
  | _ => False
  end.
Proof. vm_compute. repeat split. Qed.

(** An approved quote that was never priced gets no booking: the required
    prices are missing and [Booking.create] fails validation. *)
Example unpriced_quote_gets_no_booking :
  let db := store_quote "q4" (Sample.trip "approved" None None) Sample.db in
  bookingController.createBookingFromQuotation Sample.delivering "q4" db
  = (reply_error (ValidationError "Booking") "Error creating booking", db).
Proof. reflexivity. Qed.

(** ** The calendar *)

Lemma departs_le_transitive : Transitive departs_le.
Proof.
  intros a b c. unfold departs_le.
  destruct (Booking.departureDate a), (Booking.departureDate b),
    (Booking.departureDate c); try tauto; lia.
Qed.

Lemma departs_le_total : Total departs_le.
Proof.
  intros a b. unfold departs_le.
  destruct (Booking.departureDate a), (Booking.departureDate b);
    try tauto; lia.
Qed.

Lemma in_range_inv s e b :
  Bookings.in_range s e b →
  ∃ d, Booking.departureDate b = Some d ∧ s ≤ d ≤ e.
Proof.
  unfold Bookings.in_range. destruct (Booking.departureDate b) as [d|];
    [|intros []].
  intros H. apply Is_true_true, andb_true_iff in H as [H1 H2].
  exists d. split; [reflexivity|]. lia.
Qed.

Lemma in_range_swapped s e l :
  e < s → filter (Bookings.in_range s e) l = [].
Proof.
  intros Hse. induction l as [|x l IH]; [reflexivity|].
  rewrite filter_cons_False; [exact IH|].
  intros H. apply in_range_inv in H as (d & _ & Hd). lia.
Qed.

Lemma mapM_cons {A B} (f : A → M B) x l db :
  mapM f (x :: l) db =
    match f x db with
    | (inl e, db') => (inl e, db')
    | (inr y, db') =>
        match mapM f l db' with
        | (inl e, db'') => (inl e, db'')
        | (inr ys, db'') => (inr (y :: ys), db'')
        end
    end.
Proof.
  simpl. run. destruct (f x db) as [[e|y] db']; [reflexivity|].
  destruct (mapM f l db') as [[e|ys] db'']; reflexivity.
Qed.

Lemma toEvent_run db b u :
  users db !! Booking.user b = Some u →
  ∃ ev, BookingStatics.toEvent b db = (inr ev, db) ∧ event_of b ev.
Proof.
  intros Hu. unfold BookingStatics.toEvent, Users.populate. run.
  rewrite Hu. eexists. split; [reflexivity|]. repeat split.
Qed.

Lemma mapM_toEvent db l :
  Forall (λ b, is_Some (users db !! Booking.user b)) l →
  ∃ events,
    mapM BookingStatics.toEvent l db = (inr events, db)
    ∧ Forall2 event_of l events.
Proof.
  induction 1 as [|b l [u Hu] _ (events & Hrun & Hall)].
  - exists []. split; [reflexivity | constructor].
  - destruct (toEvent_run db b u Hu) as (ev & Hev & Hof).
    exists (ev :: events). rewrite mapM_cons, Hev, Hrun.
    split; [reflexivity|]. by constructor.
Qed.

Lemma events_sorted l events :
  StronglySorted departs_le l →
  Forall (λ b, is_Some (Booking.departureDate b)) l →
  Forall2 event_of l events →
  StronglySorted event_le events.
Proof.
  intros Hsorted Hdates Hall. revert Hsorted Hdates.
  induction Hall as [|b ev l events Hev Hall IH]; intros Hsorted Hdates;
    [constructor|].
  apply StronglySorted_inv in Hsorted as [Hsorted Hhead].
  apply Forall_cons in Hdates as [[d Hd] Hdates].
  constructor; [auto|].
  clear IH Hsorted. destruct Hev as (_ & _ & Hstart & _).
  induction Hall as [|b2 ev2 l events Hev2 Hall IH]; [constructor|].
  apply Forall_cons in Hhead as [Hle Hhead].
  apply Forall_cons in Hdates as [[d2 Hd2] Hdates].
  constructor; [|auto].
  destruct Hev2 as (_ & _ & Hstart2 & _).
  unfold event_le, departs_le in *.
  rewrite Hstart, Hstart2, Hd, Hd2. by rewrite Hd, Hd2 in Hle.
Qed.

Lemma getCalendarEvents_run from_ to_ db :
  bookingController.getCalendarEvents from_ to_ db =
    if negb (given from_) || negb (given to_) then
      (reply 400 false "Start and end dates are required", db)
    else
      match new_Date from_, new_Date to_ with
      | Some s, Some e =>
          match mapM BookingStatics.toEvent
                  (merge_sort departs_le
                     (filter (Bookings.in_range s e) (bookings db))) db with
          | (inr events, db') =>
              ({| code := 200; success := true; message := None;
                  count := Some (length events);
                  data := Some (Events events);
                  warning := None; error := None |}, db')
          | (inl _, db') =>
              (reply 500 false "Error fetching calendar events", db')
          end
      | _, _ => (reply 500 false "Error fetching calendar events", db)
      end.
Proof.
  unfold bookingController.getCalendarEvents,
    BookingStatics.getCalendarEvents, Bookings.getByDateRange.
  destruct (negb (given from_) || negb (given to_)); [reflexivity|].
  destruct (new_Date from_), (new_Date to_); try reflexivity.
  run. destruct (mapM _ _ _) as [[e|events] db']; reflexivity.
Qed.

(** With the bounds swapped (start 2025-12-31, end 2025-12-01) the call is
    not rejected: it answers 200 with an empty list of events. *)
Lemma getCalendarEvents_swapped_bounds_accepted :
  let out := bookingController.getCalendarEvents (DateString 1767139200000)
               (DateString 1764547200000) Sample.db in
  1764547200000 < 1767139200000
  ∧ code (fst out) ≠ 400
  ∧ fst out = {| code := 200; success := true; message := None;
                 count := Some 0%nat; data := Some (Events []);
                 warning := None; error := None |}.
Proof. vm_compute. repeat split; discriminate. Qed.

(** C8 (amended).  [getCalendarEvents] answers 400 "Start and end dates are
    required" when a bound is missing.  With two dates as bounds, in either
    order, and the customers of the bookings in range on file, it answers 200
    with one event per booking departing within the bounds, in ascending
    order of departure; each event ends at the booking's [returnDate] when
    there is one and at its [departureDate] otherwise.  Swapped bounds are
    not rejected: no booking is in range and the list is empty. *)
Theorem getCalendarEvents_range from_ to_ db :
  let out := bookingController.getCalendarEvents from_ to_ db in
  (from_ = Missing ∨ to_ = Missing →
     out = (reply 400 false "Start and end dates are required", db))
  ∧ (∀ s e,
       from_ = DateString s →
       to_ = DateString e →
       Forall (λ b, Bookings.in_range s e b →
                    is_Some (users db !! Booking.user b)) (bookings db) →
       ∃ events,
         out = ({| code := 200; success := true; message := None;
                   count := Some (length events);
                   data := Some (Events events);
                   warning := None; error := None |}, db)
         ∧ resource <$> events
         ≡ₚ filter (Bookings.in_range s e) (bookings db)
         ∧ StronglySorted event_le events
         ∧ Forall (λ ev, start ev = Booking.departureDate (resource ev)
                         ∧ end_ ev = shown_end (resource ev)) events
         ∧ (e < s → events = [])).
Proof.
  intros out. subst out. rewrite getCalendarEvents_run. split.
  - intros [-> | ->]; simpl; [reflexivity|]. by rewrite orb_true_r.
  - intros s e -> -> Husers. simpl.
    set (found := merge_sort departs_le
                    (filter (Bookings.in_range s e) (bookings db))).
    assert (Hperm : found ≡ₚ filter (Bookings.in_range s e) (bookings db))
      by apply merge_sort_Permutation.
    assert (Hin : Forall (λ b, Bookings.in_range s e b) found).
    { rewrite Hperm. apply Forall_forall. intros b Hb.
      by apply list_elem_of_filter in Hb as [Hb _]. }
    assert (Hknown : Forall (λ b, is_Some (users db !! Booking.user b)) found).
    { rewrite Hperm. apply Forall_forall. intros b Hb.
      apply list_elem_of_filter in Hb as [Hb Hel].
      rewrite Forall_forall in Husers. by apply Husers. }
    destruct (mapM_toEvent db found Hknown) as (events & -> & Hall).
    exists events. split; [reflexivity|].
    assert (Hres : resource <$> events = found).
    { clear -Hall. induction Hall as [|b ev l evs (Hr & _) _ IH];
        [reflexivity|]. csimpl. by f_equal. }
    split; [by rewrite Hres|]. split.
    + apply events_sorted with found; [| |exact Hall].
      * apply @StronglySorted_merge_sort;
          [apply departs_le_transitive | apply departs_le_total].
      * eapply Forall_impl; [exact Hin|]. intros b Hb.
        apply in_range_inv in Hb as (d & -> & _). by eexists.
    + split.
      * clear -Hall. induction Hall as [|b ev l evs (Hr & _ & Hs & He) _ IH];
          constructor; [|exact IH]. by rewrite Hr.
      * intros Hse. unfold found in Hall.
        rewrite (in_range_swapped s e _ Hse) in Hall. by inversion Hall.
Qed.

Lemma getCalendarEvents_range_witness :
  bookingController.getCalendarEvents Missing (DateString 1767139200000)
    Sample.db
  = (reply 400 false "Start and end dates are required", Sample.db)
  ∧ ∃ events,
      fst (bookingController.getCalendarEvents (DateString 1764547200000)
             (DateString 1767139200000) Sample.db)
      = {| code := 200; success := true; message := None;
           count := Some (length events); data := Some (Events events);
           warning := None; error := None |}
      ∧ Booking._id <$> (resource <$> events) = ["b8"; "b7"]
      ∧ end_ <$> events = [Some 1765929600000; Some 1766188800000]
      ∧ StronglySorted event_le events.
Proof.
  split.
  - destruct (getCalendarEvents_range Missing (DateString 1767139200000)
                Sample.db) as [Hmissing _].
    apply Hmissing. left. reflexivity.
  - destruct (getCalendarEvents_range (DateString 1764547200000)
                (DateString 1767139200000) Sample.db) as [_ Hrange].
    destruct (Hrange 1764547200000 1767139200000 eq_refl eq_refl)
      as (events & Hout & _ & Hsorted & _).
    + repeat constructor; intros _; vm_compute; eauto.
    + exists events. rewrite Hout. simpl. split; [reflexivity|].
      assert (Hrun :
        fst (bookingController.getCalendarEvents (DateString 1764547200000)
               (DateString 1767139200000) Sample.db)
        = fst (bookingController.getCalendarEvents (DateString 1764547200000)
                 (DateString 1767139200000) Sample.db)) by reflexivity.
      rewrite Hout in Hrun at 1. vm_compute in Hrun.
      injection Hrun as Hlen Hev. subst events.
      repeat split; [exact Hsorted].
Defined.

(** * More properties *)

(** ** [submitQuotation], on every input *)

(** The five ways a call can end. *)
Lemma submitQuotation_cases env req price notes db :
  let out := quoteController.submitQuotation env req price notes db in
  out = (reply 400 false "Please provide a valid estimated price", db)
  ∨ out = (reply 404 false "Quote request not found", db)
  ∨ (code (fst out) = 500 ∧ data (fst out) = None
     ∧ warning (fst out) = None ∧ snd out = db)
  ∨ (∃ p q,
       price = Some p ∧ 0 < p ∧ quotes db !! id req = Some q
       ∧ QuoteRequest.validate (tz env) (now env)
           (quoteController.priced (Some p) notes q) = true
       ∧ ((code (fst out) = 500 ∧ data (fst out) = None
           ∧ warning (fst out) = None
           ∧ snd out = price_recorded req p notes q db)
          ∨ (∃ mid,
               out =
                 (reply_data 200 true
                    "Quotation submitted and email sent successfully"
                    (Submission (quoteController.priced (Some p) notes q)
                       true (Some mid) None),
                  log_entry
                    (quoteController.email_sent req
                       {| emailService.success := true;
                          emailService.messageId := mid;
                          emailService.message :=
                            "Quotation email sent successfully" |})
                    (price_recorded req p notes q db))))).
Proof.
  intros out. subst out.
  destruct (negb (JS.truthy_num price) || JS.le0 price) eqn:Hcheck.
  { left. unfold quoteController.submitQuotation. by rewrite Hcheck. }
  assert (Hprice : ∃ p, price = Some p ∧ 0 < p).
  { destruct price as [p|]; [|discriminate]. exists p. split; [done|].
    simpl in Hcheck. apply orb_false_iff in Hcheck as [_ Hle].
    apply Z.leb_gt in Hle. lia. }
  destruct Hprice as (p & -> & Hp).
  destruct (quotes db !! id req) as [q|] eqn:Hq.
  2:{ right. left. unfold quoteController.submitQuotation, Quotes.findById.
      rewrite Hcheck. run. by rewrite Hq. }
  right. right.
  destruct (QuoteRequest.validate (tz env) (now env)
              (quoteController.priced (Some p) notes q)) eqn:Hv.
  2:{ left. unfold quoteController.submitQuotation, Quotes.findById,
        Users.populate, Quotes.save.
      rewrite Hcheck. run. rewrite Hq, Hv. simpl. auto. }
  right. exists p, q. repeat split; try done.
  destruct (users db !! QuoteRequest.user q) as [u|] eqn:Hu.
  - destruct (sendMail env (User.email u)) as [mid|m] eqn:Hs.
    + right. exists mid.
      apply (submitQuotation_sent env req db p notes q Hp Hq Hv u mid Hu Hs).
    + left.
      rewrite (submitQuotation_rejected env req db p notes q Hp Hq Hv u m
                 Hu Hs).
      simpl. auto.
  - left. rewrite (submitQuotation_no_user env req db p notes q Hp Hq Hv Hu).
    simpl. auto.
Qed.

(** X1.  On no input does [submitQuotation] produce the reply it has for a
    failed delivery: the reply never carries a warning, and a reply that
    carries a submission has [emailSent: true] and code 200. *)
Theorem submitQuotation_never_degrades env req price notes db :
  let r := fst (quoteController.submitQuotation env req price notes db) in
  warning r = None
  ∧ ∀ q sent mid err,
      data r = Some (Submission q sent mid err) →
      sent = true ∧ err = None ∧ code r = 200.
Proof.
  intros r. subst r.
  destruct (submitQuotation_cases env req price notes db)
    as [-> | [-> | [(_ & Hd & Hw & _) | (p & q & _ & _ & _ & _ & Hout)]]].
  - split; [done|]. intros ???? [=].
  - split; [done|]. intros ???? [=].
  - split; [done|]. rewrite Hd. intros ???? [=].
  - destruct Hout as [(_ & Hd & Hw & _) | (mid & ->)].
    + split; [done|]. rewrite Hd. intros ???? [=].
    + split; [done|]. simpl. intros ???? [= <- <- <- <-]. done.
Qed.

(** X2.  Every call either leaves the database as it was, or stores the
    priced quote and appends, right after the old log, the [price_updated]
    entry holding the quote's state before and after; at most one more entry
    follows.  Users, bookings and the other quotes are never touched. *)
Theorem submitQuotation_audited env req price notes db :
  let db' := snd (quoteController.submitQuotation env req price notes db) in
  users db' = users db
  ∧ bookings db' = bookings db
  ∧ (∀ k, k ≠ id req → quotes db' !! k = quotes db !! k)
  ∧ (db' = db
     ∨ ∃ p q rest,
         price = Some p
         ∧ quotes db !! id req = Some q
         ∧ quotes db' !! id req
           = Some (quoteController.priced (Some p) notes q)
         ∧ history db' =
             (history db
                ++ quoteController.price_updated req q
                     (quoteController.priced (Some p) notes q) :: rest)%list
         ∧ (length rest ≤ 1)%nat).
Proof.
  intros db'. subst db'.
  destruct (submitQuotation_cases env req price notes db)
    as [-> | [-> | [(_ & _ & _ & ->) | (p & q & -> & _ & Hq & _ & Hout)]]];
    try (repeat split; auto; fail).
  assert (Hother : ∀ k, k ≠ id req →
            <[id req := quoteController.priced (Some p) notes q]> (quotes db)
              !! k = quotes db !! k).
  { intros k Hk. by apply lookup_insert_ne. }
  destruct Hout as [(_ & _ & _ & ->) | (mid & ->)]; simpl.
  - repeat split; [exact Hother|]. right. exists p, q, []. simpl.
    repeat split; first [done | apply lookup_insert_eq | lia].
  - repeat split; [exact Hother|]. right. eexists p, q, [_]. simpl.
    repeat split;
      first [done | apply lookup_insert_eq | by rewrite <- app_assoc | lia].
Qed.

(** What the log and the store hold after a call whose update is saved. *)
Lemma submitQuotation_records env req db p notes q :
  0 < p →
  quotes db !! id req = Some q →
  QuoteRequest.validate (tz env) (now env)
    (quoteController.priced (Some p) notes q) = true →
  let db' := snd (quoteController.submitQuotation env req (Some p) notes db) in
  quotes db' !! id req = Some (quoteController.priced (Some p) notes q)
  ∧ ∃ rest,
      history db' =
        (history db
           ++ quoteController.price_updated req q
                (quoteController.priced (Some p) notes q) :: rest)%list.
Proof.
  intros Hp Hq Hv db'. subst db'. split.
  { apply (submitQuotation_persists env req db p notes q Hp Hq Hv). }
  destruct (users db !! QuoteRequest.user q) as [u|] eqn:Hu.
  - destruct (sendMail env (User.email u)) as [mid|m] eqn:Hs.
    + rewrite (submitQuotation_sent env req db p notes q Hp Hq Hv u mid
                 Hu Hs).
      eexists [_]. simpl. by rewrite <- app_assoc.
    + rewrite (submitQuotation_rejected env req db p notes q Hp Hq Hv u m
                 Hu Hs).
      by exists [].
  - rewrite (submitQuotation_no_user env req db p notes q Hp Hq Hv Hu).
    by exists [].
Qed.

(** X3.  The audit trail chains: when two submissions for the same quote are
    both saved, the state the second [price_updated] entry records as
    previous is the state the first one records as new, whatever happened to
    the emails. *)
Theorem submitQuotation_audit_chain env1 env2 req db p1 notes1 p2 notes2 q :
  0 < p1 →
  0 < p2 →
  quotes db !! id req = Some q →
  QuoteRequest.validate (tz env1) (now env1)
    (quoteController.priced (Some p1) notes1 q) = true →
  QuoteRequest.validate (tz env2) (now env2)
    (quoteController.priced (Some p2) notes2
       (quoteController.priced (Some p1) notes1 q)) = true →
  let db1 := snd (quoteController.submitQuotation env1 req (Some p1) notes1
                    db) in
  let db2 := snd (quoteController.submitQuotation env2 req (Some p2) notes2
                    db1) in
  ∃ e1 between e2 rest,
    history db2 = (history db ++ e1 :: between ++ e2 :: rest)%list
    ∧ QuotationHistory.action e1 = "price_updated"
    ∧ QuotationHistory.action e2 = "price_updated"
    ∧ QuotationHistory.previousState e2 = QuotationHistory.newState e1
    ∧ QuotationHistory.estimatedPrice
        <$> QuotationHistory.newState e2 = Some (Some p2).
Proof.
  intros Hp1 Hp2 Hq Hv1 Hv2 db1 db2.
  destruct (submitQuotation_records env1 req db p1 notes1 q Hp1 Hq Hv1)
    as (Hq1 & between & Hh1).
  fold db1 in Hq1, Hh1.
  destruct (submitQuotation_records env2 req db1 p2 notes2 _ Hp2 Hq1 Hv2)
    as (_ & rest & Hh2).
  fold db2 in Hh2. eexists _, between, _, rest.
  rewrite Hh2, Hh1, <- app_assoc. simpl. repeat split.
Qed.

Lemma submitQuotation_audit_chain_witness :
  let db1 := snd (quoteController.submitQuotation Sample.failing
                    (Sample.req "q1") (Some 15000) (Some "AC included")
                    Sample.db) in
  let db2 := snd (quoteController.submitQuotation Sample.delivering
                    (Sample.req "q1") (Some 14000) None db1) in
  ∃ e1 between e2 rest,
    history db2 = (history Sample.db ++ e1 :: between ++ e2 :: rest)%list
    ∧ QuotationHistory.action e1 = "price_updated"
    ∧ QuotationHistory.action e2 = "price_updated"
    ∧ QuotationHistory.previousState e2 = QuotationHistory.newState e1
    ∧ QuotationHistory.estimatedPrice
        <$> QuotationHistory.newState e2 = Some (Some 14000).
Proof.
  apply (submitQuotation_audit_chain Sample.failing Sample.delivering
           (Sample.req "q1") Sample.db 15000 (Some "AC included") 14000 None
           (Sample.trip "pending" None None)).
  - lia.
  - lia.
  - vm_compute; reflexivity.
  - vm_compute; reflexivity.
  - vm_compute; reflexivity.
Defined.

(** ** [createQuote] *)

Lemma setHours0_constant tz c t :
  JS.constant tz c → JS.setHours0 tz t = JS.msPerDay * JS.Day (t + c) - c.
Proof.
  intros H. unfold JS.setHours0, JS.UTC, JS.LocalTime.
  destruct (H t) as [-> _].
  by destruct (H (JS.msPerDay * JS.Day (t + c))) as [_ ->].
Qed.

(** In a zone of constant offset, local midnight of today is not after [d]
    exactly when the local day of [d] is not before today's. *)
Lemma not_past_iff tz c now d :
  JS.constant tz c →
  JS.setHours0 tz now ≤ d ↔ JS.Day (now + c) ≤ JS.Day (d + c).
Proof.
  intros Hc. rewrite (setHours0_constant tz c) by exact Hc. unfold JS.Day.
  assert (Hm : 0 < JS.msPerDay) by (unfold JS.msPerDay; lia).
  split; intros H.
  - apply Z.div_le_lower_bound; [exact Hm | lia].
  - pose proof (Z.mul_div_le (d + c) JS.msPerDay Hm).
    assert (JS.msPerDay * ((now + c) / JS.msPerDay)
            ≤ JS.msPerDay * ((d + c) / JS.msPerDay)) by nia.
    lia.
Qed.

Lemma createQuote_run env req body db :
  quoteHandlers.createQuote env req body db =
    if quoteHandlers.incomplete body then
      (refuse 400 "Please provide all required fields", db)
    else if JSOps.gt (QuoteBody.numberOfPassengers body)
              (quoteHandlers.maxCapacity (QuoteBody.busType body)) then
      (refuse 400
         ("Number of passengers ("
            +:+ pretty (default 0 (QuoteBody.numberOfPassengers body))
            +:+ ") exceeds bus capacity ("
            +:+ pretty (quoteHandlers.maxCapacity (QuoteBody.busType body))
            +:+ ")"), db)
    else if JSOps.date_lt (new_Date (QuoteBody.departureDate body))
              (JS.setHours0 (tz env) (now env)) then
      (refuse 400 "Departure date must be today or in the future", db)
    else
      match cast_Date (QuoteBody.departureDate body) with
      | None =>
          (refuse_error (ValidationError "QuoteRequest")
             "Error creating quote request", db)
      | Some d =>
          let q := QuoteCollection.cast (quoteHandlers.requested req body d) in
          if QuoteRequest.validate (tz env) (now env) q then
            match quotes db !! newId env with
            | Some _ =>
                (refuse_error DuplicateKey "Error creating quote request", db)
            | None =>
                (accept 201 "Quote request submitted successfully" q,
                 store_quote (newId env) q db)
            end
          else
            (refuse_error (ValidationError "QuoteRequest")
               "Error creating quote request", db)
      end.
Proof.
  unfold quoteHandlers.createQuote.
  destruct (quoteHandlers.incomplete body); [reflexivity|].
  destruct (JSOps.gt _ _); [reflexivity|].
  destruct (JSOps.date_lt _ _); [reflexivity|].
  destruct (cast_Date _) as [d|]; [|reflexivity].
  unfold QuoteCollection.create, Users.populate. simpl.
  destruct (QuoteRequest.validate _ _ _); [|reflexivity].
  run. destruct (quotes db !! newId env); reflexivity.
Qed.

Lemma validate_passengers tz now q :
  QuoteRequest.validate tz now q = true →
  1 ≤ QuoteRequest.numberOfPassengers q
      ≤ (if String.eqb (QuoteRequest.busType q) "49-seater" then 49 else 60)
  ∧ (1 <= QuoteRequest.numberOfDays q)%Q
  ∧ JS.setHours0 tz now ≤ QuoteRequest.departureDate q.
Proof.
  unfold QuoteRequest.validate. rewrite !andb_true_iff.
  unfold Schema.min, Schema.max, Schema.min_frac,
    QuoteRequest.passengers_fit, QuoteRequest.departure_not_past.
  intros [[[[[[[[[[_ _] Hd] _] Hp1] Hp60] Hfit] Hdate] _] _] _].
  apply Z.leb_le in Hp1, Hp60, Hdate. apply Qle_bool_iff in Hd.
  repeat split; try done.
  destruct (String.eqb _ "49-seater"); [|done]. simpl in Hfit.
  destruct (Z.ltb_spec 49 (QuoteRequest.numberOfPassengers q));
    [discriminate | lia].
Qed.

(** X4.  [createQuote] writes nothing unless it answers 201, and what it then
    stores, under a fresh [_id], is a quote of the acting user that passes
    the schema, is [pending], has no price and no admin notes, has between 1
    and the capacity of its bus type passengers, lasts at least a day, and
    departs at or after today's local midnight: in a zone of constant
    offset, on today's local date or later. *)
Theorem createQuote_stores env req body db :
  let out := quoteHandlers.createQuote env req body db in
  (rcode (fst out) ≠ 201 → snd out = db)
  ∧ (rcode (fst out) = 201 →
     ∃ q,
       rdata (fst out) = Some q
       ∧ quotes db !! newId env = None
       ∧ snd out = store_quote (newId env) q db
       ∧ QuoteRequest.validate (tz env) (now env) q = true
       ∧ QuoteRequest.user q = actor req
       ∧ QuoteRequest.status q = "pending"
       ∧ QuoteRequest.estimatedPrice q = None
       ∧ QuoteRequest.adminNotes q = None
       ∧ 1 ≤ QuoteRequest.numberOfPassengers q
             ≤ (if String.eqb (QuoteRequest.busType q) "49-seater"
                then 49 else 60)
       ∧ (1 <= QuoteRequest.numberOfDays q)%Q
       ∧ JS.setHours0 (tz env) (now env) ≤ QuoteRequest.departureDate q
       ∧ ∀ c, JS.constant (tz env) c →
              JS.Day (now env + c)
              ≤ JS.Day (QuoteRequest.departureDate q + c)).
Proof.
  intros out. subst out. rewrite createQuote_run.
  destruct (quoteHandlers.incomplete body); [by split|].
  destruct (JSOps.gt _ _); [by split|].
  destruct (JSOps.date_lt _ _); [by split|].
  destruct (cast_Date _) as [d|]; [|by split]. simpl.
  destruct (QuoteRequest.validate _ _ _) eqn:Hv; [|by split].
  destruct (quotes db !! newId env) eqn:Hfresh; [by split|].
  simpl. split; [intros H; exfalso; apply H; reflexivity|].
  intros _. exists (QuoteCollection.cast (quoteHandlers.requested req body d)).
  destruct (validate_passengers _ _ _ Hv) as (Hpax & Hdays & Hdate).
  split; [reflexivity|]. split; [reflexivity|]. split; [reflexivity|].
  split; [exact Hv|]. split; [reflexivity|]. split; [reflexivity|].
  split; [reflexivity|]. split; [reflexivity|]. split; [exact Hpax|].
  split; [exact Hdays|]. split; [exact Hdate|].
  intros c Hc. by apply (not_past_iff (tz env) c).
Qed.

(** X5.  A complete request is accepted: with a pickup and a drop-off that
    are not blank, at least one day, a known bus type, between 1 and the
    capacity of that bus (49 or 60) passengers, a departure (a date string,
    or digits read as milliseconds) not before today's local midnight, even
    if at an hour already past, special requests of at most 500 UTF-16 code
    units once trimmed, and an unused [_id], [createQuote] answers 201 and
    stores the quote with its strings trimmed. *)
Theorem createQuote_accepts env req db pickup dropoff days bus pax date d
    special :
  let body :=
    {| QuoteBody.pickupLocation := Some pickup;
       QuoteBody.dropoffLocation := Some dropoff;
       QuoteBody.numberOfDays := Some days;
       QuoteBody.busType := Some bus;
       QuoteBody.numberOfPassengers := Some pax;
       QuoteBody.departureDate := date;
       QuoteBody.specialRequests := special |} in
  JS.trim pickup ≠ "" →
  JS.trim dropoff ≠ "" →
  (1 <= days)%Q →
  (bus = "49-seater" ∧ 1 ≤ pax ≤ 49) ∨ (bus = "60-seater" ∧ 1 ≤ pax ≤ 60) →
  cast_Date date = Some d →
  JS.setHours0 (tz env) (now env) ≤ d →
  (∀ s, special = Some s → (JS.length (JS.trim s) ≤ 500)%nat) →
  quotes db !! newId env = None →
  let out := quoteHandlers.createQuote env req body db in
  rcode (fst out) = 201
  ∧ quotes (snd out) !! newId env
    = Some (QuoteCollection.cast (quoteHandlers.requested req body d)).
Proof.
  intros body Hpick Hdrop Hdays Hbus Hcast Hdate Hspecial Hfresh out.
  subst out. rewrite createQuote_run.
  assert (Hgiven : given date = true) by (by destruct date).
  assert (Hinc : quoteHandlers.incomplete body = false).
  { unfold quoteHandlers.incomplete, body.
    cbn [QuoteBody.pickupLocation QuoteBody.dropoffLocation
         QuoteBody.numberOfDays QuoteBody.busType
         QuoteBody.numberOfPassengers QuoteBody.departureDate].
    rewrite (truthy_days days Hdays), Hgiven.
    apply trim_nonempty, String.eqb_neq in Hpick, Hdrop.
    cbn [JS.truthy_str JS.truthy_num]. rewrite Hpick, Hdrop.
    assert (bus ≠ "") as Hb%String.eqb_neq
      by (destruct Hbus as [[-> _]|[-> _]]; done).
    rewrite Hb.
    destruct (Z.eqb_spec pax 0); [destruct Hbus; lia|]. done. }
  rewrite Hinc.
  assert (Hcap : JSOps.gt (QuoteBody.numberOfPassengers body)
                   (quoteHandlers.maxCapacity (QuoteBody.busType body))
                 = false).
  { unfold body. simpl. destruct Hbus as [[-> ?]|[-> ?]]; simpl;
      apply Z.ltb_ge; lia. }
  rewrite Hcap.
  assert (Hlt : JSOps.date_lt (new_Date (QuoteBody.departureDate body))
                  (JS.setHours0 (tz env) (now env)) = false).
  { unfold body. cbn [QuoteBody.departureDate].
    destruct date; try done. injection Hcast as ->.
    cbn [new_Date JSOps.date_lt]. apply Z.ltb_ge. lia. }
  rewrite Hlt. change (QuoteBody.departureDate body) with date.
  rewrite Hcast. cbv zeta.
  assert (Hv : QuoteRequest.validate (tz env) (now env)
                 (QuoteCollection.cast (quoteHandlers.requested req body d))
               = true).
  { unfold QuoteRequest.validate, body.
    cbn [QuoteCollection.cast quoteHandlers.requested
         QuoteRequest.pickupLocation QuoteRequest.dropoffLocation
         QuoteRequest.numberOfDays QuoteRequest.busType
         QuoteRequest.numberOfPassengers QuoteRequest.departureDate
         QuoteRequest.specialRequests QuoteRequest.status
         QuoteRequest.estimatedPrice QuoteBody.pickupLocation
         QuoteBody.dropoffLocation QuoteBody.numberOfDays QuoteBody.busType
         QuoteBody.numberOfPassengers QuoteBody.specialRequests default].
    unfold Datatypes.id.
    unfold Schema.required_str, Schema.min, Schema.max, Schema.min_frac,
      QuoteRequest.passengers_fit, QuoteRequest.departure_not_past.
    apply String.eqb_neq in Hpick, Hdrop. rewrite Hpick, Hdrop.
    assert (Hd : Qle_bool (inject_Z 1) days = true)
      by (by apply Qle_bool_iff).
    rewrite Hd.
    assert (Hsp : Schema.opt (Schema.maxlength 500)
                    (JS.trim <$> JS.or_str special (Some "")) = true).
    { unfold JS.or_str. destruct (JS.truthy_str special); [|done].
      destruct special as [s|]; [|done]. simpl. unfold Schema.maxlength.
      apply Nat.leb_le. by apply Hspecial. }
    rewrite Hsp.
    apply Z.leb_le in Hdate. rewrite Hdate.
    destruct Hbus as [[-> ?]|[-> ?]]; simpl;
      repeat (apply andb_true_intro; split); try done;
      first [apply Z.leb_le; lia | apply negb_true_iff, Z.ltb_ge; lia
            | idtac].
    all: try (destruct (Z.ltb_spec 49 pax); [lia | done]).
    all: try (destruct (Z.ltb_spec 60 pax); [lia | done]). }
  rewrite Hv, Hfresh. simpl. split; [done|]. apply lookup_insert_eq.
Qed.

Lemma createQuote_accepts_witness :
  let out := quoteHandlers.createQuote Sample.delivering
               (Fixtures.customer "") (Fixtures.order 49
                  (DateString Fixtures.early_today)) Sample.db in
  Fixtures.early_today < now Sample.delivering
  ∧ rcode (fst out) = 201
  ∧ ∃ q,
      quotes (snd out) !! newId Sample.delivering = Some q
      ∧ QuoteRequest.pickupLocation q = "Makati"
      ∧ QuoteRequest.dropoffLocation q = "Subic"
      ∧ QuoteRequest.status q = "pending".
Proof.
  intros out. split; [by vm_compute|].
  destruct (createQuote_accepts Sample.delivering (Fixtures.customer "")
              Sample.db "  Makati" "Subic " 1%Q "49-seater" 49
              (DateString Fixtures.early_today) Fixtures.early_today None)
    as [Hcode Hstored].
  - by vm_compute.
  - by vm_compute.
  - by vm_compute.
  - left. split; [reflexivity | lia].
  - reflexivity.
  - by vm_compute.
  - intros s [=].
  - vm_compute; reflexivity.
  - split; [exact Hcode|]. eexists. split; [exact Hstored|].
    repeat split.
Defined.

(** X6.  With no required field missing, a passenger count above the
    capacity the controller takes for the bus type (49 for a 49-seater, 60 for
    anything else) is answered 400 and nothing is stored; for a count that
    is a safe integer (up to [2^53]) the message carries both numbers in
    decimal digits. *)
Theorem createQuote_over_capacity env req body db pax :
  quoteHandlers.incomplete body = false →
  QuoteBody.numberOfPassengers body = Some pax →
  quoteHandlers.maxCapacity (QuoteBody.busType body) < pax →
  pax ≤ JS.maxSafe →
  quoteHandlers.createQuote env req body db
  = (refuse 400
       ("Number of passengers (" +:+ pretty pax
          +:+ ") exceeds bus capacity ("
          +:+ pretty (quoteHandlers.maxCapacity (QuoteBody.busType body))
          +:+ ")"), db).
Proof.
  intros Hinc Hpax Hcap _. rewrite createQuote_run, Hinc, Hpax. simpl.
  apply Z.ltb_lt in Hcap. by rewrite Hcap.
Qed.

Lemma createQuote_over_capacity_witness :
  quoteHandlers.createQuote Sample.delivering (Fixtures.customer "")
    (Fixtures.order 50 (DateString Fixtures.early_today)) Sample.db
  = (refuse 400 "Number of passengers (50) exceeds bus capacity (49)",
     Sample.db).
Proof.
  apply (createQuote_over_capacity Sample.delivering (Fixtures.customer "")
           (Fixtures.order 50 (DateString Fixtures.early_today)) Sample.db
           50).
  - reflexivity.
  - reflexivity.
  - simpl. lia.
  - by vm_compute.
Defined.

(** X7.  With no required field missing and the passengers within capacity,
    a departure date before today's local midnight (in a zone of constant
    offset: on an earlier local calendar day than today) is answered 400
    "Departure date must be today or in the future", and nothing is
    stored. *)
Theorem createQuote_past_departure env req body db d :
  quoteHandlers.incomplete body = false →
  JSOps.gt (QuoteBody.numberOfPassengers body)
    (quoteHandlers.maxCapacity (QuoteBody.busType body)) = false →
  QuoteBody.departureDate body = DateString d →
  d < JS.setHours0 (tz env) (now env)
  ∨ (∃ c, JS.constant (tz env) c ∧ JS.Day (d + c) < JS.Day (now env + c)) →
  quoteHandlers.createQuote env req body db
  = (refuse 400 "Departure date must be today or in the future", db).
Proof.
  intros Hinc Hcap Hd Hpast. rewrite createQuote_run, Hinc, Hcap, Hd. simpl.
  assert (Hlt : (d <? JS.setHours0 (tz env) (now env)) = true).
  { apply Z.ltb_lt. destruct Hpast as [H | (c & Hc & Hday)]; [exact H|].
    destruct (Z.lt_ge_cases d (JS.setHours0 (tz env) (now env))) as [H|H];
      [exact H|].
    apply (not_past_iff (tz env) c) in H; [lia | exact Hc]. }
  by rewrite Hlt.
Qed.

Lemma createQuote_past_departure_witness :
  quoteHandlers.createQuote Sample.delivering (Fixtures.customer "")
    (Fixtures.order 49 (DateString Fixtures.yesterday)) Sample.db
  = (refuse 400 "Departure date must be today or in the future", Sample.db).
Proof.
  apply (createQuote_past_departure Sample.delivering (Fixtures.customer "")
           (Fixtures.order 49 (DateString Fixtures.yesterday)) Sample.db
           Fixtures.yesterday).
  - reflexivity.
  - reflexivity.
  - reflexivity.
  - right. exists 28800000. split; [done | by vm_compute].
Defined.

Lemma validate_places tz now q :
  QuoteRequest.validate tz now q = true →
  QuoteRequest.pickupLocation q ≠ "" ∧ QuoteRequest.dropoffLocation q ≠ "".
Proof.
  unfold QuoteRequest.validate. rewrite !andb_true_iff.
  intros [[[[[[[[[[Hp Hd] _] _] _] _] _] _] _] _] _].
  split; by apply String.eqb_neq, negb_true_iff.
Qed.

Lemma validate_busType tz now q :
  QuoteRequest.validate tz now q = true →
  QuoteRequest.busType q = "49-seater" ∨ QuoteRequest.busType q = "60-seater".
Proof.
  unfold QuoteRequest.validate. rewrite !andb_true_iff.
  intros [[[[[[[[[[_ _] _] Hbus] _] _] _] _] _] _] _].
  unfold Schema.enum in Hbus. simpl in Hbus.
  rewrite !orb_true_iff in Hbus.
  destruct Hbus as [H | [H | H]]; [left | right | discriminate];
    by apply String.eqb_eq.
Qed.

(** X8.  What the controller does not check itself comes back as a server
    error: with no required field missing, the passengers not above capacity
    and the departure not refused as past, a pickup or drop-off of white
    space only, a number of days below 1, a negative passenger count, a bus
    type that is neither of the two, a departure string that is no date, or
    a departure given in digits (which [new Date] does not read, so the
    controller's own check lets it through) that lies before today's local
    midnight is answered 500 with the validation error, and nothing is
    stored. *)
Theorem createQuote_schema_rejections env req body db :
  quoteHandlers.incomplete body = false →
  JSOps.gt (QuoteBody.numberOfPassengers body)
    (quoteHandlers.maxCapacity (QuoteBody.busType body)) = false →
  JSOps.date_lt (new_Date (QuoteBody.departureDate body))
    (JS.setHours0 (tz env) (now env)) = false →
  (∃ s, (QuoteBody.pickupLocation body = Some s
         ∨ QuoteBody.dropoffLocation body = Some s)
        ∧ JS.blank s = true)
  ∨ (∃ days, QuoteBody.numberOfDays body = Some days ∧ (days < 1)%Q)
  ∨ (∃ pax, QuoteBody.numberOfPassengers body = Some pax ∧ pax < 0)
  ∨ (∃ bus, QuoteBody.busType body = Some bus
            ∧ bus ≠ "49-seater" ∧ bus ≠ "60-seater")
  ∨ QuoteBody.departureDate body = Unparseable
  ∨ (∃ t, QuoteBody.departureDate body = Milliseconds t
          ∧ t < JS.setHours0 (tz env) (now env)) →
  quoteHandlers.createQuote env req body db
  = (refuse_error (ValidationError "QuoteRequest")
       "Error creating quote request", db).
Proof.
  intros Hinc Hcap Hdate Hbad. rewrite createQuote_run, Hinc, Hcap, Hdate.
  destruct (cast_Date (QuoteBody.departureDate body)) as [d|] eqn:Hd;
    [|reflexivity].
  cbv zeta.
  assert (Hv : QuoteRequest.validate (tz env) (now env)
                 (QuoteCollection.cast (quoteHandlers.requested req body d))
               = false).
  { apply not_true_is_false. intros Hv. pose proof Hv as Hv'.
    destruct (validate_passengers _ _ _ Hv) as ([Hpax _] & Hdays & Hnot).
    apply validate_busType in Hv. simpl in Hpax, Hdays, Hv, Hnot.
    destruct Hbad as [(s & Hb & Hblank) | [(days & Hb & Hlt) | [(pax & Hb & ?)
      | [(bus & Hb & ? & ?) | [Hun | (t & Hms & ?)]]]]].
    - apply trim_blank_empty in Hblank.
      destruct (validate_places _ _ _ Hv') as [Hp Hdr]. simpl in Hp, Hdr.
      destruct Hb as [Hb | Hb]; rewrite Hb in *; simpl in *; congruence.
    - rewrite Hb in Hdays. simpl in Hdays.
      by apply (Qlt_not_le _ _ Hlt).
    - rewrite Hb in Hpax. simpl in Hpax. lia.
    - rewrite Hb in Hv. simpl in Hv. by destruct Hv.
    - rewrite Hun in Hd. discriminate.
    - rewrite Hms in Hd. injection Hd as ->. lia. }
  by rewrite Hv.
Qed.

Lemma createQuote_schema_rejections_witness :
  quoteHandlers.createQuote Sample.delivering (Fixtures.customer "")
    (Fixtures.order 49 (Milliseconds Fixtures.yesterday)) Sample.db
  = (refuse_error (ValidationError "QuoteRequest")
       "Error creating quote request", Sample.db).
Proof.
  apply (createQuote_schema_rejections Sample.delivering
           (Fixtures.customer "")
           (Fixtures.order 49 (Milliseconds Fixtures.yesterday))
           Sample.db).
  - reflexivity.
  - reflexivity.
  - reflexivity.
  - do 5 right. exists Fixtures.yesterday. split; [reflexivity|].
    by vm_compute.
Defined.

(** ** [getQuoteById], [updateQuote], [deleteQuote] *)

Lemma getQuoteById_run req role db :
  quoteHandlers.getQuoteById req role db =
    match quotes db !! id req with
    | None => (refuse 404 "Quote request not found", db)
    | Some quote =>
        match users db !! QuoteRequest.user quote with
        | None => (refuse 500 "Error fetching quote request", db)
        | Some _ =>
            if negb (String.eqb (QuoteRequest.user quote) (actor req))
               && negb (String.eqb role "admin")
            then (refuse 403 "Not authorized to access this quote request",
                  db)
            else ({| rcode := 200; rsuccess := true; rmessage := None;
                     rcount := None; rdata := Some quote |}, db)
        end
    end.
Proof.
  unfold quoteHandlers.getQuoteById, Quotes.findById, Users.populate. run.
  destruct (quotes db !! id req) as [q|]; [|reflexivity].
  destruct (users db !! QuoteRequest.user q); [|reflexivity]. run.
  destruct (negb _ && negb _); reflexivity.
Qed.

(** X9.  [getQuoteById] never writes, and it hands out a quote only to its
    owner or to an admin: the reply carries a quote exactly when the quote
    exists, its owner is on file, and the caller is that owner or has the
    role [admin]; the quote carried is the stored one. *)
Theorem getQuoteById_access req role db :
  let out := quoteHandlers.getQuoteById req role db in
  snd out = db
  ∧ ∀ q,
      rdata (fst out) = Some q
      ↔ quotes db !! id req = Some q
        ∧ is_Some (users db !! QuoteRequest.user q)
        ∧ (QuoteRequest.user q = actor req ∨ role = "admin").
Proof.
  intros out. subst out. rewrite getQuoteById_run.
  destruct (quotes db !! id req) as [quote|] eqn:Hq.
  2:{ split; [done|]. intros q. split; [intros [=] | by intros [[=] _]]. }
  destruct (users db !! QuoteRequest.user quote) as [u|] eqn:Hu.
  2:{ split; [done|]. intros q. split; [intros [=]|].
      intros ([= <-] & [? Hsome] & _). congruence. }
  destruct (String.eqb_spec (QuoteRequest.user quote) (actor req)) as [Ho|Ho];
    simpl.
  - split; [done|]. intros q. split.
    + intros [= <-]. rewrite Hu. eauto.
    + by intros ([= <-] & _).
  - destruct (String.eqb_spec role "admin") as [Ha|Ha]; simpl.
    + split; [done|]. intros q. split.
      * intros [= <-]. rewrite Hu. eauto.
      * by intros ([= <-] & _).
    + split; [done|]. intros q. split; [intros [=]|].
      intros ([= <-] & _ & [? | ?]); contradiction.
Qed.

Lemma updateQuote_run env req status price notes db :
  quoteHandlers.updateQuote env req status price notes db =
    match quotes db !! id req with
    | None => (refuse 404 "Quote request not found", db)
    | Some quote =>
        let quote' := quoteHandlers.edited status price notes quote in
        if QuoteRequest.validate (tz env) (now env) quote' then
          (accept 200 "Quote request updated successfully" quote',
           store_quote (id req) quote' db)
        else
          (refuse_error (ValidationError "QuoteRequest")
             "Error updating quote request", db)
    end.
Proof.
  unfold quoteHandlers.updateQuote, Quotes.findById, Quotes.save,
    Users.populate. run.
  destruct (quotes db !! id req) as [q|]; [|reflexivity]. simpl.
  destruct (QuoteRequest.validate _ _ _); reflexivity.
Qed.

(** X10.  [updateQuote] on a stored quote changes, of the paths of the quote
    schema, at most [status], [estimatedPrice] and [adminNotes], and writes
    no audit entry.  A falsy [status] is ignored, but whatever
    [estimatedPrice] or [adminNotes] the body carries is stored, a price of
    0 and empty notes included (the notes trimmed of white space).  When the
    result fails validation nothing is written.  (The timestamp
    [updatedAt], which [save] rewrites, is not a path of the schema and is
    outside the statement.) *)
Theorem updateQuote_effect env req status price notes db q :
  quotes db !! id req = Some q →
  let q' := quoteHandlers.edited status price notes q in
  let out := quoteHandlers.updateQuote env req status price notes db in
  (if QuoteRequest.validate (tz env) (now env) q'
   then out = (accept 200 "Quote request updated successfully" q',
               store_quote (id req) q' db)
   else out = (refuse_error (ValidationError "QuoteRequest")
                 "Error updating quote request", db))
  ∧ history (snd out) = history db
  ∧ bookings (snd out) = bookings db
  ∧ QuoteRequest.status q' =
      (if JS.truthy_str status then default (QuoteRequest.status q) status
       else QuoteRequest.status q)
  ∧ QuoteRequest.estimatedPrice q' =
      match price with
      | Some v => Some v
      | None => QuoteRequest.estimatedPrice q
      end
  ∧ QuoteRequest.adminNotes q' =
      match notes with
      | Some s => Some (JS.trim s)
      | None => QuoteRequest.adminNotes q
      end
  ∧ QuoteRequest.user q' = QuoteRequest.user q
  ∧ QuoteRequest.pickupLocation q' = QuoteRequest.pickupLocation q
  ∧ QuoteRequest.dropoffLocation q' = QuoteRequest.dropoffLocation q
  ∧ QuoteRequest.numberOfDays q' = QuoteRequest.numberOfDays q
  ∧ QuoteRequest.busType q' = QuoteRequest.busType q
  ∧ QuoteRequest.numberOfPassengers q' = QuoteRequest.numberOfPassengers q
  ∧ QuoteRequest.departureDate q' = QuoteRequest.departureDate q
  ∧ QuoteRequest.specialRequests q' = QuoteRequest.specialRequests q.
Proof.
  intros Hq q' out. subst out. rewrite updateQuote_run, Hq. simpl. fold q'.
  split; [by destruct (QuoteRequest.validate _ _ q')|].
  split; [by destruct (QuoteRequest.validate _ _ q')|].
  split; [by destruct (QuoteRequest.validate _ _ q')|].
  unfold q', quoteHandlers.edited, JS.truthy_str.
  repeat split; repeat case_match; simpl in *; congruence.
Qed.

Lemma updateQuote_effect_witness :
  let out := quoteHandlers.updateQuote Sample.delivering (Sample.req "q2")
               (Some "") (Some 0) (Some "") Sample.db in
  ∃ q',
    quotes (snd out) !! "q2" = Some q'
    ∧ QuoteRequest.status q' = "approved"
    ∧ QuoteRequest.estimatedPrice q' = Some 0
    ∧ QuoteRequest.adminNotes q' = Some ""
    ∧ history (snd out) = [].
Proof.
  intros out.
  destruct (updateQuote_effect Sample.delivering (Sample.req "q2") (Some "")
              (Some 0) (Some "") Sample.db
              (Sample.trip "approved" (Some 15000) (Some "AC included")))
    as (Hout & Hhist & _ & Hst & Hprice & Hnotes & _).
  - vm_compute; reflexivity.
  - change (QuoteRequest.validate _ _ _) with true in Hout. fold out in Hout.
    fold out in Hhist. eexists. rewrite Hout. simpl.
    split; [apply lookup_insert_eq|].
    split; [exact Hst|]. split; [exact Hprice|]. split; [exact Hnotes|].
    rewrite Hout in Hhist. exact Hhist.
Defined.

Lemma deleteQuote_run req db :
  quoteHandlers.deleteQuote req db =
    match quotes db !! id req with
    | None => (reply 404 false "Quote request not found", db)
    | Some _ =>
        (reply 200 true "Quote request deleted successfully",
         remove_quote (id req) db)
    end.
Proof.
  unfold quoteHandlers.deleteQuote, Quotes.findById, QuoteCollection.deleteOne.
  run. by destruct (quotes db !! id req).
Qed.

(** X11.  Deleting a quote removes that quote and nothing else: the audit
    entries and any booking that reference it stay, the other quotes stay,
    and from then on a booking can no longer be created from it (404). *)
Theorem deleteQuote_no_cascade req db q :
  quotes db !! id req = Some q →
  let out := quoteHandlers.deleteQuote req db in
  fst out = reply 200 true "Quote request deleted successfully"
  ∧ quotes (snd out) !! id req = None
  ∧ (∀ k, k ≠ id req → quotes (snd out) !! k = quotes db !! k)
  ∧ bookings (snd out) = bookings db
  ∧ history (snd out) = history db
  ∧ users (snd out) = users db
  ∧ ∀ env,
      bookingController.createBookingFromQuotation env (id req) (snd out)
      = (reply 404 false "Quote request not found", snd out).
Proof.
  intros Hq out. subst out. rewrite deleteQuote_run, Hq. simpl.
  split; [done|]. split; [apply lookup_delete_eq|].
  split; [intros k Hk; by apply lookup_delete_ne|].
  repeat split. intros env. rewrite createBookingFromQuotation_run. simpl.
  by rewrite lookup_delete_eq.
Qed.

Lemma deleteQuote_no_cascade_witness :
  let booked := snd (bookingController.createBookingFromQuotation
                       Sample.delivering "q2" Sample.db) in
  let out := quoteHandlers.deleteQuote (Sample.req "q2") booked in
  quotes (snd out) !! "q2" = None
  ∧ length (bookingsFor "q2" (snd out)) = 1%nat
  ∧ bookingController.createBookingFromQuotation Sample.delivering "q2"
      (snd out)
    = (reply 404 false "Quote request not found", snd out).
Proof.
  intros booked out.
  destruct (deleteQuote_no_cascade (Sample.req "q2") booked
              (Sample.trip "approved" (Some 15000) (Some "AC included")))
    as (_ & Hgone & _ & Hb & _ & _ & Hcreate).
  - vm_compute; reflexivity.
  - fold out in Hgone, Hb, Hcreate. split; [exact Hgone|]. split.
    + unfold bookingsFor. rewrite Hb. reflexivity.
    + apply Hcreate.
Defined.

(** ** The quote calendar and the booking list *)

Lemma quote_departs_le_transitive : Transitive quote_departs_le.
Proof. intros a b c. unfold quote_departs_le. lia. Qed.

Lemma quote_departs_le_total : Total quote_departs_le.
Proof. intros a b. unfold quote_departs_le. lia. Qed.

Lemma quote_toEvent_run db entry u :
  users db !! QuoteRequest.user entry.2 = Some u →
  ∃ ev, quoteHandlers.toEvent entry db = (inr ev, db) ∧ quote_event_of entry ev.
Proof.
  intros Hu. unfold quoteHandlers.toEvent, Users.populate. run.
  rewrite Hu. eexists. split; [reflexivity|]. destruct entry. repeat split.
Qed.

Lemma quote_mapM_toEvent db l :
  Forall (λ entry, is_Some (users db !! QuoteRequest.user entry.2)) l →
  ∃ events,
    mapM quoteHandlers.toEvent l db = (inr events, db)
    ∧ Forall2 quote_event_of l events.
Proof.
  induction 1 as [|entry l [u Hu] _ (events & Hrun & Hall)].
  - exists []. split; [reflexivity | constructor].
  - destruct (quote_toEvent_run db entry u Hu) as (ev & Hev & Hof).
    exists (ev :: events). rewrite mapM_cons, Hev, Hrun.
    split; [reflexivity|]. by constructor.
Qed.

Lemma filter_keeps_NoDup_fmap {A B} (f : A → B) (P : A → Prop)
    `{∀ x, Decision (P x)} (l : list A) :
  NoDup (f <$> l) → NoDup (f <$> filter P l).
Proof.
  induction l as [|x l IH]; [done|]. csimpl. intros Hnd.
  apply NoDup_cons in Hnd as [Hx Hnd]. rewrite filter_cons.
  destruct (decide (P x)); [|auto]. csimpl. apply NoDup_cons. split; [|auto].
  intros Hin. apply Hx. apply list_elem_of_fmap in Hin as (y & -> & Hy).
  apply list_elem_of_filter in Hy as [_ Hy]. by apply list_elem_of_fmap_2.
Qed.

(** X12.  The quote calendar needs no bounds.  With the customers of all
    quotes on file and each bound either missing or a date (as [new Date]
    reads it: not a string of digits only), it answers 200
    with one event per stored quote, only those departing within the bounds
    when both bounds are given and all of them otherwise (a single bound is
    ignored), in ascending order of departure, each starting and ending at the
    quote's departure date; the database is not written. *)
Theorem getQuoteCalendarEvents_listing from_ to_ db :
  map_Forall (λ _ q, is_Some (users db !! QuoteRequest.user q)) (quotes db) →
  readable from_ →
  readable to_ →
  ∃ events,
    quoteHandlers.getQuoteCalendarEvents from_ to_ db = (listing events, db)
    ∧ NoDup (qe_id <$> events)
    ∧ StronglySorted (λ a b, qe_start a ≤ qe_start b) events
    ∧ Forall (λ ev, qe_start ev = QuoteRequest.departureDate (qe_quote ev)
                    ∧ qe_end ev = qe_start ev) events
    ∧ ∀ k q,
        (k, q) ∈ listed <$> events
        ↔ quotes db !! k = Some q
          ∧ ∀ s e, from_ = DateString s → to_ = DateString e →
                   s ≤ QuoteRequest.departureDate q ≤ e.
Proof.
  intros Husers Hfrom Hto.
  assert (Hfilter : ∃ wanted,
    quoteHandlers.rangeFilter from_ to_ = Some wanted
    ∧ ∀ entry, wanted entry
        ↔ ∀ s e, from_ = DateString s → to_ = DateString e →
                 s ≤ QuoteRequest.departureDate entry.2 ≤ e).
  { unfold quoteHandlers.rangeFilter.
    destruct from_ as [| |ms|s];
      [|by destruct Hfrom|by destruct Hfrom as [_ H]; destruct (H ms)|]; simpl.
    - eexists. split; [reflexivity|]. intros entry. split; [|done].
      intros _ ?? [=].
    - destruct to_ as [| |ms|e];
        [|by destruct Hto|by destruct Hto as [_ H]; destruct (H ms)|]; simpl.
      + eexists. split; [reflexivity|]. intros entry. split; [|done].
        intros _ ?? _ [=].
      + eexists. split; [reflexivity|]. intros entry. simpl.
        rewrite andb_True, !Is_true_true, !Z.leb_le. split.
        * intros ? ?? [= <-] [= <-]. lia.
        * intros H. specialize (H s e eq_refl eq_refl). lia. }
  destruct Hfilter as (wanted & Hrange & Hwanted).
  set (entries := merge_sort quote_departs_le
                    (filter wanted (map_to_list (quotes db)))).
  assert (Hperm : entries ≡ₚ filter wanted (map_to_list (quotes db)))
    by apply merge_sort_Permutation.
  assert (Hknown :
    Forall (λ entry, is_Some (users db !! QuoteRequest.user entry.2)) entries).
  { rewrite Hperm. apply Forall_forall. intros [k q] Hin.
    apply list_elem_of_filter in Hin as [_ Hin].
    apply elem_of_map_to_list in Hin. by apply (Husers k q). }
  destruct (quote_mapM_toEvent db entries Hknown) as (events & Hrun & Hall).
  exists events.
  assert (Hlisted : listed <$> events = entries).
  { clear -Hall. induction Hall as [|entry ev l evs (Hl & _) _ IH];
      [done|]. csimpl. by f_equal. }
  split.
  { unfold quoteHandlers.getQuoteCalendarEvents. rewrite Hrange. run.
    fold entries. by rewrite Hrun. }
  split.
  { replace (qe_id <$> events) with (entries.*1).
    - rewrite Hperm. apply filter_keeps_NoDup_fmap, NoDup_fst_map_to_list.
    - rewrite <- Hlisted, <- list_fmap_compose. done. }
  split.
  { assert (Hsorted : StronglySorted quote_departs_le entries).
    { apply @StronglySorted_merge_sort;
        [apply quote_departs_le_transitive | apply quote_departs_le_total]. }
    clear -Hall Hsorted. revert Hsorted.
    induction Hall as [|entry ev l evs Hev Hall IH]; intros Hsorted;
      [constructor|].
    apply StronglySorted_inv in Hsorted as [Hsorted Hhead].
    constructor; [auto|]. clear IH Hsorted.
    destruct Hev as (_ & Hstart & _).
    induction Hall as [|entry2 ev2 l evs (_ & Hstart2 & _) Hall IH];
      [constructor|].
    apply Forall_cons in Hhead as [Hle Hhead]. constructor; [|auto].
    unfold quote_departs_le in Hle. by rewrite Hstart, Hstart2. }
  split.
  { clear -Hall.
    induction Hall as [|[k q] ev l evs (Hl & Hs & He) _ IH]; constructor;
      [|exact IH].
    unfold listed in Hl. injection Hl as _ ->. simpl in *. split; congruence. }
  intros k q. rewrite Hlisted, Hperm, list_elem_of_filter, Hwanted.
  rewrite elem_of_map_to_list. simpl. tauto.
Qed.

Lemma getQuoteCalendarEvents_listing_witness :
  ∃ events,
    quoteHandlers.getQuoteCalendarEvents (DateString 1767139200000) Missing
      Sample.db = (listing events, Sample.db)
    ∧ length events = 3%nat.
Proof.
  destruct (getQuoteCalendarEvents_listing (DateString 1767139200000) Missing
              Sample.db) as (events & Hout & _).
  - apply map_Forall_to_list. vm_compute. repeat constructor; eauto.
  - by split.
  - by split.
  - exists events. split; [exact Hout|].
    assert (Hrun :
      fst (quoteHandlers.getQuoteCalendarEvents (DateString 1767139200000)
             Missing Sample.db)
      = fst (quoteHandlers.getQuoteCalendarEvents (DateString 1767139200000)
               Missing Sample.db)) by reflexivity.
    rewrite Hout in Hrun at 1. vm_compute in Hrun.
    by injection Hrun.
Defined.

Lemma on_path_allows param value :
  bookingHandlers.on_path param value = true ↔ allows param value.
Proof.
  unfold bookingHandlers.on_path, allows.
  destruct (JS.truthy_str param); [|by split].
  rewrite bool_decide_eq_true. split; [by intros ? _ | by intros H; apply H].
Qed.

(** X13.  [getAllBookings], with each date bound either missing or a date
    (as [new Date] reads it: not a string of digits only), answers 200 with
    stored bookings only, none more often than it is stored,
    in ascending order of departure.  A booking is listed exactly when it
    agrees with every query parameter that is given and non-empty and, when
    both date bounds are given, departs within them; a single date bound is
    ignored.  The database is not written. *)
Theorem getAllBookings_listing status paymentStatus bookingType startDate
    endDate db :
  readable startDate →
  readable endDate →
  ∃ l,
    bookingHandlers.getAllBookings status paymentStatus bookingType startDate
      endDate db = (listing l, db)
    ∧ StronglySorted departs_le l
    ∧ l ⊆+ bookings db
    ∧ ∀ b,
        b ∈ l
        ↔ b ∈ bookings db
          ∧ allows status (Booking.status b)
          ∧ allows paymentStatus (Booking.paymentStatus b)
          ∧ allows bookingType (Booking.bookingType b)
          ∧ ∀ s e, startDate = DateString s → endDate = DateString e →
                   ∃ d, Booking.departureDate b = Some d ∧ s ≤ d ≤ e.
Proof.
  intros Hstart Hend.
  assert (Hfilter : ∃ range,
    bookingHandlers.rangeFilter startDate endDate = Some range
    ∧ ∀ b, range b
        ↔ ∀ s e, startDate = DateString s → endDate = DateString e →
                 ∃ d, Booking.departureDate b = Some d ∧ s ≤ d ≤ e).
  { unfold bookingHandlers.rangeFilter.
    destruct startDate as [| |ms|s];
      [|by destruct Hstart|by destruct Hstart as [_ H]; destruct (H ms)|]; simpl.
    - eexists. split; [reflexivity|]. intros b. split; [|done].
      intros _ ?? [=].
    - destruct endDate as [| |ms|e];
        [|by destruct Hend|by destruct Hend as [_ H]; destruct (H ms)|]; simpl.
      + eexists. split; [reflexivity|]. intros b. split; [|done].
        intros _ ?? _ [=].
      + eexists. split; [reflexivity|]. intros b. split.
        * intros H ?? [= <-] [= <-]. by apply in_range_inv.
        * intros H. destruct (H s e eq_refl eq_refl) as (d & Hd & Hr).
          unfold Bookings.in_range. rewrite Hd.
          apply Is_true_true, andb_true_iff. split; apply Z.leb_le; lia. }
  destruct Hfilter as (range & Hrange & Hin_range).
  set (wanted := bookingHandlers.matches status paymentStatus bookingType
                   range).
  exists (merge_sort departs_le (filter wanted (bookings db))).
  assert (Hperm : merge_sort departs_le (filter wanted (bookings db))
                  ≡ₚ filter wanted (bookings db))
    by apply merge_sort_Permutation.
  split.
  { unfold bookingHandlers.getAllBookings. by rewrite Hrange. }
  split.
  { apply @StronglySorted_merge_sort;
      [apply departs_le_transitive | apply departs_le_total]. }
  split.
  { rewrite Hperm. apply sublist_submseteq, sublist_filter. }
  intros b. rewrite Hperm, list_elem_of_filter.
  assert (Hw : wanted b
    ↔ allows status (Booking.status b)
      ∧ allows paymentStatus (Booking.paymentStatus b)
      ∧ allows bookingType (Booking.bookingType b)
      ∧ range b).
  { unfold wanted, bookingHandlers.matches. rewrite !andb_True.
    rewrite <- !on_path_allows, <- !Is_true_true. tauto. }
  rewrite Hw, Hin_range. tauto.
Qed.

Lemma getAllBookings_listing_witness :
  ∃ l,
    bookingHandlers.getAllBookings (Some "confirmed") (Some "") None Missing
      (DateString 0) Sample.db = (listing l, Sample.db)
    ∧ Booking._id <$> l = ["b8"; "b7"].
Proof.
  destruct (getAllBookings_listing (Some "confirmed") (Some "") None Missing
              (DateString 0) Sample.db) as (l & Hout & _);
    [by split | by split |].
  exists l. split; [exact Hout|].
  assert (Hrun :
    fst (bookingHandlers.getAllBookings (Some "confirmed") (Some "") None
           Missing (DateString 0) Sample.db)
    = fst (bookingHandlers.getAllBookings (Some "confirmed") (Some "") None
             Missing (DateString 0) Sample.db)) by reflexivity.
  rewrite Hout in Hrun at 1. vm_compute in Hrun.
  injection Hrun as _ ->. reflexivity.
Defined.

(** ** Reading, paying for and deleting a booking *)

Lemma getBookingById_run req db :
  bookingHandlers.getBookingById req db =
    match find (Bookings.has_id (id req)) (bookings db) with
    | None => (reply 404 false "Booking not found", db)
    | Some booking =>
        ({| code := 200; success := true; message := None; count := None;
            data := Some (BookingData booking); warning := None;
            error := None |}, db)
    end.
Proof.
  unfold bookingHandlers.getBookingById, Bookings.findById. run.
  by destruct (find _ _).
Qed.

Lemma find_has_id_last bid l b :
  existsb (Bookings.has_id bid) l = false →
  Booking._id b = bid →
  find (Bookings.has_id bid) (l ++ [b]) = Some b.
Proof.
  intros Hnone Hb. induction l as [|x l IH]; simpl in *.
  - apply has_id_eq in Hb. by rewrite Hb.
  - apply orb_false_iff in Hnone as [-> Hnone]. auto.
Qed.

(** X14.  A booking that [createBookingFromQuotation] reports as created can
    be read back: [getBookingById] with the new [_id] answers 200 with the
    very booking of the 201 reply, which references the quote. *)
Theorem created_booking_is_readable env qid db :
  let out := bookingController.createBookingFromQuotation env qid db in
  code (fst out) = 201 →
  ∃ b,
    data (fst out) = Some (BookingData b)
    ∧ Booking._id b = newId env
    ∧ Booking.quoteRequest b = qid
    ∧ ∀ req,
        id req = newId env →
        bookingHandlers.getBookingById req (snd out)
        = ({| code := 200; success := true; message := None; count := None;
              data := Some (BookingData b); warning := None;
              error := None |}, snd out).
Proof.
  intros out. subst out. rewrite createBookingFromQuotation_run.
  destruct (quotes db !! qid) as [quote|]; [|discriminate].
  destruct (negb _); [discriminate|].
  destruct (find _ _); [discriminate|].
  destruct (users db !! _); [|discriminate].
  rewrite create_run. simpl.
  destruct (Booking.validate _); [|discriminate].
  destruct (existsb _ _) eqn:Hfresh; [discriminate|]. simpl. intros _.
  rewrite preSave_id in Hfresh. simpl in Hfresh.
  eexists. split; [reflexivity|]. rewrite preSave_id, preSave_quoteRequest.
  split; [reflexivity|]. split; [reflexivity|].
  intros req Hreq. rewrite getBookingById_run, Hreq. simpl.
  rewrite find_has_id_last; [reflexivity | exact Hfresh|].
  by rewrite preSave_id.
Qed.

Lemma created_booking_is_readable_witness :
  let out := bookingController.createBookingFromQuotation Sample.delivering
               "q2" Sample.db in
  ∃ b,
    data (fst out) = Some (BookingData b)
    ∧ Booking._id b = "b10"
    ∧ code (fst (bookingHandlers.getBookingById (Sample.req "b10") (snd out)))
      = 200.
Proof.
  intros out.
  destruct (created_booking_is_readable Sample.delivering "q2" Sample.db)
    as (b & Hdata & Hid & _ & Hread); [vm_compute; reflexivity|].
  exists b. split; [exact Hdata|]. split; [exact Hid|].
  fold out in Hread. by rewrite (Hread (Sample.req "b10") eq_refl).
Defined.

(** ** What a created booking holds *)

Lemma nearest_even_nonneg q : (0 <= q)%Q → 0 ≤ JS.nearest_even q.
Proof.
  intros H. unfold JS.nearest_even.
  pose proof (Qfloor_resp_le 0 q H) as Hf. change (Qfloor 0) with 0 in Hf.
  destruct (_ ?= _)%Q; [destruct (Z.even _)|..]; lia.
Qed.

(** Rounding to a double keeps the sign. *)
Lemma toDouble_nonneg q : (0 <= q)%Q → (0 <= JS.toDouble q)%Q.
Proof.
  intros H. unfold JS.toDouble.
  assert (Hr : (0 <= Qred q)%Q) by (by rewrite Qred_correct).
  destruct (_ && _); [exact Hr|]. rewrite Qred_correct.
  set (e := Z.max _ _).
  assert (Hp : (0 < Qpower 2 e)%Q) by (by apply Qpower_0_lt).
  apply Qmult_le_0_compat; [|by apply Qlt_le_weak].
  change 0%Q with (inject_Z 0). rewrite <- Zle_Qle.
  apply nearest_even_nonneg, Qle_shift_div_l; [exact Hp|].
  by rewrite Qmult_0_l.
Qed.

Lemma validate_price_special tz now q :
  QuoteRequest.validate tz now q = true →
  (∀ p, QuoteRequest.estimatedPrice q = Some p → 0 ≤ p)
  ∧ (∀ s, QuoteRequest.specialRequests q = Some s →
          (JS.length s ≤ 500)%nat).
Proof.
  unfold QuoteRequest.validate. rewrite !andb_true_iff.
  intros [[[[[[[[[[_ _] _] _] _] _] _] _] Hs] _] Hp]. split.
  - intros p Hq. rewrite Hq in Hp. by apply Z.leb_le in Hp.
  - intros s Hq. rewrite Hq in Hs. by apply Nat.leb_le in Hs.
Qed.

Lemma validate_fromQuotation env tz0 now0 qid q p :
  QuoteRequest.validate tz0 now0 q = true →
  QuoteRequest.estimatedPrice q = Some p →
  JS.trim (QuoteRequest.pickupLocation q) ≠ "" →
  JS.trim (QuoteRequest.dropoffLocation q) ≠ "" →
  Booking.validate (Bookings.cast (bookingController.fromQuotation env qid q))
  = true.
Proof.
  intros Hv Hprice Hpick Hdrop.
  destruct (validate_passengers _ _ _ Hv) as ([Hpax _] & Hdays & _).
  destruct (validate_price_special _ _ _ Hv) as (Hp & Hs).
  specialize (Hp p Hprice). apply validate_busType in Hv.
  assert (Hbus : Schema.enum ["49-seater"; "60-seater"]
                   (QuoteRequest.busType q) = true).
  { unfold Schema.enum. destruct Hv as [-> | ->]; reflexivity. }
  assert (Hspecial : Schema.opt (Schema.maxlength 1000)
                       (JS.trim <$> QuoteRequest.specialRequests q) = true).
  { destruct (QuoteRequest.specialRequests q) as [s|] eqn:Hq; [|done].
    simpl. apply Nat.leb_le. pose proof (trim_length s).
    specialize (Hs s eq_refl). lia. }
  assert (Htotal : Schema.req (Schema.min_frac 0)
                     (JS.mul (Some p) (QuoteRequest.numberOfDays q)) = true).
  { cbn [JS.mul Schema.req]. apply Qle_bool_iff, toDouble_nonneg.
    apply Qmult_le_0_compat.
    - change 0%Q with (inject_Z 0). by rewrite <- Zle_Qle.
    - eapply Qle_trans; [|exact Hdays]. done. }
  unfold Booking.validate. rewrite !andb_true_iff.
  repeat split;
    first [ exact Hbus | exact Hspecial
          | by apply negb_true_iff, String.eqb_neq
          | reflexivity
          | cbn [Bookings.cast bookingController.fromQuotation
                 Booking.totalPrice]; rewrite Hprice; exact Htotal
          | cbn [Bookings.cast bookingController.fromQuotation
                 Booking.numberOfDays Schema.req];
            by apply Qle_bool_iff
          | cbn; rewrite ?Hprice; cbn; apply Z.leb_le; lia ].
Qed.

Lemma bookingsFor_none qid db :
  bookingsFor qid db = [] →
  find (Bookings.references qid) (bookings db) = None.
Proof.
  unfold bookingsFor. induction (bookings db) as [|x l IH]; [done|].
  rewrite filter_cons. simpl.
  destruct (decide (Booking.quoteRequest x = qid)) as [Hx|Hx]; [done|].
  apply String.eqb_neq in Hx. unfold Bookings.references at 1.
  rewrite Hx. exact IH.
Qed.

Lemma fresh_id bid l :
  Forall (λ b, Booking._id b ≠ bid) l →
  existsb (Bookings.has_id bid) l = false.
Proof.
  induction 1 as [|x l Hx _ IH]; [done|]. simpl.
  apply String.eqb_neq in Hx. unfold Bookings.has_id at 1. by rewrite Hx.
Qed.

(** X15.  From a stored quote that passes the schema, is [approved], has a
    price, whose customer is on file and which has no booking yet,
    [createBookingFromQuotation] (given an unused [_id], and pickup and
    drop-off that are not blank) always creates the booking: it answers 201
    and appends one booking that references the quote and its customer,
    copies the trip (the places trimmed), takes the price as price per day,
    and is [confirmed] with payment [pending] and type [confirmed].  For a
    whole number [k] of days, the total is the price times [k] as long as
    that product is a safe integer (up to [2^53]; a larger one is rounded to
    a double), and the return date is the instant whose local time is the
    local time of the departure plus [k] days: the departure plus [k] times
    24 hours when the zone's offset is then the one it had at the
    departure. *)
Theorem createBookingFromQuotation_copies env tz0 now0 qid db q p u :
  quotes db !! qid = Some q →
  QuoteRequest.status q = "approved" →
  QuoteRequest.estimatedPrice q = Some p →
  QuoteRequest.validate tz0 now0 q = true →
  JS.trim (QuoteRequest.pickupLocation q) ≠ "" →
  JS.trim (QuoteRequest.dropoffLocation q) ≠ "" →
  users db !! QuoteRequest.user q = Some u →
  bookingsFor qid db = [] →
  Forall (λ b, Booking._id b ≠ newId env) (bookings db) →
  ∃ b,
    bookingController.createBookingFromQuotation env qid db
    = (reply_data 201 true "Booking created successfully" (BookingData b),
       store_bookings (bookings db ++ [b]) db)
    ∧ Booking._id b = newId env
    ∧ Booking.quoteRequest b = qid
    ∧ Booking.user b = QuoteRequest.user q
    ∧ Booking.pickupLocation b = JS.trim (QuoteRequest.pickupLocation q)
    ∧ Booking.dropoffLocation b = JS.trim (QuoteRequest.dropoffLocation q)
    ∧ Booking.departureDate b = Some (QuoteRequest.departureDate q)
    ∧ Booking.numberOfDays b = Some (QuoteRequest.numberOfDays q)
    ∧ Booking.busType b = QuoteRequest.busType q
    ∧ Booking.numberOfPassengers b = QuoteRequest.numberOfPassengers q
    ∧ Booking.pricePerDay b = Some p
    ∧ Booking.status b = "confirmed"
    ∧ Booking.paymentStatus b = "pending"
    ∧ Booking.bookingType b = "confirmed"
    ∧ ∀ k,
        (QuoteRequest.numberOfDays q == inject_Z k)%Q →
        k ≤ 2 ^ 52 →
        let l := JS.LocalTime (tz env) (QuoteRequest.departureDate q)
                 + k * JS.msPerDay in
        Z.abs (JS.UTC (tz env) l) ≤ JS.maxTime →
        (p * k ≤ JS.maxSafe → Booking.totalPrice b = Some (inject_Z (p * k)))
        ∧ Booking.returnDate b = Some (JS.UTC (tz env) l)
        ∧ (JS.offset_at (tz env) l
           = JS.offset (tz env) (QuoteRequest.departureDate q) →
           Booking.returnDate b
           = Some (QuoteRequest.departureDate q + k * JS.msPerDay)).
Proof.
  intros Hq Hst Hprice Hv Hpick Hdrop Hu Hnone Hfresh.
  pose proof (validate_fromQuotation env tz0 now0 qid q p Hv Hprice Hpick
                Hdrop) as Hvb.
  destruct (validate_passengers _ _ _ Hv) as (_ & Hdays & _).
  destruct (validate_price_special _ _ _ Hv) as (Hp & _).
  specialize (Hp p Hprice).
  set (doc := Bookings.cast (bookingController.fromQuotation env qid q)).
  assert (Hret : Booking.returnDate (Booking.preSave (tz env) doc)
                 = Some (JS.addDays (tz env) (QuoteRequest.departureDate q)
                           (QuoteRequest.numberOfDays q))).
  { by apply preSave_computed. }
  exists (Booking.preSave (tz env) doc).
  split.
  { rewrite createBookingFromQuotation_run, Hq, Hst, String.eqb_refl.
    cbn [negb]. rewrite (bookingsFor_none _ _ Hnone), Hu, create_run.
    cbv zeta. rewrite Hvb, preSave_id.
    change (Booking._id (Bookings.cast
              (bookingController.fromQuotation env qid q)))
      with (newId env).
    by rewrite (fresh_id _ _ Hfresh). }
  split; [by rewrite preSave_id|].
  split; [by rewrite preSave_quoteRequest|].
  destruct (preSave_same_other_paths (tz env) doc)
    as (_ & _ & <- & <- & <- & <- & <- & <- & <- & <- & <- & <- & <- & _).
  rewrite preSave_status, Hret.
  cbn [doc Bookings.cast bookingController.fromQuotation Booking.user
       Booking.pickupLocation Booking.dropoffLocation Booking.departureDate
       Booking.numberOfDays Booking.busType Booking.numberOfPassengers
       Booking.pricePerDay Booking.status Booking.paymentStatus
       Booking.bookingType Booking.totalPrice].
  rewrite Hprice. do 11 (split; [reflexivity|]).
  intros k Hk Hbig Hrange.
  set (l := JS.LocalTime (tz env) (QuoteRequest.departureDate q)
            + k * JS.msPerDay) in *.
  pose proof (whole_days _ k Hk Hdays) as Hk1.
  assert (Hadd : JS.addDays (tz env) (QuoteRequest.departureDate q)
                   (QuoteRequest.numberOfDays q) = JS.UTC (tz env) l).
  { apply addDays_whole; [exact Hk | lia]. }
  rewrite Hadd. split; [|split; [reflexivity|]].
  - intros Hsafe. cbn [JS.mul]. f_equal. apply toDouble_whole.
    + by rewrite Hk, inject_Z_mult.
    + rewrite Z.abs_eq by nia. exact Hsafe.
  - intros Hoff. f_equal. unfold JS.UTC, l, JS.LocalTime in *. lia.
Qed.

Lemma createBookingFromQuotation_copies_witness :
  ∃ b,
    fst (bookingController.createBookingFromQuotation Sample.delivering "q2"
           Sample.db)
    = reply_data 201 true "Booking created successfully" (BookingData b)
    ∧ Booking.totalPrice b = Some (inject_Z (15000 * 3))
    ∧ Booking.returnDate b = Some (1765324800000 + 3 * 86400000).
Proof.
  destruct (createBookingFromQuotation_copies Sample.delivering
              (tz Sample.delivering) (now Sample.delivering) "q2" Sample.db
              (Sample.trip "approved" (Some 15000) (Some "AC included"))
              15000 Sample.alice)
    as (b & Hout & H).
  - vm_compute; reflexivity.
  - reflexivity.
  - reflexivity.
  - vm_compute; reflexivity.
  - by vm_compute.
  - by vm_compute.
  - vm_compute; reflexivity.
  - reflexivity.
  - repeat constructor; by vm_compute.
  - exists b. rewrite Hout. simpl. split; [reflexivity|].
    destruct H as (_ & _ & _ & _ & _ & _ & _ & _ & _ & _ & _ & _ & _ & H).
    assert (Hk : 3 ≤ 2 ^ 52) by lia.
    destruct (H 3 eq_refl Hk) as (Htotal & _ & Hret);
      [vm_compute; discriminate|].
    split; [apply Htotal; vm_compute; discriminate | by apply Hret].
Defined.

(** ** [markAsPaid] and [deleteBooking] *)

Lemma markAsPaid_run env req method invoice date db :
  bookingHandlers.markAsPaid env req method invoice date db =
    match find (Bookings.has_id (id req)) (bookings db) with
    | None => (reply 404 false "Booking not found", db)
    | Some booking =>
        match date with
        | Unparseable =>
            (reply_error (ValidationError "Booking")
               "Error updating payment status", db)
        | _ =>
            match Bookings.save env false
                    (paid (default (now env) (cast_Date date)) method invoice
                       booking) db with
            | (inl e, db') =>
                (reply_error e "Error updating payment status", db')
            | (inr saved, db') =>
                (reply_data 200 true "Booking marked as paid"
                   (BookingData saved), db')
            end
        end
    end.
Proof.
  unfold bookingHandlers.markAsPaid, Bookings.findById. run.
  destruct (find _ _) as [b|]; [|reflexivity].
  destruct date; run; try reflexivity.
  all: destruct (Bookings.save _ _ _ _) as [[e|saved] db']; reflexivity.
Qed.

Lemma enum_In values s : Schema.enum values s = true ↔ In s values.
Proof.
  unfold Schema.enum. rewrite existsb_exists. split.
  - intros (x & Hx & Heq). apply String.eqb_eq in Heq. by subst.
  - intros Hin. exists s. split; [done | apply String.eqb_refl].
Qed.

Lemma validate_paid d method invoice b :
  Booking.validate b = true →
  Booking.validate (paid d method invoice b)
  = Schema.opt
      (Schema.enum ["cash"; "bank-transfer"; "credit-card"; "gcash"; "paymaya"])
      (JS.trim <$> method).
Proof.
  intros Hv.
  destruct (Schema.opt _ (JS.trim <$> method)) eqn:Hm.
  - unfold Booking.validate in *. rewrite !andb_true_iff in *.
    destruct Hv as [[[[[[[[[[[[? ?] ?] ?] ?] ?] ?] ?] ?] ?] ?] ?] ?].
    repeat split; first [assumption | reflexivity].
  - apply not_true_is_false. intros Hp. unfold Booking.validate in Hp.
    rewrite !andb_true_iff in Hp.
    destruct Hp as [[_ Hp] _]. change (Schema.opt
      (Schema.enum ["cash"; "bank-transfer"; "credit-card"; "gcash"; "paymaya"])
      (JS.trim <$> method) = true) in Hp. congruence.
Qed.

(** X16.  [markAsPaid] on a stored, valid booking, with a payment date that
    is missing or one the Date path casts (a date string, or digits read as
    milliseconds).  When the payment method is absent or, trimmed, one
    of the five known methods, the call answers 200 and stores payment status
    and booking type [paid], the given date (the current time when missing),
    and the method and invoice number of this call, absent ones included, so
    values recorded earlier are replaced; the booking's [status] is neither
    checked nor changed (a cancelled booking can be marked paid) and its
    price and cancellation record stay.  With any other method the call
    answers 500 and writes nothing. *)
Theorem markAsPaid_effect env req method invoice date db b :
  find (Bookings.has_id (id req)) (bookings db) = Some b →
  Booking.validate b = true →
  date ≠ Unparseable →
  let known := ["cash"; "bank-transfer"; "credit-card"; "gcash"; "paymaya"] in
  let out := bookingHandlers.markAsPaid env req method invoice date db in
  ((∀ m, method = Some m → In (JS.trim m) known) →
   ∃ b',
     fst out = reply_data 200 true "Booking marked as paid" (BookingData b')
     ∧ find (Bookings.has_id (id req)) (bookings (snd out)) = Some b'
     ∧ Booking.paymentStatus b' = "paid"
     ∧ Booking.bookingType b' = "paid"
     ∧ Booking.paymentDate b' = Some (default (now env) (cast_Date date))
     ∧ Booking.paymentMethod b' = JS.trim <$> method
     ∧ Booking.invoiceNumber b' = JS.trim <$> invoice
     ∧ Booking.status b' = Booking.status b
     ∧ Booking.totalPrice b' = Booking.totalPrice b
     ∧ Booking.cancellationReason b' = Booking.cancellationReason b
     ∧ Booking.cancelledAt b' = Booking.cancelledAt b
     ∧ Booking.cancelledBy b' = Booking.cancelledBy b)
  ∧ ((∃ m, method = Some m ∧ ¬ In (JS.trim m) known) →
     out = (reply_error (ValidationError "Booking")
              "Error updating payment status", db)).
Proof.
  intros Hfind Hv Hdate known out. subst known out.
  rewrite markAsPaid_run, Hfind, save_run, (validate_paid _ _ _ _ Hv).
  set (doc := paid (default (now env) (cast_Date date)) method invoice b).
  split.
  - intros Hknown.
    assert (Hm : Schema.opt
                   (Schema.enum
                      ["cash"; "bank-transfer"; "credit-card"; "gcash"; "paymaya"])
                   (JS.trim <$> method) = true).
    { destruct method as [m|]; [|done].
      change (Schema.enum
                ["cash"; "bank-transfer"; "credit-card"; "gcash"; "paymaya"]
                (JS.trim m) = true).
      apply enum_In. by apply Hknown. }
    exists (Booking.preSave (tz env) doc).
    assert (Hid : Booking._id (Booking.preSave (tz env) doc) = id req).
    { rewrite preSave_id. simpl. by apply find_has_id in Hfind. }
    destruct date; [|done|..]; rewrite Hm; simpl.
    all: split; [reflexivity|].
    all: rewrite Hid; split; [by apply find_replaced with b|].
    all: destruct (preSave_same_other_paths (tz env) doc)
           as (_ & _ & _ & _ & _ & _ & _ & _ & _ & <- & _ & <- & <- & <- & <-
               & <- & _ & <- & <- & <-).
    all: rewrite preSave_status; repeat split.
  - intros (m & -> & Hbad).
    assert (Hm : Schema.opt
                   (Schema.enum
                      ["cash"; "bank-transfer"; "credit-card"; "gcash"; "paymaya"])
                   (JS.trim <$> Some m) = false).
    { change (Schema.enum
                ["cash"; "bank-transfer"; "credit-card"; "gcash"; "paymaya"]
                (JS.trim m) = false).
      apply not_true_is_false. intros H. by apply enum_In in H. }
    destruct date; [|done|..]; by rewrite Hm.
Qed.

Lemma markAsPaid_effect_witness :
  let out := bookingHandlers.markAsPaid Sample.delivering (Sample.req "b9")
               None (Some " INV-7 ") Missing Sample.db in
  ∃ b',
    find (Bookings.has_id "b9") (bookings (snd out)) = Some b'
    ∧ Booking.paymentStatus b' = "paid"
    ∧ Booking.status b' = "cancelled"
    ∧ Booking.invoiceNumber b' = Some "INV-7"
    ∧ Booking.paymentDate b' = Some 1764547200000.
Proof.
  intros out.
  destruct (markAsPaid_effect Sample.delivering (Sample.req "b9") None
              (Some " INV-7 ") Missing Sample.db
              (Sample.booked "b9" "q9" 1767571200000 (Some 1767744000000)
                 "cancelled" None) eq_refl eq_refl)
    as [Hok _]; [discriminate|].
  destruct Hok as (b' & _ & Hfind & Hpaid & _ & Hdate & _ & Hinv & Hst & _).
  - intros m [=].
  - exists b'. split; [exact Hfind|]. split; [exact Hpaid|].
    split; [exact Hst|]. split; [exact Hinv | exact Hdate].
Defined.

Lemma deleteBooking_run req db :
  bookingHandlers.deleteBooking req db =
    match find (Bookings.has_id (id req)) (bookings db) with
    | None => (reply 404 false "Booking not found", db)
    | Some booking =>
        (reply 200 true "Booking deleted successfully",
         store_bookings
           (filter (λ x, Booking._id x ≠ Booking._id booking) (bookings db))
           db)
    end.
Proof.
  unfold bookingHandlers.deleteBooking, Bookings.findById. run.
  by destruct (find _ _).
Qed.

Lemma find_has_id_none bid l :
  (∀ x, x ∈ l → Booking._id x ≠ bid) →
  find (Bookings.has_id bid) l = None.
Proof.
  intros H. induction l as [|x l IH]; [done|]. simpl.
  destruct (Bookings.has_id bid x) eqn:Hx.
  - apply has_id_eq in Hx. exfalso. apply (H x); [left | done].
  - apply IH. intros y Hy. apply H. by right.
Qed.

Lemma NoDup_fmap_same {A B} (f : A → B) (l : list A) x y :
  NoDup (f <$> l) → x ∈ l → y ∈ l → f x = f y → x = y.
Proof.
  induction l as [|z l IH]; [by intros _ ?%elem_of_nil|]. csimpl.
  intros [Hz Hnd]%NoDup_cons [->|Hx]%elem_of_cons [->|Hy]%elem_of_cons Heq;
    try done.
  - exfalso. apply Hz. rewrite Heq. by apply list_elem_of_fmap_2.
  - exfalso. apply Hz. rewrite <- Heq. by apply list_elem_of_fmap_2.
  - by apply IH.
Qed.

(** X17.  [deleteBooking] on a stored booking answers 200 and removes the
    documents with that [_id] and nothing else: the remaining bookings keep
    their order, quotes, users and the audit log are untouched, and the
    booking can no longer be read (404).  When no two bookings reference the
    same quote, the quote of the deleted booking is left without a booking,
    so a booking can be created from it again. *)
Theorem deleteBooking_frees_quote req db b :
  find (Bookings.has_id (id req)) (bookings db) = Some b →
  let out := bookingHandlers.deleteBooking req db in
  fst out = reply 200 true "Booking deleted successfully"
  ∧ (∀ x, x ∈ bookings (snd out) ↔ x ∈ bookings db ∧ Booking._id x ≠ id req)
  ∧ bookings (snd out) `sublist_of` bookings db
  ∧ quotes (snd out) = quotes db
  ∧ users (snd out) = users db
  ∧ history (snd out) = history db
  ∧ (∀ req2,
       id req2 = id req →
       bookingHandlers.getBookingById req2 (snd out)
       = (reply 404 false "Booking not found", snd out))
  ∧ (NoDup (Booking.quoteRequest <$> bookings db) →
     bookingsFor (Booking.quoteRequest b) (snd out) = []).
Proof.
  intros Hfind out. subst out. rewrite deleteBooking_run, Hfind. simpl.
  pose proof (find_has_id _ _ _ Hfind) as Hid. rewrite Hid.
  assert (Hmem : ∀ x,
    x ∈ filter (λ x, Booking._id x ≠ id req) (bookings db)
    ↔ x ∈ bookings db ∧ Booking._id x ≠ id req).
  { intros x. rewrite list_elem_of_filter. tauto. }
  split; [done|]. split; [exact Hmem|]. split; [apply sublist_filter|].
  repeat split.
  - intros req2 Hreq. rewrite getBookingById_run, Hreq. simpl.
    rewrite find_has_id_none; [done|]. intros x Hx.
    by apply Hmem in Hx as [_ ?].
  - intros Hnd. unfold bookingsFor. simpl. apply elem_of_nil_inv.
    intros x Hx. apply list_elem_of_filter in Hx as [Hq Hx].
    apply Hmem in Hx as [Hx Hne]. apply Hne. rewrite <- Hid. f_equal.
    apply (NoDup_fmap_same Booking.quoteRequest (bookings db)); try done.
    apply find_some in Hfind as [Hin _]. by apply list_elem_of_In.
Qed.

Lemma deleteBooking_frees_quote_witness :
  let booked := snd (bookingController.createBookingFromQuotation
                       Sample.delivering "q2" Sample.db) in
  let out := bookingHandlers.deleteBooking (Sample.req "b10") booked in
  length (bookingsFor "q2" booked) = 1%nat
  ∧ fst out = reply 200 true "Booking deleted successfully"
  ∧ bookingsFor "q2" (snd out) = []
  ∧ code (fst (bookingController.createBookingFromQuotation Sample.delivering
                 "q2" (snd out))) = 201.
Proof.
  intros booked out. split; [reflexivity|].
  destruct (deleteBooking_frees_quote (Sample.req "b10") booked
              (Booking.preSave (tz Sample.delivering)
                 (Bookings.cast
                    (bookingController.fromQuotation Sample.delivering "q2"
                       (Sample.trip "approved" (Some 15000)
                          (Some "AC included"))))))
    as (Hreply & _ & _ & _ & _ & _ & _ & Hfree).
  - reflexivity.
  - fold out in Hreply, Hfree. split; [exact Hreply|]. split.
    + apply Hfree. apply (bool_decide_unpack _). by vm_compute.
    + vm_compute; reflexivity.
Defined.

(** ** Sequences of requests *)

Lemma preSave_validate tz b :
  Booking.validate (Booking.preSave tz b) = Booking.validate b.
Proof. unfold Booking.preSave. repeat case_match; reflexivity. Qed.

Lemma preSave_returns tz b :
  Booking.validate b = true →
  is_Some (Booking.returnDate (Booking.preSave tz b)).
Proof.
  intros Hv. destruct (Booking.returnDate b) as [r|] eqn:Hr.
  - rewrite (preSave_explicit _ _ r Hr), Hr. by eexists.
  - pose proof Hv as Hv'.
    unfold Booking.validate in Hv. rewrite !andb_true_iff in Hv.
    destruct Hv as [[[[[[[[[[[[_ _] Hd] Hn] _] _] _] _] _] _] _] _] _].
    apply bool_decide_eq_true in Hd as [d Hd].
    destruct (Booking.numberOfDays b) as [n|] eqn:Hn'; [|discriminate].
    rewrite (preSave_computed tz b d n Hv' Hr Hd Hn'). by eexists.
Qed.

Lemma preSave_same_trip tz b : same_trip b (Booking.preSave tz b).
Proof. unfold same_trip. repeat split; hook. Qed.

Lemma same_trip_trans a b c : same_trip a b → same_trip b c → same_trip a c.
Proof. unfold same_trip. intros H1 H2. destruct_and!. repeat split; congruence. Qed.

Lemma assigned_same_trip status notes b :
  same_trip b (bookingController.assigned status notes b)
  ∧ Booking.returnDate (bookingController.assigned status notes b)
    = Booking.returnDate b.
Proof. unfold same_trip. repeat split; assigned_cases. Qed.

(** What one request does to the database: a request of the quote controller
    leaves the bookings alone; any other request leaves everything alone, or
    appends one booking, or replaces the bookings of one [_id] by a saved
    version, or removes the bookings of one [_id]. *)
Lemma step_shape env a db :
  let db' := step env a db in
  if on_quotes a then bookings db' = bookings db
  else
    db' = db
    ∨ (∃ b',
         db' = store_bookings (bookings db ++ [b']) db
         ∧ Booking.validate b' = true
         ∧ is_Some (Booking.returnDate b')
         ∧ Forall (λ x, Booking._id x ≠ Booking._id b') (bookings db)
         ∧ Forall (λ x, Booking.quoteRequest x ≠ Booking.quoteRequest b')
             (bookings db))
    ∨ (∃ b doc,
         find (Bookings.has_id (Booking._id b)) (bookings db) = Some b
         ∧ Booking.validate doc = true
         ∧ same_trip b doc
         ∧ Booking.returnDate doc = Booking.returnDate b
         ∧ db' =
             store_bookings
               (map (λ x, if Bookings.has_id (Booking._id b) x
                          then Booking.preSave (tz env) doc else x)
                  (bookings db))
               db)
    ∨ (∃ bid,
         db' =
           store_bookings
             (filter (λ x, Booking._id x ≠ bid) (bookings db)) db).
Proof.
  assert (Hsave : ∀ req doc b (ok : Booking.t → Response)
                    (ko : Exn → Response),
    find (Bookings.has_id (id req)) (bookings db) = Some b →
    same_trip b doc →
    Booking.returnDate doc = Booking.returnDate b →
    let db' :=
      snd (match Bookings.save env false doc db with
           | (inl e, d) => (ko e, d)
           | (inr saved, d) => (ok saved, d)
           end) in
    db' = db
    ∨ (∃ b0 doc0,
         find (Bookings.has_id (Booking._id b0)) (bookings db) = Some b0
         ∧ Booking.validate doc0 = true
         ∧ same_trip b0 doc0
         ∧ Booking.returnDate doc0 = Booking.returnDate b0
         ∧ db' =
             store_bookings
               (map (λ x, if Bookings.has_id (Booking._id b0) x
                          then Booking.preSave (tz env) doc0 else x)
                  (bookings db))
               db)).
  { intros req doc b ok ko Hfind Htrip Hret db'. subst db'.
    rewrite save_run. destruct (Booking.validate doc) eqn:Hv; [|by left].
    right. exists b, doc. cbv zeta. cbn [snd]. rewrite preSave_id.
    pose proof (find_has_id _ _ _ Hfind) as Hid.
    pose proof Htrip as (Hdoc & _). rewrite <- Hdoc, Hid.
    split; [exact Hfind|]. split; [exact Hv|]. split; [exact Htrip|].
    split; [exact Hret | reflexivity]. }
  destruct a as [req body | req st pr nt | req | req pr nt | qid
                | req st nt | req pm inv date | req reason | req]; simpl.
  - rewrite createQuote_run. cbv zeta. repeat case_match; reflexivity.
  - rewrite updateQuote_run. cbv zeta. repeat case_match; reflexivity.
  - rewrite deleteQuote_run. cbv zeta. repeat case_match; reflexivity.
  - destruct (submitQuotation_cases env req pr nt db)
      as [-> | [-> | [(_ & _ & _ & ->) | (p & q & _ & _ & _ & _ & Hout)]]];
      try reflexivity.
    destruct Hout as [(_ & _ & _ & ->) | (mid & ->)]; reflexivity.
  - rewrite createBookingFromQuotation_run.
    destruct (quotes db !! qid) as [quote|]; [|by left].
    destruct (negb _); [by left|].
    destruct (find _ _) eqn:Hnone; [by left|].
    destruct (users db !! _); [|by left].
    rewrite create_run. simpl.
    destruct (Booking.validate _) eqn:Hv; [|by left].
    destruct (existsb _ _) eqn:Hfresh; [by left|].
    right. left. eexists. split; [reflexivity|].
    rewrite preSave_validate. split; [exact Hv|].
    split; [by apply preSave_returns|].
    rewrite preSave_id, preSave_quoteRequest. simpl. split.
    + apply Forall_forall. intros x Hx Heq.
      rewrite preSave_id in Hfresh. simpl in Hfresh.
      assert (existsb (Bookings.has_id (newId env)) (bookings db) = true);
        [|congruence].
      apply existsb_exists. exists x. split; [by apply list_elem_of_In|].
      by apply has_id_eq.
    + apply Forall_forall. intros x Hx Heq.
      apply list_elem_of_In in Hx.
      apply (find_none _ _ Hnone) in Hx. apply references_eq in Heq.
      congruence.
  - rewrite updateBookingStatus_run.
    destruct (find _ _) as [b|] eqn:Hfind; [|by left].
    destruct (assigned_same_trip st nt b) as [Htrip Hret].
    destruct (Hsave req _ b
                (λ saved, reply_data 200 true "Booking updated successfully"
                            (BookingData saved))
                (λ e, reply_error e "Error updating booking")
                Hfind Htrip Hret) as [H|H]; [by left | right; right; by left].
  - rewrite markAsPaid_run.
    destruct (find _ _) as [b|] eqn:Hfind; [|by left].
    destruct date as [| |t|t]; [|by left|..].
    all: match goal with
         | |- context [paid ?d ?m ?i ?b0] =>
             destruct (Hsave req (paid d m i b0) b0
                         (λ saved, reply_data 200 true
                                     "Booking marked as paid"
                                     (BookingData saved))
                         (λ e, reply_error e "Error updating payment status")
                         Hfind) as [H|H]
         end;
      [by repeat split | reflexivity | by left | right; right; by left].
  - rewrite cancelBooking_run.
    destruct (find _ _) as [b|] eqn:Hfind; [|by left].
    destruct (String.eqb _ _); [by left|].
    destruct (Hsave req (Booking.cancel (now env) (actor req) reason b) b
                (λ saved, reply_data 200 true "Booking cancelled successfully"
                            (BookingData saved))
                (λ e, reply_error e "Error cancelling booking")
                Hfind) as [H|H];
      [by repeat split | reflexivity | by left | right; right; by left].
  - rewrite deleteBooking_run.
    destruct (find _ _) as [b|]; [|by left].
    right. right. right. by eexists.
Qed.







Lemma same_trip_refl b : same_trip b b.
Proof. unfold same_trip. repeat split. Qed.

(** X19.  No request changes what a stored booking is about: after any one
    request, each booking in the store either has an [_id] no booking had
    before, or is a version of a booking that was there with the same [_id],
    quote, customer, trip (places, dates, days, bus, passengers, special
    requests) and prices, and with the same return date if it had one. *)
Theorem step_keeps_trips env a db b' :
  b' ∈ bookings (step env a db) →
  Forall (λ x, Booking._id x ≠ Booking._id b') (bookings db)
  ∨ ∃ b,
      b ∈ bookings db
      ∧ same_trip b b'
      ∧ (is_Some (Booking.returnDate b) →
         Booking.returnDate b' = Booking.returnDate b).
Proof.
  intros Hin. pose proof (step_shape env a db) as Hshape. cbv zeta in Hshape.
  assert (Hold : b' ∈ bookings db →
    ∃ b, b ∈ bookings db ∧ same_trip b b'
         ∧ (is_Some (Booking.returnDate b) →
            Booking.returnDate b' = Booking.returnDate b)).
  { intros H. exists b'. split; [done|]. split; [apply same_trip_refl | done]. }
  destruct (on_quotes a); [right; apply Hold; by rewrite <- Hshape|].
  destruct Hshape as [Heq | [(new & Heq & _ & _ & Hid & _)
    | [(b & doc & Hfind & _ & Htrip & Hret & Heq) | (bid & Heq)]]];
    rewrite Heq in Hin; simpl in Hin.
  - right. by apply Hold.
  - apply elem_of_app in Hin as [Hin | ->%list_elem_of_singleton];
      [right; by apply Hold | by left].
  - apply list_elem_of_fmap in Hin as (x & -> & Hx).
    destruct (Bookings.has_id (Booking._id b) x); [|right; by apply Hold].
    right. exists b. split.
    { apply find_some in Hfind as [H _]. by apply list_elem_of_In. }
    split.
    + eapply same_trip_trans; [exact Htrip | apply preSave_same_trip].
    + intros Hsome. rewrite <- Hret in Hsome |- *.
      destruct Hsome as [r Hr]. by rewrite (preSave_explicit _ _ r Hr).
  - apply list_elem_of_filter in Hin as [_ Hin]. right. by apply Hold.
Qed.

Lemma step_keeps_trips_witness :
  let before := Sample.booked "b8" "q8" 1765756800000 (Some 1765929600000)
                  "confirmed" (Some "Bring water") in
  let after := Booking.cancel (now Sample.delivering) "admin1" (Some "rain")
                 before in
  after ∈ bookings (step Sample.delivering
                      (CancelBooking (Sample.req "b8") (Some "rain"))
                      Sample.db)
  ∧ ∃ b,
      b ∈ bookings Sample.db
      ∧ same_trip b after
      ∧ Booking.returnDate after = Booking.returnDate b.
Proof.
  intros before after.
  assert (Hin : after ∈ bookings (step Sample.delivering
                                    (CancelBooking (Sample.req "b8")
                                       (Some "rain")) Sample.db)).
  { vm_compute. apply list_elem_of_In. right. left. reflexivity. }
  split; [exact Hin|].
  destruct (step_keeps_trips _ _ _ _ Hin) as [Hnew | (b & Hb & Htrip & Hret)].
  - exfalso. apply Forall_forall with (x := before) in Hnew; [by apply Hnew|].
    apply list_elem_of_In. right. left. reflexivity.
  - exists b. split; [exact Hb|]. split; [exact Htrip|]. apply Hret.
    apply same_trip_trans with (a := b) (b := after) (c := after) in Htrip;
      [|apply same_trip_refl].
    assert (Heq : b = before).
    { apply (NoDup_fmap_same Booking._id (bookings Sample.db)); try done.
      - apply (bool_decide_unpack _). by vm_compute.
      - apply list_elem_of_In. right. left. reflexivity.
      - by destruct Htrip as (-> & _). }
    rewrite Heq. by eexists.
Defined.

(** What one request does to the users and to the audit log. *)
Lemma step_log env a db :
  users (step env a db) = users db
  ∧ ∃ added,
      history (step env a db) = (history db ++ added)%list
      ∧ (added = [] ∨ ∃ req p n, a = SubmitQuotation req p n).
Proof.
  pose proof (step_shape env a db) as Hshape. cbv zeta in Hshape.
  assert (Hsame : step env a db = db ∨
                  (∃ l, step env a db = store_bookings l db) ∨
                  (∃ k q, step env a db = store_quote k q db) ∨
                  (∃ k, step env a db = remove_quote k db) →
    users (step env a db) = users db
    ∧ ∃ added,
        history (step env a db) = (history db ++ added)%list
        ∧ (added = [] ∨ ∃ req p n, a = SubmitQuotation req p n)).
  { intros [-> | [(l & ->) | [(k & q & ->) | (k & ->)]]]; simpl;
      (split; [done|]); exists []; by rewrite app_nil_r; auto. }
  destruct a as [req body | req st pr nt | req | req pr nt | qid
                | req st nt | req pm inv date | req reason | req];
    cbn [on_quotes] in Hshape.
  - apply Hsame. simpl. rewrite createQuote_run. cbv zeta.
    repeat case_match; simpl; eauto 10.
  - apply Hsame. simpl. rewrite updateQuote_run. cbv zeta.
    repeat case_match; simpl; eauto 10.
  - apply Hsame. simpl. rewrite deleteQuote_run.
    repeat case_match; simpl; eauto 10.
  - simpl.
    destruct (submitQuotation_cases env req pr nt db)
      as [-> | [-> | [(_ & _ & _ & ->) | (p & q & _ & _ & _ & _ & Hout)]]];
      simpl; try (split; [done|]; exists []; by rewrite app_nil_r; auto).
    destruct Hout as [(_ & _ & _ & ->) | (mid & ->)]; simpl;
      (split; [done|]); eexists; (split; [|right; eauto]).
    + reflexivity.
    + by rewrite <- app_assoc.
  - apply Hsame. destruct Hshape as [H | [(b' & H & _)
      | [(b & doc & _ & _ & _ & _ & H) | (bid & H)]]]; rewrite H; eauto.
  - apply Hsame. destruct Hshape as [H | [(b' & H & _)
      | [(b & doc & _ & _ & _ & _ & H) | (bid & H)]]]; rewrite H; eauto.
  - apply Hsame. destruct Hshape as [H | [(b' & H & _)
      | [(b & doc & _ & _ & _ & _ & H) | (bid & H)]]]; rewrite H; eauto.
  - apply Hsame. destruct Hshape as [H | [(b' & H & _)
      | [(b & doc & _ & _ & _ & _ & H) | (bid & H)]]]; rewrite H; eauto.
  - apply Hsame. destruct Hshape as [H | [(b' & H & _)
      | [(b & doc & _ & _ & _ & _ & H) | (bid & H)]]]; rewrite H; eauto.
Qed.

(** X20.  Over any sequence of requests the audit log only grows at its end
    and the users are never written: the log at the start is a prefix of the
    log at the end, and the two are equal unless the sequence contains a
    [submitQuotation], the only request that writes entries (so
    [updateQuote], which can change status and price, leaves no trace). *)
Theorem run_all_log trace db :
  users (run_all trace db) = users db
  ∧ history db `prefix_of` history (run_all trace db)
  ∧ (history (run_all trace db) = history db
     ∨ Exists (λ ea, ∃ req p n, ea.2 = SubmitQuotation req p n) trace).
Proof.
  revert db. induction trace as [|[env a] trace IH]; intros db; simpl.
  { split; [done|]. split; [done | by left]. }
  destruct (IH (step env a db)) as (Hu & [rest Hp] & Hh).
  destruct (step_log env a db) as (Hu1 & added & Hh1 & Hsubmit).
  split; [congruence|]. split.
  - exists (added ++ rest)%list. by rewrite Hp, Hh1, <- app_assoc.
  - destruct Hh as [Hh | Hex]; [|right; by constructor 2].
    destruct Hsubmit as [-> | Hs]; [|right; by constructor 1].
    left. rewrite Hh, Hh1. apply app_nil_r.
Qed.

(** X21.  The two controllers keep to their own collections: a request of the
    quote controller never changes a booking, so a booking stays as it was
    copied when its quote is later repriced, edited or deleted; a request of
    the booking controller never changes a quote or the audit log. *)
Theorem step_separation env a db :
  if on_quotes a then bookings (step env a db) = bookings db
  else quotes (step env a db) = quotes db
       ∧ history (step env a db) = history db.
Proof.
  pose proof (step_shape env a db) as Hshape. cbv zeta in Hshape.
  destruct (on_quotes a); [exact Hshape|].
  destruct Hshape as [-> | [(b' & -> & _)
    | [(b & doc & _ & _ & _ & _ & ->) | (bid & ->)]]]; by split.
Qed.

(** ** Days until departure, and quotes approved without a price *)

Lemma ceil_whole_days k :
  Z.abs k ≤ 10 ^ 8 →
  Qceiling
    (JS.toDouble
       (JS.toDouble (inject_Z (k * JS.msPerDay)) / inject_Z JS.msPerDay))
  = k.
Proof.
  intros Hk.
  rewrite (toDouble_whole (inject_Z (k * JS.msPerDay)) (k * JS.msPerDay));
    [|reflexivity | unfold JS.maxSafe, JS.msPerDay; lia].
  rewrite (toDouble_whole _ k); [apply Qceiling_Z| |unfold JS.maxSafe; lia].
  rewrite inject_Z_mult. field. discriminate.
Qed.

(** X22.  [daysUntilDeparture] of a booking with a departure date, the two
    local days at most [10^8] days apart.  When the zone's offset at the
    local midnight of the departure day is the one at today's local
    midnight, the two midnights are whole days apart and the result is the
    number of the local calendar day of departure minus that of today:
    rounding up changes nothing.  So it is in a zone of constant offset,
    where the result is 0 for any time today and non-negative exactly for
    the departure dates the quote schema's validator accepts. *)
Theorem daysUntilDeparture_days tz now b d :
  Booking.departureDate b = Some d →
  let today := JS.Day (JS.LocalTime tz now) in
  let day := JS.Day (JS.LocalTime tz d) in
  Z.abs (day - today) ≤ 10 ^ 8 →
  (JS.offset_at tz (JS.msPerDay * day)
   = JS.offset_at tz (JS.msPerDay * today) →
   Virtuals.daysUntilDeparture tz now b = Some (day - today))
  ∧ ∀ c,
      JS.constant tz c →
      Virtuals.daysUntilDeparture tz now b
      = Some (JS.Day (d + c) - JS.Day (now + c))
      ∧ (QuoteRequest.departure_not_past tz now d = true
         ↔ 0 ≤ JS.Day (d + c) - JS.Day (now + c)).
Proof.
  intros Hd today day Hfar.
  assert (Hsame : JS.offset_at tz (JS.msPerDay * day)
                  = JS.offset_at tz (JS.msPerDay * today) →
                  Virtuals.daysUntilDeparture tz now b = Some (day - today)).
  { intros Hoff. unfold Virtuals.daysUntilDeparture. rewrite Hd. f_equal.
    unfold JS.setHours0, JS.UTC. fold today day. rewrite Hoff.
    replace (JS.msPerDay * day - JS.offset_at tz (JS.msPerDay * today)
             - (JS.msPerDay * today
                - JS.offset_at tz (JS.msPerDay * today)))
      with ((day - today) * JS.msPerDay) by lia.
    by apply ceil_whole_days. }
  split; [exact Hsame|]. intros c Hc.
  assert (Hday : day = JS.Day (d + c) ∧ today = JS.Day (now + c)).
  { unfold day, today, JS.LocalTime.
    destruct (Hc d) as [-> _]. by destruct (Hc now) as [-> _]. }
  destruct Hday as [Hday Htoday]. split.
  - rewrite <- Hday, <- Htoday. apply Hsame.
    destruct (Hc (JS.msPerDay * day)) as [_ ->].
    by destruct (Hc (JS.msPerDay * today)) as [_ ->].
  - unfold QuoteRequest.departure_not_past.
    rewrite Z.leb_le, (not_past_iff tz c) by exact Hc. lia.
Qed.

Lemma daysUntilDeparture_days_witness :
  let b := Sample.booked "b8" "q8" 1765756800000 (Some 1765929600000)
             "confirmed" None in
  Virtuals.daysUntilDeparture (tz Sample.delivering) (now Sample.delivering) b
  = Some 14
  ∧ Virtuals.daysUntilDeparture (tz Sample.delivering) 1765756900000 b
    = Some 0.
Proof.
  intros b. split.
  - destruct (daysUntilDeparture_days (tz Sample.delivering)
                (now Sample.delivering) b 1765756800000 eq_refl) as [H _];
      [vm_compute; discriminate|].
    rewrite H; reflexivity.
  - destruct (daysUntilDeparture_days (tz Sample.delivering) 1765756900000 b
                1765756800000 eq_refl) as [H _];
      [vm_compute; discriminate|].
    rewrite H; reflexivity.
Defined.

(** Across the end of summer time the two local midnights are not whole
    days apart, and the rounding adds a day: seen on 2025-11-01 in the zone
    that goes from UTC-4 to UTC-5 on 2025-11-02 at 06:00 UTC, a departure on
    2025-11-03 at 12:00 UTC, two local days ahead, is three days away. *)
Example daysUntilDeparture_across_a_change :
  let tz := JS.changing 1762063200000 (-14400000) (-18000000) in
  let b := Sample.booked "b8" "q8" 1762171200000 None "confirmed" None in
  JS.Day (JS.LocalTime tz 1762171200000)
  - JS.Day (JS.LocalTime tz 1761998400000) = 2
  ∧ Virtuals.daysUntilDeparture tz 1761998400000 b = Some 3.
Proof. split; vm_compute; reflexivity. Qed.

(** X23.  A quote can be approved without ever being priced ([updateQuote]
    sets any status), but no booking can be made from it: for an approved
    quote without a price, with no booking yet and its customer on file,
    [createBookingFromQuotation] answers 500 with the validation error (the
    required prices are missing) and stores nothing. *)
Theorem createBookingFromQuotation_unpriced env qid db q u :
  quotes db !! qid = Some q →
  QuoteRequest.status q = "approved" →
  QuoteRequest.estimatedPrice q = None →
  bookingsFor qid db = [] →
  users db !! QuoteRequest.user q = Some u →
  bookingController.createBookingFromQuotation env qid db
  = (reply_error (ValidationError "Booking") "Error creating booking", db).
Proof.
  intros Hq Hst Hprice Hnone Hu.
  rewrite createBookingFromQuotation_run, Hq, Hst, String.eqb_refl.
  cbn [negb]. rewrite (bookingsFor_none _ _ Hnone), Hu, create_run. cbv zeta.
  assert (Hv : Booking.validate
                 (Bookings.cast (bookingController.fromQuotation env qid q))
               = false).
  { apply not_true_is_false. intros Hv. unfold Booking.validate in Hv.
    rewrite !andb_true_iff in Hv.
    destruct Hv as [[[[[[_ Hp] _] _] _] _] _].
    simpl in Hp. rewrite Hprice in Hp. discriminate. }
  by rewrite Hv.
Qed.

Lemma createBookingFromQuotation_unpriced_witness :
  let db := snd (quoteHandlers.updateQuote Sample.delivering (Sample.req "q1")
                   (Some "approved") None None Sample.db) in
  QuoteRequest.status <$> quotes db !! "q1" = Some "approved"
  ∧ bookingController.createBookingFromQuotation Sample.delivering "q1" db
    = (reply_error (ValidationError "Booking") "Error creating booking", db).
Proof.
  intros db. split; [vm_compute; reflexivity|].
  apply (createBookingFromQuotation_unpriced Sample.delivering "q1" db
           (Sample.trip "approved" None None) Sample.alice).
  - vm_compute; reflexivity.
  - reflexivity.
  - reflexivity.
  - reflexivity.
  - vm_compute; reflexivity.
Defined.

(** ** Display codes *)

Lemma substring_length n m s :
  String.length (String.substring n m s)
  = Nat.min m (String.length s - n).
Proof.
  revert n m. induction s as [|c s IH]; intros [|n] [|m];
    cbn [String.substring String.length]; rewrite ?IH; lia.
Qed.

Lemma toUpperCase_length s :
  String.length (JSOps.toUpperCase s) = String.length s.
Proof. induction s as [|c s IH]; simpl; congruence. Qed.

Lemma substring_whole n s :
  (String.length s ≤ n)%nat → String.substring 0 n s = s.
Proof.
  revert n. induction s as [|c s IH]; intros [|n] H;
    cbn [String.substring String.length] in *; try done; try lia.
  f_equal. apply IH. lia.
Qed.

Lemma all_hex_substring n m s :
  all_hex s = true → all_hex (String.substring n m s) = true.
Proof.
  revert n m. induction s as [|c s IH]; intros [|n] [|m] H;
    cbn [String.substring all_hex] in *; try done.
  - apply andb_true_iff in H as [-> H]. by rewrite (IH 0%nat m H).
  - apply andb_true_iff in H as [_ H]. by apply (IH n 0%nat).
  - apply andb_true_iff in H as [_ H]. by apply IH.
Qed.

(** On hexadecimal digits, putting into upper case loses nothing. *)
Lemma upper_hex_inj c1 c2 :
  hex c1 = true → hex c2 = true → JSOps.upper c1 = JSOps.upper c2 → c1 = c2.
Proof.
  unfold hex, JSOps.upper. intros H1 H2 Hu.
  rewrite <- (ascii_nat_embedding c1), <- (ascii_nat_embedding c2).
  f_equal.
  assert (Hbound : ∀ n, (n < 256)%nat →
                        nat_of_ascii (ascii_of_nat n) = n)
    by (intros; by apply nat_ascii_embedding).
  pose proof (nat_ascii_bounded c1). pose proof (nat_ascii_bounded c2).
  apply (f_equal nat_of_ascii) in Hu.
  destruct ((97 <=? nat_of_ascii c1)%nat && (nat_of_ascii c1 <=? 122)%nat)
    eqn:E1;
    destruct ((97 <=? nat_of_ascii c2)%nat && (nat_of_ascii c2 <=? 122)%nat)
      eqn:E2;
    rewrite ?Hbound in Hu by lia;
    rewrite ?orb_true_iff, ?andb_true_iff, ?andb_false_iff,
      ?Nat.leb_le, ?Nat.leb_gt in *; lia.
Qed.

Lemma toUpperCase_hex_inj s1 s2 :
  all_hex s1 = true → all_hex s2 = true →
  JSOps.toUpperCase s1 = JSOps.toUpperCase s2 → s1 = s2.
Proof.
  revert s2. induction s1 as [|c1 s1 IH]; intros [|c2 s2] H1 H2 Hu;
    cbn [JSOps.toUpperCase all_hex] in *; try done.
  apply andb_true_iff in H1 as [Hc1 H1], H2 as [Hc2 H2].
  injection Hu as Hc Hs. f_equal; [by apply upper_hex_inj | by apply IH].
Qed.

Lemma bookingNumber_wellformed b :
  wellformed (Booking._id b) →
  Virtuals.bookingNumber b
  = String "B" (String "K" (String "-"
      (JSOps.toUpperCase (String.substring 16 8 (Booking._id b))))).
Proof.
  intros [Hlen _]. unfold Virtuals.bookingNumber, JSOps.slice_last.
  by rewrite Hlen.
Qed.

(** X24.  The booking number of a booking whose [_id] is a well-formed
    ObjectId (24 hexadecimal digits) has 11 characters: ["BK-"], then the
    last 8 digits of the [_id], the 17th to the 24th, in upper case.  So two
    such bookings have the same booking number exactly when their [_id]s end
    in the same 8 digits: the 16 digits before do not count. *)
Theorem bookingNumber_shape b :
  wellformed (Booking._id b) →
  String.length (Virtuals.bookingNumber b) = 11%nat
  ∧ String.substring 0 3 (Virtuals.bookingNumber b) = "BK-"
  ∧ String.substring 3 8 (Virtuals.bookingNumber b)
    = JSOps.toUpperCase (String.substring 16 8 (Booking._id b))
  ∧ ∀ b2,
      wellformed (Booking._id b2) →
      Virtuals.bookingNumber b = Virtuals.bookingNumber b2
      ↔ String.substring 16 8 (Booking._id b)
        = String.substring 16 8 (Booking._id b2).
Proof.
  intros Hb. pose proof Hb as [Hlen Hhex].
  rewrite (bookingNumber_wellformed b Hb).
  assert (Hl : String.length
                 (JSOps.toUpperCase (String.substring 16 8 (Booking._id b)))
               = 8%nat).
  { rewrite toUpperCase_length, substring_length, Hlen. reflexivity. }
  split; [cbn [String.length]; by rewrite Hl|].
  split.
  { cbn [String.substring].
    by destruct (JSOps.toUpperCase _). }
  split; [cbn [String.substring]; apply substring_whole; lia|].
  intros b2 Hb2. rewrite (bookingNumber_wellformed b2 Hb2).
  destruct Hb2 as [_ Hhex2]. split.
  - intros [= Hu]. apply toUpperCase_hex_inj in Hu;
      [exact Hu | by apply all_hex_substring..].
  - by intros ->.
Qed.

Lemma bookingNumber_shape_witness :
  let a := Sample.booked "65f1c2a9d4e8b7a6c5d4e3f2" "q8" 0 None "confirmed"
             None in
  let b := Sample.booked "0000000000000000c5d4e3f2" "q9" 0 None "confirmed"
             None in
  Virtuals.bookingNumber a = "BK-C5D4E3F2"
  ∧ Virtuals.bookingNumber a = Virtuals.bookingNumber b.
Proof.
  intros a b.
  destruct (bookingNumber_shape a) as (_ & _ & _ & Hsame);
    [by split|].
  split; [reflexivity|]. apply (Hsame b); [by split | reflexivity].
Defined.
